(** * repalgo: the signal engine and the risk gate

  A shallow embedding of [src/core/risk.py] (class [RiskManager]) and
  [src/core/signals.py] (class [AISignalEngine]), with the properties the
  specification states about them.

  Modelling conventions.
  - Python numbers ([int] and [float]) are exact rationals ([Q]); rounding
    of binary floating point is not modelled, except where the code takes
    the [int] of a quotient: [calculate_position_size] is computed in
    binary64 ([Float64]).  Division by zero raises [ZeroDivisionError], as in
    Python.
  - The option chain is a [pandas.DataFrame].  [Signals] takes its rows when
    every row has the same fields; [Frame] takes the frame made of any dicts,
    where a missing cell is NaN.
  - A Python [dict] with a fixed set of expected keys is a record whose
    fields are [option]s: [None] means the key is absent, so [d.get(k, v)]
    is [dget v (k d)] and [d[k]] raises [KeyError] on [None].
  - A Python [dict] that is iterated is an association list in insertion
    order.
  - [datetime.now()] is an explicit argument; [print] appends to an explicit
    output; exceptions are the [Raise] case of [result]. *)

From Stdlib Require Import QArith Qabs Qround Qminmax ZArith List String Bool Lia Lqa.
From Stdlib Require Import SpecFloat.
Import ListNotations.

Local Open Scope string_scope.
Local Open Scope Q_scope.

(* ================================================================== *)
(** * Python prelude *)
(* ================================================================== *)

Module Py.

(** ** Comparisons on numbers, as booleans *)

Definition ltb (x y : Q) : bool := negb (Qle_bool y x).
Definition leb (x y : Q) : bool := Qle_bool x y.
Definition gtb (x y : Q) : bool := ltb y x.
Definition geb (x y : Q) : bool := leb y x.
Definition eqb (x y : Q) : bool := Qeq_bool x y.

(** [min(a, b)] and [max(a, b)] return the first argument unless the second
    is strictly better. *)
Definition min (a b : Q) : Q := if ltb b a then b else a.
Definition max (a b : Q) : Q := if gtb b a then b else a.

(** [int(x)] truncates towards zero. *)
Definition int (x : Q) : Z := Z.quot (Qnum x) (Zpos (Qden x)).

(** [len(l)] as a number. *)
Definition len {A : Type} (l : list A) : Q := inject_Z (Z.of_nat (List.length l)).

(** [sum(l)] *)
Definition sum (l : list Q) : Q := fold_left Qplus l 0.

(** ** Exceptions *)

Inductive exn : Type :=
| KeyError (key : string)
| ZeroDivisionError
| ValueError
| OverflowError.

Inductive result (A : Type) : Type :=
| Ok (a : A)
| Raise (e : exn).
Arguments Ok {A} a.
Arguments Raise {A} e.

Definition bind {A B : Type} (m : result A) (k : A -> result B) : result B :=
  match m with
  | Ok a => k a
  | Raise e => Raise e
  end.

(** [d.get(k, default)] *)
Definition dget {A : Type} (default : A) (field : option A) : A :=
  match field with
  | Some v => v
  | None => default
  end.

(** [d[k]] *)
Definition index {A : Type} (key : string) (field : option A) : result A :=
  match field with
  | Some v => Ok v
  | None => Raise (KeyError key)
  end.

(** [x / y] on Python numbers *)
Definition div (x y : Q) : result Q :=
  if eqb y 0 then Raise ZeroDivisionError else Ok (x / y).

(** ** [datetime] *)

Record datetime : Type := {
  weekday : nat;      (* 0 is Monday, 6 is Sunday *)
  hour : nat;
  minute : nat;
  second : nat;
  microsecond : nat
}.

(** Lexicographic order, the order of Python tuples and of the time of day
    of two [datetime]s of one date. *)
Fixpoint lex_leb (a b : list nat) : bool :=
  match a, b with
  | [], _ => true
  | _ :: _, [] => false
  | x :: a', y :: b' =>
      if Nat.ltb x y then true
      else if Nat.eqb x y then lex_leb a' b'
      else false
  end.

(** ** Association lists as insertion-ordered dicts *)

Fixpoint lookup {V : Type} (k : string) (d : list (string * V)) : option V :=
  match d with
  | [] => None
  | (k', v) :: d' => if String.eqb k k' then Some v else lookup k d'
  end.

Definition mem {V : Type} (k : string) (d : list (string * V)) : bool :=
  match lookup k d with
  | Some _ => true
  | None => false
  end.

End Py.

Notation "x <- m ;; k" := (Py.bind m (fun x => k))
(at level 61, m at next level, right associativity).

(* ================================================================== *)
(** * Python floats *)
(* ================================================================== *)

(** The [float] of Python is IEEE 754 binary64, here the [spec_float] of the
    library at precision 53: every operation returns the float nearest to
    the exact result, ties to even. *)
Module Float64.
Import Py.

Definition float : Type := spec_float.
Definition prec : Z := 53.
Definition emax : Z := 1024.

Definition zero : float := S754_zero false.

(** [x * y]: an overflow gives an infinity, as in Python. *)
Definition mul (x y : float) : float := SFmul prec emax x y.

(** [x < y], [x <= y] and [x == y]: false when either side is NaN. *)
Definition ltb (x y : float) : bool := SFltb x y.
Definition leb (x y : float) : bool := SFleb x y.
Definition eqb (x y : float) : bool := SFeqb x y.

(** [x / y] *)
Definition div (x y : float) : result float :=
  if eqb y zero then Raise ZeroDivisionError else Ok (SFdiv prec emax x y).

(** [min(a, b)] returns the first argument unless the second is less. *)
Definition min (a b : float) : float := if ltb b a then b else a.

(** The float that a number written in decimal is read as, and the float of
    an [int]: the nearest one, an infinity beyond the largest float.  A
    number that is a float is its own float. *)
Definition of_Q (q : Q) : float :=
  match Qnum q with
  | Z0 => zero
  | Zpos n =>
      let '(m, e, l) :=
        SFdiv_core_binary prec emax (Zpos n) 0 (Zpos (Qden q)) 0 in
      binary_round_aux prec emax false m e l
  | Zneg n =>
      let '(m, e, l) :=
        SFdiv_core_binary prec emax (Zpos n) 0 (Zpos (Qden q)) 0 in
      binary_round_aux prec emax true m e l
  end.

(** The number that a finite float is. *)
Definition to_Q (x : float) : option Q :=
  match x with
  | S754_zero _ => Some 0
  | S754_finite s m e =>
      let n := if s then Zneg m else Zpos m in
      Some (match e with
            | Z0 => inject_Z n
            | Zpos p => inject_Z (n * Z.pow_pos 2 p)
            | Zneg p => Qmake n (Pos.pow 2 p)
            end)
  | S754_infinity _ | S754_nan => None
  end.

(** [int(x)] truncates towards zero; it raises [OverflowError] on an
    infinity and [ValueError] on NaN. *)
Definition int (x : float) : result Z :=
  match x with
  | S754_nan => Raise ValueError
  | S754_infinity _ => Raise OverflowError
  | _ => Ok (Py.int (dget 0 (to_Q x)))
  end.

End Float64.

(* ================================================================== *)
(** * The risk gate: [src/core/risk.py] *)
(* ================================================================== *)

Module Risk.
Import Py.

(** The signal dict as [RiskManager] reads it. *)
Record Signal : Type := {
  symbol : option string;
  strike : option Q;
  price : option Q;
  quantity : option Q;
  lot_size : option Q;
  volume : option Q;
  open_interest : option Q;
  bid : option Q;
  ask : option Q;
  iv : option Q
}.

(** An entry of [current_positions].  [add_position] always stores the key
    ['symbol'] (its value is [None] when the trade had none) and never the
    key ['current_value']. *)
Record Position : Type := {
  pos_id : option string;
  pos_symbol : option string;
  pos_current_value : option Q
}.

Record RiskManager : Type := {
  max_loss_per_trade : Q;
  max_daily_loss : Q;
  max_portfolio_risk : Q;
  max_positions_per_symbol : Q;
  max_total_positions : Q;
  stop_loss_percent : Q;
  take_profit_percent : Q;
  position_size_percent : Q;
  min_volume : Q;
  max_bid_ask_spread : Q;
  min_open_interest : Q;
  market_open_time : nat * nat;
  market_close_time : nat * nat;
  no_trade_before : nat * nat;
  no_trade_after : nat * nat;
  enabled : bool;
  daily_pnl : Q;
  current_positions : list Position
}.

(** [RiskManager.__init__] *)
Definition init : RiskManager := {|
  max_loss_per_trade := 5000;
  max_daily_loss := 15000;
  max_portfolio_risk := 50000;
  max_positions_per_symbol := 3;
  max_total_positions := 10;
  stop_loss_percent := 10 # 100;
  take_profit_percent := 20 # 100;
  position_size_percent := 2 # 100;
  min_volume := 1000;
  max_bid_ask_spread := 5 # 100;
  min_open_interest := 5000;
  market_open_time := (9, 15)%nat;
  market_close_time := (15, 30)%nat;
  no_trade_before := (9, 20)%nat;
  no_trade_after := (15, 15)%nat;
  enabled := true;
  daily_pnl := 0;
  current_positions := []
|}.

Definition tuple_leb (a b : nat * nat) : bool :=
  lex_leb [fst a; snd a] [fst b; snd b].

Definition validate_trading_time (rm : RiskManager) (now : datetime) : bool :=
  let current_time := (hour now, minute now) in
  let within_market_hours :=
    tuple_leb (market_open_time rm) current_time
    && tuple_leb current_time (market_close_time rm) in
  let not_in_early_restriction := tuple_leb (no_trade_before rm) current_time in
  let not_in_late_restriction := tuple_leb current_time (no_trade_after rm) in
  let is_weekday := Nat.ltb (weekday now) 5 in
  within_market_hours && not_in_early_restriction
  && not_in_late_restriction && is_weekday.

Definition same_symbol (sym : string) (p : Position) : bool :=
  match pos_symbol p with
  | Some s => String.eqb s sym
  | None => false
  end.

Definition validate_position_limits (rm : RiskManager) (signal : Signal)
  : result bool :=
  sym <- index "symbol" (symbol signal) ;;
  let symbol_positions := len (filter (same_symbol sym) (current_positions rm)) in
  if geb symbol_positions (max_positions_per_symbol rm) then Ok false
  else if geb (len (current_positions rm)) (max_total_positions rm) then Ok false
  else Ok true.

Definition validate_risk_limits (rm : RiskManager) (signal : Signal) : bool :=
  let estimated_trade_value :=
    dget 0 (price signal) * dget 1 (quantity signal) in
  if gtb estimated_trade_value (max_loss_per_trade rm) then false
  else
    let current_portfolio_value :=
      sum (map (fun p => dget 0 (pos_current_value p)) (current_positions rm)) in
    if gtb (current_portfolio_value + estimated_trade_value) (max_portfolio_risk rm)
    then false
    else true.

Definition validate_daily_loss_limit (rm : RiskManager) : bool :=
  ltb (Qabs (daily_pnl rm)) (max_daily_loss rm).

Definition validate_liquidity (rm : RiskManager) (signal : Signal) : bool :=
  let volume := dget 0 (volume signal) in
  let open_interest := dget 0 (open_interest signal) in
  if ltb volume (min_volume rm) then false
  else if ltb open_interest (min_open_interest rm) then false
  else true.

Definition validate_spread (rm : RiskManager) (signal : Signal) : bool :=
  let bid := dget 0 (bid signal) in
  let ask := dget 0 (ask signal) in
  let ltp := dget 0 (price signal) in
  if eqb ltp 0 || leb ask bid then false
  else
    let spread_percent := (ask - bid) / ltp in
    leb spread_percent (max_bid_ask_spread rm).

Definition validate_volatility (rm : RiskManager) (signal : Signal) : bool :=
  let iv := dget 20 (iv signal) / 100 in
  if gtb iv (50 # 100) then false
  else if ltb iv (5 # 100) then false
  else true.

(** What [log_validation] prints: nothing when no check failed, otherwise the
    symbol, the strike and the list of the failed checks. *)
Record printed : Type := {
  printed_symbol : option string;
  printed_strike : option Q;
  printed_failed_checks : list string
}.

Definition log_validation (signal : Signal)
    (validation_results : list (string * bool)) : list printed :=
  let failed_checks :=
    map fst (filter (fun cr => negb (snd cr)) validation_results) in
  match failed_checks with
  | [] => []
  | _ :: _ =>
      [ {| printed_symbol := symbol signal;
           printed_strike := strike signal;
           printed_failed_checks := failed_checks |} ]
  end.

(** [validate_trade] returns a [bool]; the second component is what the call
    printed. *)
Definition validate_trade (rm : RiskManager) (now : datetime) (signal : Signal)
  : result (bool * list printed) :=
  if negb (enabled rm) then Ok (true, [])
  else
    let time_check := validate_trading_time rm now in
    position_limit_check <- validate_position_limits rm signal ;;
    let validation_results :=
      [ ("time_check", time_check);
        ("position_limit_check", position_limit_check);
        ("risk_limit_check", validate_risk_limits rm signal);
        ("liquidity_check", validate_liquidity rm signal);
        ("spread_check", validate_spread rm signal);
        ("volatility_check", validate_volatility rm signal);
        ("daily_loss_check", validate_daily_loss_limit rm) ] in
    let all_passed := forallb snd validation_results in
    Ok (all_passed, log_validation signal validation_results).

(** [calculate_position_size], in the arithmetic of Python floats: the
    number of lots is the [int] of a rounded quotient, where the rounding
    shows.  The numbers of the manager, of the signal and the capital stand
    for their floats ([Float64.of_Q]); an [int] among them is taken as its
    float, which is the same number below 2^53. *)
Definition calculate_position_size (rm : RiskManager) (signal : Signal)
    (available_capital : Q) : result Z :=
  let available_capital := Float64.of_Q available_capital in
  if Float64.leb available_capital Float64.zero then Ok 0%Z
  else
    let price_per_lot :=
      Float64.mul (Float64.of_Q (dget 0 (price signal)))
                  (Float64.of_Q (dget 75 (lot_size signal))) in
    if Float64.leb price_per_lot Float64.zero then Ok 1%Z
    else
      let max_amount :=
        Float64.mul available_capital (Float64.of_Q (position_size_percent rm)) in
      let risk_based_amount :=
        Float64.min max_amount (Float64.of_Q (max_loss_per_trade rm)) in
      quotient <- Float64.div risk_based_amount price_per_lot ;;
      lots <- Float64.int quotient ;;
      Ok (Z.max 1 lots).

End Risk.

(* ================================================================== *)
(** * The signal engine: [src/core/signals.py] *)
(* ================================================================== *)

Module Signals.
Import Py.

(** One row of the option chain, as [iterrows] yields it when the dicts of
    the chain all have the same keys, and the dict of a row otherwise (see
    [Frame]).  [option['k']] raises [KeyError] when the chain has no column
    [k]. *)
Record OptionRow : Type := {
  row_strike : option Q;
  row_type : option string;
  row_ltp : option Q;
  row_delta : option Q;
  row_oi_change : option Q;
  row_oi : option Q;
  row_volume : option Q;
  row_iv : option Q;
  row_bid : option Q;
  row_ask : option Q
}.

(** The dict [params] built for a row: its seven keys are always present. *)
Record ParameterScores : Type := {
  delta_score : Q;
  oi_score : Q;
  volume_score : Q;
  momentum_score : Q;
  iv_score : Q;
  spread_score : Q;
  liquidity_score : Q
}.

(** [params.items()], in the order of the dict literal. *)
Definition items (params : ParameterScores) : list (string * Q) :=
  [ ("delta_score", delta_score params);
    ("oi_score", oi_score params);
    ("volume_score", volume_score params);
    ("momentum_score", momentum_score params);
    ("iv_score", iv_score params);
    ("spread_score", spread_score params);
    ("liquidity_score", liquidity_score params) ].

Inductive Action : Type := BUY | SELL | HOLD.

Definition Action_eqb (a b : Action) : bool :=
  match a, b with
  | BUY, BUY | SELL, SELL | HOLD, HOLD => true
  | _, _ => false
  end.

Record AnalysisEntry : Type := {
  an_parameters : ParameterScores;
  an_confidence : Q;
  an_reasoning : string;
  an_option_data : OptionRow
}.

Record Signal : Type := {
  id : string;
  symbol : string;
  strike : Q;
  type : string;
  action : Action;
  confidence : Q;
  reasoning : string;
  timestamp : datetime;
  price : Q;
  parameters : ParameterScores;
  underlying_price : Q
}.

Record LearningRecord : Type := {
  lr_signal_id : string;
  lr_parameters : list (string * Q);
  lr_predicted_confidence : Q;
  lr_actual_outcome : string;
  lr_pnl : Q;
  lr_timestamp : datetime;
  lr_symbol : string;
  lr_action : Action
}.

(** The engine's state.  The two scikit-learn regressors and the scaler are
    external; of them only the flag [model_trained] is kept. *)
Record AISignalEngine : Type := {
  confidence_threshold : Q;
  signals_history : list Signal;
  model_trained : bool;
  learning_data : list LearningRecord;
  parameter_weights : list (string * Q)
}.

(** [AISignalEngine.__init__], with no saved learning data on disk. *)
Definition init : AISignalEngine := {|
  confidence_threshold := 6 # 10;
  signals_history := [];
  model_trained := false;
  learning_data := [];
  parameter_weights :=
    [ ("delta", 25 # 100);
      ("oi_change", 20 # 100);
      ("volume", 15 # 100);
      ("momentum", 15 # 100);
      ("iv", 10 # 100);
      ("spread", 10 # 100);
      ("liquidity", 5 # 100) ]
|}.

(** ** The parameter scorer *)

Definition delta_bucket (d : Q) : Q :=
  if gtb d (7 # 10) then 9 # 10
  else if gtb d (5 # 10) then 7 # 10
  else if gtb d (3 # 10) then 5 # 10
  else 2 # 10.

Definition analyze_delta (delta : Q) (option_type : string) : Q :=
  if String.eqb option_type "CE" then delta_bucket delta
  else
    let abs_delta := Qabs delta in
    delta_bucket abs_delta.

Definition analyze_oi_change (oi_change total_oi : Q) : Q :=
  if eqb total_oi 0 then 3 # 10
  else
    let oi_change_percent := (oi_change / total_oi) * 100 in
    if gtb (Qabs oi_change_percent) 20 then 9 # 10
    else if gtb (Qabs oi_change_percent) 10 then 7 # 10
    else if gtb (Qabs oi_change_percent) 5 then 5 # 10
    else 3 # 10.

Definition analyze_volume (volume oi : Q) : Q :=
  if eqb oi 0 then 3 # 10
  else
    let volume_ratio := volume / oi in
    if gtb volume_ratio (5 # 10) then 9 # 10
    else if gtb volume_ratio (3 # 10) then 7 # 10
    else if gtb volume_ratio (1 # 10) then 5 # 10
    else 3 # 10.

Definition momentum_bucket (distance_to_strike : Q) : Q :=
  if gtb distance_to_strike (2 # 100) then 8 # 10
  else if gtb distance_to_strike 0 then 6 # 10
  else if gtb distance_to_strike (- (2 # 100)) then 4 # 10
  else 2 # 10.

Definition analyze_momentum (ltp underlying_price strike : Q) (option_type : string)
  : result Q :=
  if String.eqb option_type "CE" then
    distance_to_strike <- div (underlying_price - strike) underlying_price ;;
    Ok (momentum_bucket distance_to_strike)
  else
    distance_to_strike <- div (strike - underlying_price) underlying_price ;;
    Ok (momentum_bucket distance_to_strike).

Definition analyze_iv (iv : Q) : Q :=
  if ltb iv 15 then 3 # 10
  else if ltb iv 25 then 7 # 10
  else if ltb iv 35 then 5 # 10
  else 2 # 10.

Definition analyze_spread (bid ask ltp : Q) : Q :=
  if leb ask bid || eqb ltp 0 then 1 # 10
  else
    let spread_percent := ((ask - bid) / ltp) * 100 in
    if ltb spread_percent 2 then 9 # 10
    else if ltb spread_percent 5 then 7 # 10
    else if ltb spread_percent 10 then 5 # 10
    else 2 # 10.

Definition analyze_liquidity (bid ask : Q) : Q :=
  if eqb bid 0 && eqb ask 0 then 1 # 10
  else if gtb bid 0 && gtb ask 0 then 8 # 10
  else if gtb bid 0 || gtb ask 0 then 5 # 10
  else 2 # 10.

(** ** Reasoning text *)

Definition strong_or_weak (score : Q) (strong weak : string) : list string :=
  if gtb score (7 # 10) then [strong]
  else if ltb score (3 # 10) then [weak]
  else [].

Definition generate_reasoning (params : ParameterScores) (option_type : string)
  : string :=
  let reasons :=
    List.concat
      [ strong_or_weak (delta_score params)
          "Strong Delta indicating good directional bias"
          "Weak Delta suggesting limited directional exposure";
        strong_or_weak (oi_score params)
          "Significant OI buildup indicating institutional interest"
          "Limited OI activity";
        strong_or_weak (volume_score params)
          "High volume confirming market participation"
          "Low volume suggesting limited interest";
        strong_or_weak (momentum_score params)
          "Favorable price momentum"
          "Unfavorable price momentum";
        strong_or_weak (iv_score params)
          "Optimal IV levels for entry"
          "Suboptimal IV levels";
        strong_or_weak (spread_score params)
          "Tight bid-ask spread ensuring good execution"
          "Wide spread may impact execution" ] in
  match reasons with
  | [] => "Mixed signals across parameters"
  | _ :: _ => String.concat "; " reasons
  end.

(** ** The confidence aggregator *)

(** [s.replace(pat, '')]: every occurrence of [pat], left to right, is dropped;
    [skip] counts the characters of a matched occurrence still to drop. *)
Fixpoint remove_from (pat : string) (skip : nat) (s : string) : string :=
  match s with
  | EmptyString => EmptyString
  | String c s' =>
      match skip with
      | S n => remove_from pat n s'
      | O =>
          if String.prefix pat s
          then remove_from pat (String.length pat - 1) s'
          else String c (remove_from pat 0 s')
      end
  end.

Definition replace_score (key : string) : string := remove_from "_score" 0 key.

(** [sum(params[key] * weights[key.replace('_score', '')] for key in params
         if key.replace('_score', '') in weights)] *)
Definition weighted_confidence (weights : list (string * Q))
    (params : ParameterScores) : Q :=
  sum (flat_map
         (fun kv =>
            match lookup (replace_score (fst kv)) weights with
            | Some w => [snd kv * w]
            | None => []
            end)
         (items params)).

(** ** [analyze_market_parameters] *)

(** The key [f"{option_type}_{strike}"] of the dict [analysis]: two keys are
    the same when the types are the same text and the strikes the same
    number. *)
Definition AnalysisKey : Type := (string * Q)%type.

Definition key_eqb (k k' : AnalysisKey) : bool :=
  String.eqb (fst k) (fst k') && eqb (snd k) (snd k').

(** [analysis[k] = v]: a key already present keeps its place. *)
Fixpoint dict_set (k : AnalysisKey) (v : AnalysisEntry)
    (d : list (AnalysisKey * AnalysisEntry)) : list (AnalysisKey * AnalysisEntry) :=
  match d with
  | [] => [(k, v)]
  | (k', v') :: d' =>
      if key_eqb k k' then (k', v) :: d' else (k', v') :: dict_set k v d'
  end.

(** The dict literal [params] of the loop body. *)
Definition score_option (option : OptionRow) (option_type : string) (strike : Q)
    (underlying_price : Q) : result ParameterScores :=
  delta <- index "delta" (row_delta option) ;;
  let delta_score := analyze_delta delta option_type in
  let oi_score :=
    analyze_oi_change (dget 0 (row_oi_change option)) (dget 0 (row_oi option)) in
  let volume_score :=
    analyze_volume (dget 0 (row_volume option)) (dget 0 (row_oi option)) in
  ltp <- index "ltp" (row_ltp option) ;;
  momentum_score <- analyze_momentum ltp underlying_price strike option_type ;;
  let iv_score := analyze_iv (dget 20 (row_iv option)) in
  let spread_score :=
    analyze_spread (dget 0 (row_bid option)) (dget 0 (row_ask option)) ltp in
  let liquidity_score :=
    analyze_liquidity (dget 0 (row_bid option)) (dget 0 (row_ask option)) in
  Ok {| delta_score := delta_score;
        oi_score := oi_score;
        volume_score := volume_score;
        momentum_score := momentum_score;
        iv_score := iv_score;
        spread_score := spread_score;
        liquidity_score := liquidity_score |}.

(** The body of the loop over the rows. *)
Definition analyze_option (weights : list (string * Q)) (underlying_price : Q)
    (analysis : list (AnalysisKey * AnalysisEntry)) (option : OptionRow)
  : result (list (AnalysisKey * AnalysisEntry)) :=
  strike <- index "strike" (row_strike option) ;;
  option_type <- index "type" (row_type option) ;;
  params <- score_option option option_type strike underlying_price ;;
  let confidence := weighted_confidence weights params in
  let reasoning := generate_reasoning params option_type in
  Ok (dict_set (option_type, strike)
        {| an_parameters := params;
           an_confidence := confidence;
           an_reasoning := reasoning;
           an_option_data := option |}
        analysis).

Fixpoint analyze_rows (weights : list (string * Q)) (underlying_price : Q)
    (analysis : list (AnalysisKey * AnalysisEntry)) (rows : list OptionRow)
  : result (list (AnalysisKey * AnalysisEntry)) :=
  match rows with
  | [] => Ok analysis
  | option :: rest =>
      analysis' <- analyze_option weights underlying_price analysis option ;;
      analyze_rows weights underlying_price analysis' rest
  end.

Definition analyze_market_parameters (self : AISignalEngine)
    (option_data : list OptionRow) (underlying_price : Q)
  : result (list (AnalysisKey * AnalysisEntry)) :=
  match option_data with
  | [] => Ok []
  | _ :: _ => analyze_rows (parameter_weights self) underlying_price [] option_data
  end.

(** ** [generate_signals] *)

Definition determine_action (parameters : ParameterScores) (option_type : string)
    (confidence : Q) : Action :=
  let strong_buy_conditions :=
    gtb (delta_score parameters) (7 # 10)
    && gtb (oi_score parameters) (6 # 10)
    && gtb (volume_score parameters) (5 # 10)
    && gtb (momentum_score parameters) (6 # 10) in
  let moderate_buy_conditions :=
    gtb (delta_score parameters) (5 # 10)
    && gtb (oi_score parameters) (4 # 10)
    && (gtb (volume_score parameters) (4 # 10)
        || gtb (momentum_score parameters) (5 # 10)) in
  let exit_conditions :=
    ltb (delta_score parameters) (3 # 10)
    || ltb (momentum_score parameters) (3 # 10)
    || ltb (iv_score parameters) (2 # 10) in
  if strong_buy_conditions || (moderate_buy_conditions && gtb confidence (7 # 10))
  then BUY
  else if exit_conditions && gtb confidence (5 # 10) then SELL
  else HOLD.

(** [market_open <= now <= market_close and now.weekday() < 5], where the two
    bounds are [now] with its time of day replaced. *)
Definition is_trading_time (now : datetime) : bool :=
  let time_of_day := [hour now; minute now; second now; microsecond now] in
  lex_leb [9; 15; 0; 0]%nat time_of_day
  && lex_leb time_of_day [15; 30; 0; 0]%nat
  && Nat.ltb (weekday now) 5.

(** The body of the loop over [analysis.items()].  [uuids n] is the text of
    the [n]-th [uuid.uuid4()] drawn by the call. *)
Definition emit_signal (self : AISignalEngine) (uuids : nat -> string)
    (current_time : datetime) (symbol : string) (underlying_price : Q)
    (signals : list Signal) (item : AnalysisKey * AnalysisEntry)
  : result (list Signal) :=
  let data := snd item in
  let confidence := an_confidence data in
  if geb confidence (confidence_threshold self) then
    let option_info := an_option_data data in
    option_type <- index "type" (row_type option_info) ;;
    let action := determine_action (an_parameters data) option_type confidence in
    if negb (Action_eqb action HOLD) then
      strike <- index "strike" (row_strike option_info) ;;
      ltp <- index "ltp" (row_ltp option_info) ;;
      let signal :=
        {| id := uuids (List.length signals);
           symbol := symbol;
           strike := strike;
           type := option_type;
           action := action;
           confidence := confidence * 100;
           reasoning := an_reasoning data;
           timestamp := current_time;
           price := ltp;
           parameters := an_parameters data;
           underlying_price := underlying_price |} in
      Ok (signals ++ [signal])%list
    else Ok signals
  else Ok signals.

Fixpoint emit_signals (self : AISignalEngine) (uuids : nat -> string)
    (current_time : datetime) (symbol : string) (underlying_price : Q)
    (signals : list Signal) (analysis : list (AnalysisKey * AnalysisEntry))
  : result (list Signal) :=
  match analysis with
  | [] => Ok signals
  | item :: rest =>
      signals' <- emit_signal self uuids current_time symbol underlying_price
                    signals item ;;
      emit_signals self uuids current_time symbol underlying_price signals' rest
  end.

(** [l[-n:]] *)
Definition last_n {A : Type} (n : nat) (l : list A) : list A :=
  skipn (List.length l - n) l.

(** [sorted(signals, key=lambda x: x['confidence'], reverse=True)]: stable,
    so signals of equal confidence keep their order. *)
Fixpoint insert_by_confidence (x : Signal) (l : list Signal) : list Signal :=
  match l with
  | [] => [x]
  | y :: l' =>
      if geb (confidence y) (confidence x) then y :: insert_by_confidence x l'
      else x :: l
  end.

Definition sorted_by_confidence (signals : list Signal) : list Signal :=
  fold_left (fun acc x => insert_by_confidence x acc) signals [].

(** [current_time] and [now] are the two readings of the clock, the first
    for the timestamps and the second by [is_trading_time].  The argument
    [market_data] is never read and is left out. *)
Definition generate_signals (self : AISignalEngine) (uuids : nat -> string)
    (current_time now : datetime) (symbol : string)
    (option_chain : list OptionRow) (underlying_price : Q)
  : result (list Signal * AISignalEngine) :=
  match option_chain with
  | [] => Ok ([], self)
  | _ :: _ =>
      analysis <- analyze_market_parameters self option_chain underlying_price ;;
      let signals := [] in
      if negb (is_trading_time now) then Ok (signals, self)
      else
        signals <- emit_signals self uuids current_time symbol underlying_price
                     signals analysis ;;
        let history := (signals_history self ++ signals)%list in
        let history :=
          if gtb (len history) 1000 then last_n 1000 history else history in
        Ok (sorted_by_confidence signals,
            {| confidence_threshold := confidence_threshold self;
               signals_history := history;
               model_trained := model_trained self;
               learning_data := learning_data self;
               parameter_weights := parameter_weights self |})
  end.

(** ** Learning from outcomes *)

Definition param_names : list string :=
  [ "delta"; "oi_change"; "volume"; "momentum"; "iv"; "spread"; "liquidity" ].

Definition score_keys : list string :=
  [ "delta_score"; "oi_score"; "volume_score"; "momentum_score"; "iv_score";
    "spread_score"; "liquidity_score" ].

(** [train_model]: the fit itself is scikit-learn's; building the feature
    vectors raises [KeyError], caught by the [except], when a record lacks one
    of the seven scores. *)
Definition train_model (self : AISignalEngine) : AISignalEngine :=
  if ltb (len (learning_data self)) 20 then self
  else if forallb (fun record => forallb (fun k => mem k (lr_parameters record)) score_keys)
            (learning_data self)
  then {| confidence_threshold := confidence_threshold self;
          signals_history := signals_history self;
          model_trained := true;
          learning_data := learning_data self;
          parameter_weights := parameter_weights self |}
  else self.

(** The first loop of [optimize_weights], for one record: each parameter whose
    score key the record has gets a sample appended. *)
Definition record_performance (param_performance : list (string * list (Q * Q)))
    (record : LearningRecord) : list (string * list (Q * Q)) :=
  let params := lr_parameters record in
  let pnl := lr_pnl record in
  map (fun entry =>
         let param_name := fst entry in
         let score_key := param_name ++ "_score" in
         match lookup score_key params with
         | Some score => (param_name, (snd entry ++ [(score, pnl)])%list)
         | None => entry
         end)
      param_performance.

(** [np.mean] of a non-empty list *)
Definition mean (l : list Q) : Q := sum l / len l.

(** The second loop of [optimize_weights], for one parameter; the state is
    [(total_weight, new_weights)].  A parameter without samples keeps its
    weight and, by the [continue], adds nothing to [total_weight]. *)
Definition weigh_parameter (self : AISignalEngine)
    (state : Q * list (string * Q)) (entry : string * list (Q * Q))
  : result (Q * list (string * Q)) :=
  let total_weight := fst state in
  let new_weights := snd state in
  let param_name := fst entry in
  let data := snd entry in
  match data with
  | [] =>
      w <- index param_name (lookup param_name (parameter_weights self)) ;;
      Ok (total_weight, (new_weights ++ [(param_name, w)])%list)
  | _ :: _ =>
      let high_score_pnl :=
        map snd (filter (fun d => gtb (fst d) (6 # 10)) data) in
      weight <-
        match high_score_pnl with
        | _ :: _ =>
            let avg_pnl := mean high_score_pnl in
            Ok (max (5 # 100) (min (35 # 100) (avg_pnl / 1000 + (15 # 100))))
        | [] => index param_name (lookup param_name (parameter_weights self))
        end ;;
      Ok (total_weight + weight, (new_weights ++ [(param_name, weight)])%list)
  end.

Fixpoint weigh_parameters (self : AISignalEngine)
    (state : Q * list (string * Q)) (param_performance : list (string * list (Q * Q)))
  : result (Q * list (string * Q)) :=
  match param_performance with
  | [] => Ok state
  | entry :: rest =>
      state' <- weigh_parameter self state entry ;;
      weigh_parameters self state' rest
  end.

(** The last loop: [new_weights[param_name] / total_weight] for every key. *)
Fixpoint normalize (total_weight : Q) (new_weights : list (string * Q))
  : result (list (string * Q)) :=
  match new_weights with
  | [] => Ok []
  | (param_name, w) :: rest =>
      w' <- div w total_weight ;;
      rest' <- normalize total_weight rest ;;
      Ok ((param_name, w') :: rest')
  end.

(** The dict [param_performance] after the first loop. *)
Definition param_performance (self : AISignalEngine)
  : list (string * list (Q * Q)) :=
  fold_left record_performance (last_n 100 (learning_data self))
    (map (fun param_name => (param_name, [])) param_names).

(** The body of the [try] of [optimize_weights]. *)
Definition optimized_weights (self : AISignalEngine) : result (list (string * Q)) :=
  state <- weigh_parameters self (0, []) (param_performance self) ;;
  normalize (fst state) (snd state).

Definition optimize_weights (self : AISignalEngine) : AISignalEngine :=
  if ltb (len (learning_data self)) 50 then self
  else
    match optimized_weights self with
    | Ok new_weights =>
        {| confidence_threshold := confidence_threshold self;
           signals_history := signals_history self;
           model_trained := model_trained self;
           learning_data := learning_data self;
           parameter_weights := new_weights |}
    | Raise _ => self
    end.

(** The dict [learning_record] of [learn_from_outcome]; [now] is the reading
    of the clock. *)
Definition learning_record (signal : Signal) (now : datetime)
    (signal_id : string) (actual_outcome : string) (pnl : Q) : LearningRecord :=
  {| lr_signal_id := signal_id;
     lr_parameters := items (parameters signal);
     lr_predicted_confidence := confidence signal;
     lr_actual_outcome := actual_outcome;
     lr_pnl := pnl;
     lr_timestamp := now;
     lr_symbol := symbol signal;
     lr_action := action signal |}.

(** [learn_from_outcome].  The file written by [save_learning_data] is not
    part of the state. *)
Definition learn_from_outcome (self : AISignalEngine) (now : datetime)
    (signal_id : string) (actual_outcome : string) (pnl : Q) : AISignalEngine :=
  match find (fun s => String.eqb (id s) signal_id) (signals_history self) with
  | Some signal =>
      let learning_record :=
        learning_record signal now signal_id actual_outcome pnl in
      let self' :=
        {| confidence_threshold := confidence_threshold self;
           signals_history := signals_history self;
           model_trained := model_trained self;
           learning_data := (learning_data self ++ [learning_record])%list;
           parameter_weights := parameter_weights self |} in
      if Nat.eqb (List.length (learning_data self') mod 30) 0
      then optimize_weights (train_model self')
      else self'
  | None => self
  end.

(** [get_accuracy]; the state of its loop is
    [(correct_predictions, high_conf_correct, high_conf_total)]. *)
Definition count_prediction (state : Q * Q * Q) (record : LearningRecord)
  : Q * Q * Q :=
  let '(correct_predictions, high_conf_correct, high_conf_total) := state in
  let predicted_profitable := gtb (lr_predicted_confidence record) 70 in
  let actually_profitable := gtb (lr_pnl record) 0 in
  let agree := Bool.eqb predicted_profitable actually_profitable in
  let correct_predictions :=
    if agree then correct_predictions + 1 else correct_predictions in
  if gtb (lr_predicted_confidence record) 75 then
    (correct_predictions,
     if agree then high_conf_correct + 1 else high_conf_correct,
     high_conf_total + 1)
  else (correct_predictions, high_conf_correct, high_conf_total).

Definition get_accuracy (self : AISignalEngine) : Q :=
  if ltb (len (learning_data self)) 10 then 68
  else
    let recent_data := last_n 100 (learning_data self) in
    if ltb (len recent_data) 10 then 70
    else
      let '(correct_predictions, high_conf_correct, high_conf_total) :=
        fold_left count_prediction recent_data (0, 0, 0) in
      let total_predictions := len recent_data in
      let base_accuracy := (correct_predictions / total_predictions) * 100 in
      if gtb high_conf_total 5 then
        let high_conf_accuracy := (high_conf_correct / high_conf_total) * 100 in
        let weighted_accuracy :=
          base_accuracy * (6 # 10) + high_conf_accuracy * (4 # 10) in
        min 95 weighted_accuracy
      else min 92 (base_accuracy + 5).

End Signals.

(* ================================================================== *)
(** * The option chain as a DataFrame *)
(* ================================================================== *)

(** The option chain that [generate_signals] is given is a
    [pandas.DataFrame] made of the dicts of the rows ([pd.DataFrame(data)] in
    [src/core/market.py]).  Its columns are the keys of all the dicts
    together, and a row whose dict lacks the key of a column holds NaN there:
    [iterrows] yields every row with every column.  So [option['k']] raises
    [KeyError] only when no row of the chain has the key [k], and
    [option.get('k', v)] gives [v] only then.

    The module [Signals] above is the engine on the rows as they are when
    every dict of the chain has the same keys.  This module is the engine on
    a chain of any dicts: the same functions, on cells that may be NaN. *)
Module Frame.
Import Py.

(** ** Cells *)

(** A cell of a column of numbers and a cell of the column of the types:
    [None] is NaN. *)
Definition number : Type := option Q.
Definition text : Type := option string.

Definition num (q : Q) : number := Some q.

(** Every comparison with NaN is false. *)
Definition compare_with (test : Q -> Q -> bool) (x y : number) : bool :=
  match x, y with
  | Some a, Some b => test a b
  | _, _ => false
  end.

Definition ltb : number -> number -> bool := compare_with Py.ltb.
Definition leb : number -> number -> bool := compare_with Py.leb.
Definition gtb : number -> number -> bool := compare_with Py.gtb.
Definition eqb : number -> number -> bool := compare_with Py.eqb.

(** [option_type == 'CE'] *)
Definition text_eqb (option_type : text) (s : string) : bool :=
  match option_type with
  | Some t => String.eqb t s
  | None => false
  end.

(** The text of a cell of the types in an f-string. *)
Definition str (option_type : text) : string := dget "nan" option_type.

(** Arithmetic with NaN gives NaN. *)
Definition lift (op : Q -> Q -> Q) (x y : number) : number :=
  match x, y with
  | Some a, Some b => Some (op a b)
  | _, _ => None
  end.

Definition sub : number -> number -> number := lift Qminus.
Definition mul : number -> number -> number := lift Qmult.

Definition abs (x : number) : number := option_map Qabs x.

(** [x / y] where [y] is not 0 *)
Definition quotient : number -> number -> number := lift Qdiv.

(** [x / y]: Python tests the divisor first, so NaN / 0 raises too. *)
Definition div (x y : number) : result number :=
  if eqb y (num 0) then Raise ZeroDivisionError else Ok (quotient x y).

(** ** The DataFrame of a list of dicts *)

(** A row as [iterrows] yields it: a field is [None] when the frame has no
    such column, and holds the cell otherwise.  The dicts of the rows are
    [Signals.OptionRow]s. *)
Record Series : Type := {
  cell_strike : option number;
  cell_type : option text;
  cell_ltp : option number;
  cell_delta : option number;
  cell_oi_change : option number;
  cell_oi : option number;
  cell_volume : option number;
  cell_iv : option number;
  cell_bid : option number;
  cell_ask : option number
}.

(** Some dict has the key. *)
Definition has_column {A : Type} (field : Signals.OptionRow -> option A)
    (data : list Signals.OptionRow) : bool :=
  existsb (fun row => match field row with Some _ => true | None => false end)
          data.

Definition cell {A : Type} (field : Signals.OptionRow -> option A)
    (data : list Signals.OptionRow) (row : Signals.OptionRow)
  : option (option A) :=
  if has_column field data then Some (field row) else None.

Definition series (data : list Signals.OptionRow) (row : Signals.OptionRow)
  : Series :=
  {| cell_strike := cell Signals.row_strike data row;
     cell_type := cell Signals.row_type data row;
     cell_ltp := cell Signals.row_ltp data row;
     cell_delta := cell Signals.row_delta data row;
     cell_oi_change := cell Signals.row_oi_change data row;
     cell_oi := cell Signals.row_oi data row;
     cell_volume := cell Signals.row_volume data row;
     cell_iv := cell Signals.row_iv data row;
     cell_bid := cell Signals.row_bid data row;
     cell_ask := cell Signals.row_ask data row |}.

(** [pd.DataFrame(data)], as the list of its rows. *)
Definition DataFrame (data : list Signals.OptionRow) : list Series :=
  map (series data) data.

Definition present {A : Type} (c : option A) : bool :=
  match c with
  | Some _ => true
  | None => false
  end.

(** [option_data.empty]: the frame has no row or no column.  The dicts are
    taken to have no other keys than the ten that the engine reads. *)
Definition empty (option_data : list Series) : bool :=
  match option_data with
  | [] => true
  | option :: _ =>
      negb (present (cell_strike option) || present (cell_type option)
            || present (cell_ltp option) || present (cell_delta option)
            || present (cell_oi_change option) || present (cell_oi option)
            || present (cell_volume option) || present (cell_iv option)
            || present (cell_bid option) || present (cell_ask option))
  end.

(** ** The parameter scorer *)

Definition delta_bucket (d : number) : Q :=
  if gtb d (num (7 # 10)) then 9 # 10
  else if gtb d (num (5 # 10)) then 7 # 10
  else if gtb d (num (3 # 10)) then 5 # 10
  else 2 # 10.

Definition analyze_delta (delta : number) (option_type : text) : Q :=
  if text_eqb option_type "CE" then delta_bucket delta
  else
    let abs_delta := abs delta in
    delta_bucket abs_delta.

Definition analyze_oi_change (oi_change total_oi : number) : Q :=
  if eqb total_oi (num 0) then 3 # 10
  else
    let oi_change_percent := mul (quotient oi_change total_oi) (num 100) in
    if gtb (abs oi_change_percent) (num 20) then 9 # 10
    else if gtb (abs oi_change_percent) (num 10) then 7 # 10
    else if gtb (abs oi_change_percent) (num 5) then 5 # 10
    else 3 # 10.

Definition analyze_volume (volume oi : number) : Q :=
  if eqb oi (num 0) then 3 # 10
  else
    let volume_ratio := quotient volume oi in
    if gtb volume_ratio (num (5 # 10)) then 9 # 10
    else if gtb volume_ratio (num (3 # 10)) then 7 # 10
    else if gtb volume_ratio (num (1 # 10)) then 5 # 10
    else 3 # 10.

Definition momentum_bucket (distance_to_strike : number) : Q :=
  if gtb distance_to_strike (num (2 # 100)) then 8 # 10
  else if gtb distance_to_strike (num 0) then 6 # 10
  else if gtb distance_to_strike (num (- (2 # 100))) then 4 # 10
  else 2 # 10.

Definition analyze_momentum (ltp : number) (underlying_price : Q)
    (strike : number) (option_type : text) : result Q :=
  if text_eqb option_type "CE" then
    distance_to_strike <-
      div (sub (num underlying_price) strike) (num underlying_price) ;;
    Ok (momentum_bucket distance_to_strike)
  else
    distance_to_strike <-
      div (sub strike (num underlying_price)) (num underlying_price) ;;
    Ok (momentum_bucket distance_to_strike).

Definition analyze_iv (iv : number) : Q :=
  if ltb iv (num 15) then 3 # 10
  else if ltb iv (num 25) then 7 # 10
  else if ltb iv (num 35) then 5 # 10
  else 2 # 10.

Definition analyze_spread (bid ask ltp : number) : Q :=
  if leb ask bid || eqb ltp (num 0) then 1 # 10
  else
    let spread_percent := mul (quotient (sub ask bid) ltp) (num 100) in
    if ltb spread_percent (num 2) then 9 # 10
    else if ltb spread_percent (num 5) then 7 # 10
    else if ltb spread_percent (num 10) then 5 # 10
    else 2 # 10.

Definition analyze_liquidity (bid ask : number) : Q :=
  if eqb bid (num 0) && eqb ask (num 0) then 1 # 10
  else if gtb bid (num 0) && gtb ask (num 0) then 8 # 10
  else if gtb bid (num 0) || gtb ask (num 0) then 5 # 10
  else 2 # 10.

(** ** [analyze_market_parameters] *)

(** The key [f"{option_type}_{strike}"]: the text of the type, and the strike,
    where NaN is written as itself. *)
Definition AnalysisKey : Type := (string * number)%type.

Definition key_eqb (k k' : AnalysisKey) : bool :=
  String.eqb (fst k) (fst k')
  && match snd k, snd k' with
     | Some a, Some b => Py.eqb a b
     | None, None => true
     | _, _ => false
     end.

Record AnalysisEntry : Type := {
  an_parameters : Signals.ParameterScores;
  an_confidence : Q;
  an_reasoning : string;
  an_option_data : Series
}.

(** [analysis[k] = v]: a key already present keeps its place. *)
Fixpoint dict_set (k : AnalysisKey) (v : AnalysisEntry)
    (d : list (AnalysisKey * AnalysisEntry)) : list (AnalysisKey * AnalysisEntry) :=
  match d with
  | [] => [(k, v)]
  | (k', v') :: d' =>
      if key_eqb k k' then (k', v) :: d' else (k', v') :: dict_set k v d'
  end.

(** The dict literal [params] of the loop body. *)
Definition score_option (option : Series) (option_type : text) (strike : number)
    (underlying_price : Q) : result Signals.ParameterScores :=
  delta <- index "delta" (cell_delta option) ;;
  let delta_score := analyze_delta delta option_type in
  let oi_score :=
    analyze_oi_change (dget (num 0) (cell_oi_change option))
                      (dget (num 0) (cell_oi option)) in
  let volume_score :=
    analyze_volume (dget (num 0) (cell_volume option))
                   (dget (num 0) (cell_oi option)) in
  ltp <- index "ltp" (cell_ltp option) ;;
  momentum_score <- analyze_momentum ltp underlying_price strike option_type ;;
  let iv_score := analyze_iv (dget (num 20) (cell_iv option)) in
  let spread_score :=
    analyze_spread (dget (num 0) (cell_bid option))
                   (dget (num 0) (cell_ask option)) ltp in
  let liquidity_score :=
    analyze_liquidity (dget (num 0) (cell_bid option))
                      (dget (num 0) (cell_ask option)) in
  Ok {| Signals.delta_score := delta_score;
        Signals.oi_score := oi_score;
        Signals.volume_score := volume_score;
        Signals.momentum_score := momentum_score;
        Signals.iv_score := iv_score;
        Signals.spread_score := spread_score;
        Signals.liquidity_score := liquidity_score |}.

(** The body of the loop over the rows.  [generate_reasoning] reads the
    scores only. *)
Definition analyze_option (weights : list (string * Q)) (underlying_price : Q)
    (analysis : list (AnalysisKey * AnalysisEntry)) (option : Series)
  : result (list (AnalysisKey * AnalysisEntry)) :=
  strike <- index "strike" (cell_strike option) ;;
  option_type <- index "type" (cell_type option) ;;
  params <- score_option option option_type strike underlying_price ;;
  let confidence := Signals.weighted_confidence weights params in
  let reasoning := Signals.generate_reasoning params (str option_type) in
  Ok (dict_set (str option_type, strike)
        {| an_parameters := params;
           an_confidence := confidence;
           an_reasoning := reasoning;
           an_option_data := option |}
        analysis).

Fixpoint analyze_rows (weights : list (string * Q)) (underlying_price : Q)
    (analysis : list (AnalysisKey * AnalysisEntry)) (rows : list Series)
  : result (list (AnalysisKey * AnalysisEntry)) :=
  match rows with
  | [] => Ok analysis
  | option :: rest =>
      analysis' <- analyze_option weights underlying_price analysis option ;;
      analyze_rows weights underlying_price analysis' rest
  end.

Definition analyze_market_parameters (self : Signals.AISignalEngine)
    (option_data : list Series) (underlying_price : Q)
  : result (list (AnalysisKey * AnalysisEntry)) :=
  if empty option_data then Ok []
  else
    analyze_rows (Signals.parameter_weights self) underlying_price []
      option_data.

(** ** [generate_signals] *)

(** The signal dict: the strike, the type and the price are cells of the
    row. *)
Record Signal : Type := {
  id : string;
  symbol : string;
  strike : number;
  type : text;
  action : Signals.Action;
  confidence : Q;
  reasoning : string;
  timestamp : datetime;
  price : number;
  parameters : Signals.ParameterScores;
  underlying_price : Q
}.

(** The body of the loop over [analysis.items()].  [determine_action] reads
    the scores and the confidence only. *)
Definition emit_signal (self : Signals.AISignalEngine) (uuids : nat -> string)
    (current_time : datetime) (symbol : string) (underlying_price : Q)
    (signals : list Signal) (item : AnalysisKey * AnalysisEntry)
  : result (list Signal) :=
  let data := snd item in
  let confidence := an_confidence data in
  if Py.geb confidence (Signals.confidence_threshold self) then
    let option_info := an_option_data data in
    option_type <- index "type" (cell_type option_info) ;;
    let action :=
      Signals.determine_action (an_parameters data) (str option_type)
        confidence in
    if negb (Signals.Action_eqb action Signals.HOLD) then
      strike <- index "strike" (cell_strike option_info) ;;
      ltp <- index "ltp" (cell_ltp option_info) ;;
      let signal :=
        {| id := uuids (List.length signals);
           symbol := symbol;
           strike := strike;
           type := option_type;
           action := action;
           confidence := confidence * 100;
           reasoning := an_reasoning data;
           timestamp := current_time;
           price := ltp;
           parameters := an_parameters data;
           underlying_price := underlying_price |} in
      Ok (signals ++ [signal])%list
    else Ok signals
  else Ok signals.

Fixpoint emit_signals (self : Signals.AISignalEngine) (uuids : nat -> string)
    (current_time : datetime) (symbol : string) (underlying_price : Q)
    (signals : list Signal) (analysis : list (AnalysisKey * AnalysisEntry))
  : result (list Signal) :=
  match analysis with
  | [] => Ok signals
  | item :: rest =>
      signals' <- emit_signal self uuids current_time symbol underlying_price
                    signals item ;;
      emit_signals self uuids current_time symbol underlying_price signals' rest
  end.

(** [sorted(signals, key=lambda x: x['confidence'], reverse=True)]: stable. *)
Fixpoint insert_by_confidence (x : Signal) (l : list Signal) : list Signal :=
  match l with
  | [] => [x]
  | y :: l' =>
      if Py.geb (confidence y) (confidence x) then y :: insert_by_confidence x l'
      else x :: l
  end.

Definition sorted_by_confidence (signals : list Signal) : list Signal :=
  fold_left (fun acc x => insert_by_confidence x acc) signals [].

(** [generate_signals].  The signals of a frame hold cells, and so does the
    history of the engine: [signals_history] is [self.signals_history], and
    the call returns the signals and the history after it. *)
Definition generate_signals (self : Signals.AISignalEngine)
    (signals_history : list Signal)
    (uuids : nat -> string) (current_time now : datetime) (symbol : string)
    (option_chain : list Series) (underlying_price : Q)
  : result (list Signal * list Signal) :=
  if empty option_chain then Ok ([], signals_history)
  else
    analysis <- analyze_market_parameters self option_chain underlying_price ;;
    let signals := [] in
    if negb (Signals.is_trading_time now) then Ok (signals, signals_history)
    else
      signals <- emit_signals self uuids current_time symbol underlying_price
                   signals analysis ;;
      let history := (signals_history ++ signals)%list in
      let history :=
        if Py.gtb (len history) 1000 then Signals.last_n 1000 history
        else history in
      Ok (sorted_by_confidence signals, history).

End Frame.

(* ================================================================== *)
(** * Statements of the specification, and sample inputs *)
(* ================================================================== *)

Module RiskSpec.
Import Py Risk.

(** The seven named checks pass, each on its own. *)
Definition all_checks_pass (rm : RiskManager) (now : datetime) (s : Signal) : Prop :=
  validate_trading_time rm now = true
  /\ validate_position_limits rm s = Ok true
  /\ validate_risk_limits rm s = true
  /\ validate_daily_loss_limit rm = true
  /\ validate_liquidity rm s = true
  /\ validate_spread rm s = true
  /\ validate_volatility rm s = true.

(** The check called [name] is one of the seven and fails. *)
Definition check_failed (rm : RiskManager) (now : datetime) (s : Signal)
    (name : string) : Prop :=
  (name = "time_check" /\ validate_trading_time rm now = false)
  \/ (name = "position_limit_check" /\ validate_position_limits rm s = Ok false)
  \/ (name = "risk_limit_check" /\ validate_risk_limits rm s = false)
  \/ (name = "daily_loss_check" /\ validate_daily_loss_limit rm = false)
  \/ (name = "liquidity_check" /\ validate_liquidity rm s = false)
  \/ (name = "spread_check" /\ validate_spread rm s = false)
  \/ (name = "volatility_check" /\ validate_volatility rm s = false).

(** The names of the failed checks that a call printed. *)
Definition reported (out : list printed) : list string :=
  flat_map printed_failed_checks out.

(** Position sizing in the words of the specification:
    floor(min(capital x position_size_percent, max_loss_per_trade)
          / (price x lot_size)), at least one lot, in exact arithmetic. *)
Definition price_per_lot (s : Signal) : Q :=
  dget 0 (price s) * dget 75 (lot_size s).

Definition spec_lots (rm : RiskManager) (s : Signal) (available_capital : Q) : Z :=
  Z.max 1
    (Qfloor (Qmin (available_capital * position_size_percent rm)
                  (max_loss_per_trade rm)
             / price_per_lot s)).

(** The two products and the quotient of that formula as floats, each
    rounded as Python rounds it. *)
Definition lot_price (s : Signal) : Float64.float :=
  Float64.mul (Float64.of_Q (dget 0 (price s)))
              (Float64.of_Q (dget 75 (lot_size s))).

Definition risk_amount (rm : RiskManager) (available_capital : Q)
  : Float64.float :=
  Float64.min
    (Float64.mul (Float64.of_Q available_capital)
                 (Float64.of_Q (position_size_percent rm)))
    (Float64.of_Q (max_loss_per_trade rm)).

Definition lots_quotient (rm : RiskManager) (s : Signal) (available_capital : Q)
  : Float64.float :=
  SFdiv Float64.prec Float64.emax (risk_amount rm available_capital) (lot_price s).

(** [x <= 0] on a float, the test of the two guards. *)
Definition at_most_zero (x : Float64.float) : bool :=
  Float64.leb x Float64.zero.

(** The default manager with risk management switched off. *)
Definition disabled_manager : RiskManager := {|
  max_loss_per_trade := 5000;
  max_daily_loss := 15000;
  max_portfolio_risk := 50000;
  max_positions_per_symbol := 3;
  max_total_positions := 10;
  stop_loss_percent := 10 # 100;
  take_profit_percent := 20 # 100;
  position_size_percent := 2 # 100;
  min_volume := 1000;
  max_bid_ask_spread := 5 # 100;
  min_open_interest := 5000;
  market_open_time := (9, 15)%nat;
  market_close_time := (15, 30)%nat;
  no_trade_before := (9, 20)%nat;
  no_trade_after := (15, 15)%nat;
  enabled := false;
  daily_pnl := 0;
  current_positions := []
|}.

(** The default manager after
    [update_settings({'min_volume': 0, 'min_open_interest': 0})]. *)
Definition lenient_manager : RiskManager := {|
  max_loss_per_trade := 5000;
  max_daily_loss := 15000;
  max_portfolio_risk := 50000;
  max_positions_per_symbol := 3;
  max_total_positions := 10;
  stop_loss_percent := 10 # 100;
  take_profit_percent := 20 # 100;
  position_size_percent := 2 # 100;
  min_volume := 0;
  max_bid_ask_spread := 5 # 100;
  min_open_interest := 0;
  market_open_time := (9, 15)%nat;
  market_close_time := (15, 30)%nat;
  no_trade_before := (9, 20)%nat;
  no_trade_after := (15, 15)%nat;
  enabled := true;
  daily_pnl := 0;
  current_positions := []
|}.

Definition tuesday_10am : datetime :=
  {| weekday := 1; hour := 10; minute := 0; second := 0; microsecond := 0 |}.

Definition saturday_3am : datetime :=
  {| weekday := 5; hour := 3; minute := 0; second := 0; microsecond := 0 |}.

(** A signal as [generate_signals] builds it: a symbol, a strike and a price,
    and no market data. *)
Definition bare_signal : Signal := {|
  symbol := Some "NIFTY"; strike := Some 19500; price := Some 50;
  quantity := None; lot_size := None; volume := None; open_interest := None;
  bid := None; ask := None; iv := None
|}.

(** A signal without a symbol. *)
Definition anonymous_signal : Signal := {|
  symbol := None; strike := None; price := None;
  quantity := None; lot_size := None; volume := None; open_interest := None;
  bid := None; ask := None; iv := None
|}.

(** A liquid contract quoted 49.5 / 50.5 at 50, with its volatility. *)
Definition liquid_signal : Signal := {|
  symbol := Some "NIFTY"; strike := Some 19500; price := Some 50;
  quantity := Some 1; lot_size := Some 75; volume := Some 2000;
  open_interest := Some 6000; bid := Some (495 # 10); ask := Some (505 # 10);
  iv := Some 20
|}.

(** The same contract with too little volume, and with too wide a spread. *)
Definition thin_signal : Signal := {|
  symbol := Some "NIFTY"; strike := Some 19500; price := Some 50;
  quantity := Some 1; lot_size := Some 75; volume := Some 10;
  open_interest := Some 6000; bid := Some (495 # 10); ask := Some (505 # 10);
  iv := Some 20
|}.

Definition wide_signal : Signal := {|
  symbol := Some "NIFTY"; strike := Some 19500; price := Some 50;
  quantity := Some 1; lot_size := Some 75; volume := Some 2000;
  open_interest := Some 6000; bid := Some 40; ask := Some 60;
  iv := Some 20
|}.

(** A liquid contract at 100 offered at 1 with no bid and no volatility. *)
Definition no_bid_signal : Signal := {|
  symbol := Some "NIFTY"; strike := Some 19500; price := Some 100;
  quantity := None; lot_size := None; volume := Some 2000;
  open_interest := Some 6000; bid := None; ask := Some 1; iv := None
|}.

(** Scenario 5 of the specification: price 50, lot size 75. *)
Definition scenario_signal : Signal := {|
  symbol := Some "NIFTY"; strike := Some 19500; price := Some 50;
  quantity := None; lot_size := Some 75; volume := None; open_interest := None;
  bid := None; ask := None; iv := None
|}.

(** A contract at 1.1 in lots of one.  With a capital of 5500 the amount at
    risk is 110.0 and the quotient by the float of 1.1 is the float just
    below 100, 7036874417766399 / 2^46. *)
Definition decimal_signal : Signal := {|
  symbol := Some "NIFTY"; strike := Some 19500; price := Some (11 # 10);
  quantity := None; lot_size := Some 1; volume := None; open_interest := None;
  bid := None; ask := None; iv := None
|}.

Definition below_100 : Q := 7036874417766399 # 70368744177664.

End RiskSpec.

Module SignalsSpec.
Import Py Signals.

Definition in_unit_interval (score : Q) : Prop := 0 <= score /\ score <= 1.

Definition scores_in_unit_interval (params : ParameterScores) : Prop :=
  in_unit_interval (delta_score params)
  /\ in_unit_interval (oi_score params)
  /\ in_unit_interval (volume_score params)
  /\ in_unit_interval (momentum_score params)
  /\ in_unit_interval (iv_score params)
  /\ in_unit_interval (spread_score params)
  /\ in_unit_interval (liquidity_score params).

(** A row has the four fields that the scorer reads with [option[...]]. *)
Definition complete (row : OptionRow) : Prop :=
  row_strike row <> None /\ row_type row <> None
  /\ row_delta row <> None /\ row_ltp row <> None.

(** The confidence stored with an analysis entry is the weighted sum of its
    scores. *)
Definition aggregated (self : AISignalEngine) (d : AnalysisEntry) : Prop :=
  an_confidence d = weighted_confidence (parameter_weights self) (an_parameters d).


(** The sum of the weights of a weight vector. *)
Definition total (weights : list (string * Q)) : Q := sum (map snd weights).

Definition tuesday_10am : datetime :=
  {| weekday := 1; hour := 10; minute := 0; second := 0; microsecond := 0 |}.

Definition tuesday_10_05am : datetime :=
  {| weekday := 1; hour := 10; minute := 5; second := 0; microsecond := 0 |}.

Definition saturday_noon : datetime :=
  {| weekday := 5; hour := 12; minute := 0; second := 0; microsecond := 0 |}.

Definition sample_uuids (n : nat) : string :=
  "uuid-" ++ String (Ascii.ascii_of_nat (48 + n)) "".

(** A call at strike 100 with the underlying at 105: delta 0.8, open interest
    up 30%, volume 60% of it, IV 20, quoted 9.9 / 10 at 10. *)
Definition call_row : OptionRow := {|
  row_strike := Some 100; row_type := Some "CE"; row_ltp := Some 10;
  row_delta := Some (8 # 10); row_oi_change := Some 300; row_oi := Some 1000;
  row_volume := Some 600; row_iv := Some 20;
  row_bid := Some (99 # 10); row_ask := Some 10
|}.

(** A row without the column [delta]. *)
Definition no_delta_row : OptionRow := {|
  row_strike := Some 110; row_type := Some "CE"; row_ltp := Some 5;
  row_delta := None; row_oi_change := Some 300; row_oi := Some 1000;
  row_volume := Some 600; row_iv := Some 20;
  row_bid := Some (49 # 10); row_ask := Some 5
|}.

(** A row with neither open interest nor volume. *)
Definition untraded_row : OptionRow := {|
  row_strike := Some 100; row_type := Some "CE"; row_ltp := Some 10;
  row_delta := Some (8 # 10); row_oi_change := Some 0; row_oi := Some 0;
  row_volume := Some 0; row_iv := Some 20;
  row_bid := Some (99 # 10); row_ask := Some 10
|}.

(** The scores of [call_row], the signal that a scan of it emits (its
    confidence is 68) and the engine after the scan. *)
Definition call_scores : ParameterScores := {|
  delta_score := 9 # 10; oi_score := 9 # 10; volume_score := 9 # 10;
  momentum_score := 8 # 10; iv_score := 7 # 10; spread_score := 9 # 10;
  liquidity_score := 8 # 10
|}.

Definition call_signal : Signal := {|
  id := "uuid-0"; symbol := "NIFTY"; strike := 100; type := "CE";
  action := BUY;
  confidence := weighted_confidence (parameter_weights init) call_scores * 100;
  reasoning := "Strong Delta indicating good directional bias; Significant OI buildup indicating institutional interest; High volume confirming market participation; Favorable price momentum; Tight bid-ask spread ensuring good execution";
  timestamp := tuesday_10am; price := 10;
  parameters := call_scores;
  underlying_price := 105
|}.

Definition with_learning_data (self : AISignalEngine)
    (records : list LearningRecord) : AISignalEngine :=
  {| confidence_threshold := confidence_threshold self;
     signals_history := signals_history self;
     model_trained := model_trained self;
     learning_data := records;
     parameter_weights := parameter_weights self |}.

Definition scanned_engine : AISignalEngine :=
  {| confidence_threshold := 6 # 10;
     signals_history := [call_signal];
     model_trained := false;
     learning_data := [];
     parameter_weights := parameter_weights init |}.

(** The record that [learn_from_outcome] makes of [call_signal] closed with a
    profit of 100, and an engine that has loaded fifty of them. *)
Definition profit_record : LearningRecord :=
  learning_record call_signal tuesday_10_05am "uuid-0" "profit" 100.

Definition engine_with_50_records : AISignalEngine :=
  with_learning_data scanned_engine (repeat profit_record 50).

(** An earlier record, predicted at 80 and closed with a profit, and an engine
    that has loaded nine of them. *)
Definition earlier_record : LearningRecord :=
  {| lr_signal_id := "uuid-earlier";
     lr_parameters := items (parameters call_signal);
     lr_predicted_confidence := 80;
     lr_actual_outcome := "profit";
     lr_pnl := 500;
     lr_timestamp := tuesday_10am;
     lr_symbol := "NIFTY";
     lr_action := BUY |}.

Definition engine_with_9_records : AISignalEngine :=
  with_learning_data scanned_engine (repeat earlier_record 9).

End SignalsSpec.

Module FrameSpec.
Import Py Frame.




(** The key of the row in the dict [analysis]. *)
Definition key_of (option : Series) : AnalysisKey :=
  (str (dget None (cell_type option)), dget None (cell_strike option)).

(** The dict [analysis] has an entry under the key of the row. *)
Definition scored (analysis : list (AnalysisKey * AnalysisEntry))
    (option : Series) : Prop :=
  exists k entry, In (k, entry) analysis /\ key_eqb (key_of option) k = true.


(** Every dict of the chain has the keys that any of them has. *)
Definition same_keys (data : list Signals.OptionRow) : Prop :=
  forall row, In row data ->
    (Signals.row_strike row = None -> has_column Signals.row_strike data = false)
    /\ (Signals.row_type row = None -> has_column Signals.row_type data = false)
    /\ (Signals.row_ltp row = None -> has_column Signals.row_ltp data = false)
    /\ (Signals.row_delta row = None -> has_column Signals.row_delta data = false)
    /\ (Signals.row_oi_change row = None
        -> has_column Signals.row_oi_change data = false)
    /\ (Signals.row_oi row = None -> has_column Signals.row_oi data = false)
    /\ (Signals.row_volume row = None
        -> has_column Signals.row_volume data = false)
    /\ (Signals.row_iv row = None -> has_column Signals.row_iv data = false)
    /\ (Signals.row_bid row = None -> has_column Signals.row_bid data = false)
    /\ (Signals.row_ask row = None -> has_column Signals.row_ask data = false).

(** A dict as the row that it is in a frame without NaN, and the entries of
    the analysis and the signals of [Signals] as those of a frame. *)
Definition lifted (row : Signals.OptionRow) : Series :=
  {| cell_strike := option_map Some (Signals.row_strike row);
     cell_type := option_map Some (Signals.row_type row);
     cell_ltp := option_map Some (Signals.row_ltp row);
     cell_delta := option_map Some (Signals.row_delta row);
     cell_oi_change := option_map Some (Signals.row_oi_change row);
     cell_oi := option_map Some (Signals.row_oi row);
     cell_volume := option_map Some (Signals.row_volume row);
     cell_iv := option_map Some (Signals.row_iv row);
     cell_bid := option_map Some (Signals.row_bid row);
     cell_ask := option_map Some (Signals.row_ask row) |}.

Definition of_item (item : Signals.AnalysisKey * Signals.AnalysisEntry)
  : AnalysisKey * AnalysisEntry :=
  ((fst (fst item), Some (snd (fst item))),
   {| an_parameters := Signals.an_parameters (snd item);
      an_confidence := Signals.an_confidence (snd item);
      an_reasoning := Signals.an_reasoning (snd item);
      an_option_data := lifted (Signals.an_option_data (snd item)) |}).

Definition of_signal (s : Signals.Signal) : Signal :=
  {| id := Signals.id s;
     symbol := Signals.symbol s;
     strike := Some (Signals.strike s);
     type := Some (Signals.type s);
     action := Signals.action s;
     confidence := Signals.confidence s;
     reasoning := Signals.reasoning s;
     timestamp := Signals.timestamp s;
     price := Some (Signals.price s);
     parameters := Signals.parameters s;
     underlying_price := Signals.underlying_price s |}.

(** The outcome of a call of [Signals] as that of the call on the frame. *)
Definition of_result {A B : Type} (f : A -> B) (r : result A) : result B :=
  match r with
  | Ok a => Ok (f a)
  | Raise e => Raise e
  end.



(** The two signals of the chain of [SignalsSpec.call_row] and [no_ltp_row]:
    the first is [SignalsSpec.call_signal], at 68; the second, at 61, is the
    row without a price. *)
Definition call_signal : Signal := {|
  id := "uuid-0"; symbol := "NIFTY"; strike := Some 100; type := Some "CE";
  action := Signals.BUY;
  confidence :=
    Signals.weighted_confidence (Signals.parameter_weights Signals.init)
      SignalsSpec.call_scores * 100;
  reasoning := Signals.reasoning SignalsSpec.call_signal;
  timestamp := SignalsSpec.tuesday_10am; price := Some 10;
  parameters := SignalsSpec.call_scores;
  underlying_price := 105
|}.


End FrameSpec.

From Stdlib Require Import Sorted Permutation.

(* ================================================================== *)
(** * The signal engine: reports and indicators *)
(* ================================================================== *)

Module SignalsReports.
Import Py Signals.

(** [get_average_confidence] *)
Definition get_average_confidence (self : AISignalEngine) : Q :=
  match signals_history self with
  | [] => 70
  | _ :: _ =>
      let recent_signals := last_n 50 (signals_history self) in
      sum (map confidence recent_signals) / len recent_signals
  end.

(** [range(start, stop, step)] for a positive [step]; [fuel] bounds the number
    of values, and [stop] is enough of it. *)
Fixpoint range_from (fuel start stop step : nat) : list nat :=
  match fuel with
  | O => []
  | S fuel' =>
      if Nat.ltb start stop
      then start :: range_from fuel' (start + step) stop step
      else []
  end.

Definition range (start stop step : nat) : list nat :=
  range_from stop start stop step.

(** [l[a:b]] for [0 <= a <= b] *)
Definition slice {A : Type} (a b : nat) (l : list A) : list A :=
  firstn (b - a) (skipn a l).

(** A count as a number. *)
Definition of_nat (n : nat) : Q := inject_Z (Z.of_nat n).

(** [(record['predicted_confidence'] > 70) == (record['pnl'] > 0)] *)
Definition predicted_right (record : LearningRecord) : bool :=
  Bool.eqb (gtb (lr_predicted_confidence record) 70) (gtb (lr_pnl record) 0).

(** [get_learning_progress] *)
Definition get_learning_progress (self : AISignalEngine) : list Q :=
  if ltb (len (learning_data self)) 10 then []
  else
    let window_size := 20%nat in
    map (fun i =>
           let window_data := slice (i - window_size) i (learning_data self) in
           let correct := len (filter predicted_right window_data) in
           (correct / of_nat window_size) * 100)
        (range window_size (List.length (learning_data self)) 5).




End SignalsReports.

Module SignalsSpec2.
Import Py Signals SignalsSpec.

(** The values that the seven analyses can return. *)
Definition bucketed (params : ParameterScores) : Prop :=
  In (delta_score params) [2 # 10; 5 # 10; 7 # 10; 9 # 10]
  /\ In (oi_score params) [3 # 10; 5 # 10; 7 # 10; 9 # 10]
  /\ In (volume_score params) [3 # 10; 5 # 10; 7 # 10; 9 # 10]
  /\ In (momentum_score params) [2 # 10; 4 # 10; 6 # 10; 8 # 10]
  /\ In (iv_score params) [2 # 10; 3 # 10; 5 # 10; 7 # 10]
  /\ In (spread_score params) [1 # 10; 2 # 10; 5 # 10; 7 # 10; 9 # 10]
  /\ In (liquidity_score params) [1 # 10; 2 # 10; 5 # 10; 8 # 10].

(** The weight stored under a name, 0 when there is none. *)
Definition weight (weights : list (string * Q)) (name : string) : Q :=
  dget 0 (lookup name weights).


(** What the analysis keeps of every entry. *)
Definition scored (self : AISignalEngine) (d : AnalysisEntry) : Prop :=
  aggregated self d /\ bucketed (an_parameters d).


(** Weights keyed by the seven parameter names, none of them negative. *)
Definition well_formed_weights (weights : list (string * Q)) : Prop :=
  map fst weights = param_names /\ Forall (fun kv => 0 <= snd kv) weights.

(** A parameter without a sample in [param_performance]. *)
Definition unsampled (entry : string * list (Q * Q)) : bool :=
  match snd entry with
  | [] => true
  | _ :: _ => false
  end.

(** The sum of the old weights of the parameters without a sample. *)
Definition kept_weight (self : AISignalEngine) : Q :=
  sum (map (fun entry => weight (parameter_weights self) (fst entry))
           (filter unsampled (param_performance self))).


(** An engine with another history. *)
Definition with_history (self : AISignalEngine) (history : list Signal)
  : AISignalEngine :=
  {| confidence_threshold := confidence_threshold self;
     signals_history := history;
     model_trained := model_trained self;
     learning_data := learning_data self;
     parameter_weights := parameter_weights self |}.

End SignalsSpec2.

Module SignalsSamples.
Import Py Signals SignalsSpec SignalsSpec2.


Definition put_scores : ParameterScores := {|
  delta_score := 9 # 10; oi_score := 9 # 10; volume_score := 9 # 10;
  momentum_score := 8 # 10; iv_score := 5 # 10; spread_score := 7 # 10;
  liquidity_score := 8 # 10
|}.

(** The signals that a scan of [put_row; call_row] emits, in this order. *)
Definition put_signal : Signal := {|
  id := "uuid-0"; symbol := "NIFTY"; strike := 110; type := "PE";
  action := BUY;
  confidence := weighted_confidence (parameter_weights init) put_scores * 100;
  reasoning := "Strong Delta indicating good directional bias; Significant OI buildup indicating institutional interest; High volume confirming market participation; Favorable price momentum";
  timestamp := tuesday_10am; price := 5;
  parameters := put_scores;
  underlying_price := 105
|}.

Definition second_call_signal : Signal := {|
  id := "uuid-1"; symbol := "NIFTY"; strike := 100; type := "CE";
  action := BUY;
  confidence := weighted_confidence (parameter_weights init) call_scores * 100;
  reasoning := reasoning call_signal;
  timestamp := tuesday_10am; price := 10;
  parameters := call_scores;
  underlying_price := 105
|}.

End SignalsSamples.

(* ================================================================== *)
(** * The risk gate: the tracked positions *)
(* ================================================================== *)

Module RiskBook.
Import Py Risk.

(** What the position functions can raise: arithmetic or comparison on a
    [None], and division by zero. *)
Inductive error : Type := TypeError | ZeroDivision.

Inductive outcome (A : Type) : Type :=
| Returns (a : A)
| Raises (e : error).
Arguments Returns {A} a.
Arguments Raises {A} e.

(** The dict [trade_data] that [add_position] reads. *)
Record TradeData : Type := {
  td_id : option string;
  td_symbol : option string;
  td_strike : option Q;
  td_type : option string;
  td_quantity : option Q;
  td_entry_price : option Q;
  td_entry_time : option datetime
}.

(** The dict that [add_position] builds.  A key read with [trade_data.get(k)]
    holds [None] when the trade has none. *)
Record TrackedPosition : Type := {
  tp_id : option string;
  tp_symbol : option string;
  tp_strike : option Q;
  tp_type : option string;
  tp_quantity : Q;
  tp_entry_price : option Q;
  tp_entry_time : datetime;
  tp_stop_loss : Q;
  tp_take_profit : Q;
  tp_current_price : option Q;
  tp_unrealized_pnl : Q;
  tp_status : string
}.

(** The manager with the positions as [add_position] stores them; [limits]
    holds every other attribute. *)
Record Manager : Type := {
  limits : RiskManager;
  positions : list TrackedPosition
}.

(** A tracked position as the checks of [validate_trade] read it: it has no
    key ['current_value']. *)
Definition view (p : TrackedPosition) : Position :=
  {| pos_id := tp_id p; pos_symbol := tp_symbol p; pos_current_value := None |}.

(** The manager as [validate_trade] reads it. *)
Definition gate (m : Manager) : RiskManager :=
  {| max_loss_per_trade := max_loss_per_trade (limits m);
     max_daily_loss := max_daily_loss (limits m);
     max_portfolio_risk := max_portfolio_risk (limits m);
     max_positions_per_symbol := max_positions_per_symbol (limits m);
     max_total_positions := max_total_positions (limits m);
     stop_loss_percent := stop_loss_percent (limits m);
     take_profit_percent := take_profit_percent (limits m);
     position_size_percent := position_size_percent (limits m);
     min_volume := min_volume (limits m);
     max_bid_ask_spread := max_bid_ask_spread (limits m);
     min_open_interest := min_open_interest (limits m);
     market_open_time := market_open_time (limits m);
     market_close_time := market_close_time (limits m);
     no_trade_before := no_trade_before (limits m);
     no_trade_after := no_trade_after (limits m);
     enabled := enabled (limits m);
     daily_pnl := daily_pnl (limits m);
     current_positions := map view (positions m) |}.

(** [s.upper()] on ASCII text *)
Definition upper_ascii (c : Ascii.ascii) : Ascii.ascii :=
  let n := Ascii.nat_of_ascii c in
  if Nat.leb 97 n && Nat.leb n 122 then Ascii.ascii_of_nat (n - 32) else c.

Fixpoint upper (s : string) : string :=
  match s with
  | EmptyString => EmptyString
  | String c s' => String (upper_ascii c) (upper s')
  end.

Definition calculate_stop_loss (rm : RiskManager) (entry_price : Q)
    (option_type : string) : Q :=
  if existsb (String.eqb (upper option_type)) ["CE"; "CALL"]
  then entry_price * (1 - stop_loss_percent rm)
  else entry_price * (1 - stop_loss_percent rm).

Definition calculate_take_profit (rm : RiskManager) (entry_price : Q)
    (option_type : string) : Q :=
  entry_price * (1 + take_profit_percent rm).

(** [add_position]; [now] is the reading of the clock. *)
Definition add_position (m : Manager) (now : datetime) (trade_data : TradeData)
  : Manager :=
  let position :=
    {| tp_id := td_id trade_data;
       tp_symbol := td_symbol trade_data;
       tp_strike := td_strike trade_data;
       tp_type := td_type trade_data;
       tp_quantity := dget 1 (td_quantity trade_data);
       tp_entry_price := td_entry_price trade_data;
       tp_entry_time := dget now (td_entry_time trade_data);
       tp_stop_loss :=
         calculate_stop_loss (limits m) (dget 0 (td_entry_price trade_data))
           (dget "CE" (td_type trade_data));
       tp_take_profit :=
         calculate_take_profit (limits m) (dget 0 (td_entry_price trade_data))
           (dget "CE" (td_type trade_data));
       tp_current_price := td_entry_price trade_data;
       tp_unrealized_pnl := 0;
       tp_status := "open" |} in
  {| limits := limits m; positions := (positions m ++ [position])%list |}.

(** [p.get('id') != position_id] *)
Definition other_id (position_id : string) (p : TrackedPosition) : bool :=
  match tp_id p with
  | Some i => negb (String.eqb i position_id)
  | None => true
  end.

Definition remove_position (m : Manager) (position_id : string) : Manager :=
  {| limits := limits m;
     positions := filter (other_id position_id) (positions m) |}.

(** [update_position_prices].  [key p] is the text
    [f"{position['symbol']}_{position['type']}_{position['strike']}"]; how
    Python prints the strike is not modelled, so the text is an argument.  A
    position without entry price raises [TypeError] after its current price is
    set; the positions before it keep their update. *)
Definition with_price (p : TrackedPosition) (new_price : Q) (pnl : Q)
  : TrackedPosition :=
  {| tp_id := tp_id p;
     tp_symbol := tp_symbol p;
     tp_strike := tp_strike p;
     tp_type := tp_type p;
     tp_quantity := tp_quantity p;
     tp_entry_price := tp_entry_price p;
     tp_entry_time := tp_entry_time p;
     tp_stop_loss := tp_stop_loss p;
     tp_take_profit := tp_take_profit p;
     tp_current_price := Some new_price;
     tp_unrealized_pnl := pnl;
     tp_status := tp_status p |}.

Fixpoint update_positions (key : TrackedPosition -> string)
    (price_updates : list (string * Q)) (ps : list TrackedPosition)
  : list TrackedPosition * option error :=
  match ps with
  | [] => ([], None)
  | position :: rest =>
      match lookup (key position) price_updates with
      | Some new_price =>
          match tp_entry_price position with
          | Some entry_price =>
              let pnl := (new_price - entry_price) * tp_quantity position in
              let updated := update_positions key price_updates rest in
              (with_price position new_price pnl :: fst updated, snd updated)
          | None =>
              (with_price position new_price (tp_unrealized_pnl position) :: rest,
               Some TypeError)
          end
      | None =>
          let updated := update_positions key price_updates rest in
          (position :: fst updated, snd updated)
      end
  end.

Definition update_position_prices (key : TrackedPosition -> string)
    (m : Manager) (price_updates : list (string * Q)) : Manager * option error :=
  let updated := update_positions key price_updates (positions m) in
  ({| limits := limits m; positions := fst updated |}, snd updated).

(** An alert of [check_stop_loss_take_profit]; its message is left out. *)
Inductive AlertType : Type := stop_loss | take_profit.

Record Alert : Type := {
  alert_type : AlertType;
  alert_position : TrackedPosition
}.

Fixpoint check_positions (ps : list TrackedPosition) : outcome (list Alert) :=
  match ps with
  | [] => Returns []
  | position :: rest =>
      match tp_current_price position with
      | None => Raises TypeError
      | Some current_price =>
          let alert :=
            if leb current_price (tp_stop_loss position) then
              [ {| alert_type := stop_loss; alert_position := position |} ]
            else if geb current_price (tp_take_profit position) then
              [ {| alert_type := take_profit; alert_position := position |} ]
            else [] in
          match check_positions rest with
          | Returns alerts => Returns (alert ++ alerts)%list
          | Raises e => Raises e
          end
      end
  end.

Definition check_stop_loss_take_profit (m : Manager) : outcome (list Alert) :=
  check_positions (positions m).

(** [get_portfolio_summary] *)
Record Summary : Type := {
  total_positions : Q;
  total_investment : Q;
  unrealized_pnl : Q;
  summary_daily_pnl : Q;
  portfolio_delta : Q;
  risk_utilization : Q;
  daily_loss_utilization : Q
}.

(** [sum(p.get('entry_price', 0) * p.get('quantity', 0) for p in ...)] *)
Fixpoint invested (ps : list TrackedPosition) (acc : Q) : outcome Q :=
  match ps with
  | [] => Returns acc
  | p :: rest =>
      match tp_entry_price p with
      | Some entry_price => invested rest (acc + entry_price * tp_quantity p)
      | None => Raises TypeError
      end
  end.

Definition divide (x y : Q) : outcome Q :=
  if eqb y 0 then Raises ZeroDivision else Returns (x / y).

Definition get_portfolio_summary (m : Manager) : outcome Summary :=
  let total_positions := len (positions m) in
  let total_unrealized_pnl := sum (map tp_unrealized_pnl (positions m)) in
  match invested (positions m) 0 with
  | Raises e => Raises e
  | Returns total_investment =>
      let portfolio_delta :=
        sum (map (fun p => 0 * tp_quantity p) (positions m)) in
      match divide total_investment (max_portfolio_risk (limits m)) with
      | Raises e => Raises e
      | Returns risk =>
          match divide (Qabs (daily_pnl (limits m))) (max_daily_loss (limits m)) with
          | Raises e => Raises e
          | Returns daily_loss =>
              Returns {| total_positions := total_positions;
                         total_investment := total_investment;
                         unrealized_pnl := total_unrealized_pnl;
                         summary_daily_pnl := daily_pnl (limits m);
                         portfolio_delta := portfolio_delta;
                         risk_utilization := risk * 100;
                         daily_loss_utilization := daily_loss * 100 |}
          end
      end
  end.

(** [get_risk_metrics] *)
Record Metrics : Type := {
  max_drawdown : Q;
  win_rate : Q;
  average_position_size : Q;
  risk_reward_ratio : Q;
  positions_at_risk : Q
}.

(** [min(...)] of a non-empty sequence [x, l...] *)
Definition minimum (x : Q) (l : list Q) : Q :=
  fold_left (fun best y => if ltb y best then y else best) l x.

Definition get_risk_metrics (m : Manager) : outcome Metrics :=
  match get_portfolio_summary m with
  | Raises e => Raises e
  | Returns portfolio_summary =>
      let pnls := map tp_unrealized_pnl (positions m) in
      let max_drawdown :=
        min 0 (match pnls with
               | [] => 0
               | pnl :: rest => minimum pnl rest
               end) in
      let winning_positions := len (filter (fun pnl => gtb pnl 0) pnls) in
      let total_positions := len (positions m) in
      let win_rate :=
        if gtb total_positions 0
        then winning_positions / total_positions * 100
        else 0 in
      match divide (take_profit_percent (limits m)) (stop_loss_percent (limits m)) with
      | Raises e => Raises e
      | Returns ratio =>
          Returns
            {| max_drawdown := max_drawdown;
               win_rate := win_rate;
               average_position_size :=
                 total_investment portfolio_summary / max 1 total_positions;
               risk_reward_ratio := ratio;
               positions_at_risk :=
                 len (filter
                        (fun pnl =>
                           ltb pnl (- max_loss_per_trade (limits m) * (5 # 10)))
                        pnls) |}
      end
  end.

End RiskBook.

Module RiskBookSpec.
Import Py Risk RiskBook.

(** A trade with an id, a symbol and an entry price. *)
Definition trade (trade_id symbol : string) (entry_price : Q) : TradeData :=
  {| td_id := Some trade_id; td_symbol := Some symbol; td_strike := Some 19500;
     td_type := Some "CE"; td_quantity := Some 75;
     td_entry_price := Some entry_price; td_entry_time := None |}.

(** The default manager with no position. *)
Definition empty_book : Manager := {| limits := init; positions := [] |}.

(** The position that [add_position] makes of [trade "t1" "NIFTY" 50] on a
    Tuesday at 10 under the default limits. *)
Definition nifty_position : TrackedPosition :=
  {| tp_id := Some "t1"; tp_symbol := Some "NIFTY"; tp_strike := Some 19500;
     tp_type := Some "CE"; tp_quantity := 75; tp_entry_price := Some 50;
     tp_entry_time := RiskSpec.tuesday_10am;
     tp_stop_loss := calculate_stop_loss init 50 "CE";
     tp_take_profit := calculate_take_profit init 50 "CE";
     tp_current_price := Some 50; tp_unrealized_pnl := 0;
     tp_status := "open" |}.

(** Every position has an entry price and a current price. *)
Definition priced (p : TrackedPosition) : Prop :=
  tp_entry_price p <> None /\ tp_current_price p <> None.

(** The trades of a list are added one after the other. *)
Definition add_positions (m : Manager) (now : datetime) (trades : list TradeData)
  : Manager :=
  fold_left (fun book trade_data => add_position book now trade_data) trades m.

(** A key that is read off the symbol, the type and the strike. *)
Definition contract_key (key : TrackedPosition -> string) : Prop :=
  forall p q,
    tp_symbol p = tp_symbol q -> tp_type p = tp_type q ->
    tp_strike p = tp_strike q -> key p = key q.

(** A key for the samples: the symbol alone. *)
Definition symbol_key (p : TrackedPosition) : string :=
  dget "None" (tp_symbol p).

End RiskBookSpec.

(* ================================================================== *)
(** * The paper trading engine: [src/core/paper_trade.py] *)
(* ================================================================== *)

Module Paper.
Import Py.

(** The signal dict as [PaperTradingEngine] reads it. *)
Record Signal : Type := {
  sig_id : option string;
  sig_symbol : option string;
  sig_strike : option Q;
  sig_type : option string;
  sig_action : option string;
  sig_price : option Q;
  sig_quantity : option Q;
  sig_lot_size : option Q;
  sig_confidence : option Q;
  sig_reasoning : option string;
  sig_parameters : option (list (string * Q))
}.

(** The dict that [open_position] builds; [close_position] adds the last
    three keys. *)
Record Position : Type := {
  id : string;
  signal_id : option string;
  symbol : string;
  strike : Q;
  type : string;
  action : string;
  quantity : Q;
  lot_size : Q;
  entry_price : Q;
  current_price : Q;
  entry_time : datetime;
  trade_type : string;
  status : string;
  confidence : Q;
  reasoning : string;
  unrealized_pnl : Q;
  stop_loss : Q;
  take_profit : Q;
  parameters : list (string * Q);
  exit_price : option Q;
  exit_time : option datetime;
  realized_pnl : option Q
}.

(** The dict that [record_trade] appends to the history. *)
Record TradeRecord : Type := {
  tr_id : string;
  tr_position_id : string;
  tr_symbol : string;
  tr_strike : Q;
  tr_type : string;
  tr_action : string;
  tr_quantity : Q;
  tr_price : option Q;
  tr_timestamp : datetime;
  tr_trade_type : string;
  tr_confidence : Q;
  tr_reasoning : string;
  tr_pnl : Q
}.

Record PaperTradingEngine : Type := {
  portfolio_value : Q;
  available_balance : Q;
  positions : list Position;
  trade_history : list TradeRecord;
  daily_pnl : Q;
  total_pnl : Q;
  auto_paper_trade : bool;
  max_daily_trades : Z;
  trades_today : Z
}.

(** [PaperTradingEngine.__init__], with no saved portfolio on disk. *)
Definition init : PaperTradingEngine := {|
  portfolio_value := 100000;
  available_balance := 100000;
  positions := [];
  trade_history := [];
  daily_pnl := 0;
  total_pnl := 0;
  auto_paper_trade := true;
  max_daily_trades := 5;
  trades_today := 0
|}.

(** The dicts that the trading functions return, by their message. *)
Inductive Result : Type :=
| Opened (total_cost : Q) (position : Position)
| Closed (pnl : Q) (position : Position)
| InsufficientBalance (required available : Q)
| DailyLimitReached (limit : Z)
| NoOpenPosition
| InvalidAction
| ExecutionError (e : exn).

(** [result['success']] *)
Definition success (r : Result) : bool :=
  match r with
  | Opened _ _ | Closed _ _ => true
  | _ => false
  end.

(** [record_trade]; [trade_id] is the text of its [uuid.uuid4()]. *)
Definition record_trade (self : PaperTradingEngine) (now : datetime)
    (trade_id : string) (position : Position) (action : string)
  : PaperTradingEngine :=
  let trade_record :=
    {| tr_id := trade_id;
       tr_position_id := id position;
       tr_symbol := symbol position;
       tr_strike := strike position;
       tr_type := type position;
       tr_action := action;
       tr_quantity := quantity position;
       tr_price :=
         if String.eqb action "OPEN" then Some (entry_price position)
         else exit_price position;
       tr_timestamp := now;
       tr_trade_type := trade_type position;
       tr_confidence := confidence position;
       tr_reasoning := reasoning position;
       tr_pnl :=
         if String.eqb action "CLOSE" then dget 0 (realized_pnl position)
         else 0 |} in
  {| portfolio_value := portfolio_value self;
     available_balance := available_balance self;
     positions := positions self;
     trade_history := (trade_history self ++ [trade_record])%list;
     daily_pnl := daily_pnl self;
     total_pnl := total_pnl self;
     auto_paper_trade := auto_paper_trade self;
     max_daily_trades := max_daily_trades self;
     trades_today := trades_today self |}.

(** [open_position]; [uuids 0] and [uuids 1] are the ids of the position and
    of the trade record.  The files written by [save_portfolio_data] are not
    part of the state. *)
Definition open_position (self : PaperTradingEngine) (now : datetime)
    (uuids : nat -> string) (signal : Signal) (trade_type : string)
  : result (Result * PaperTradingEngine) :=
  let entry_price := dget 0 (sig_price signal) in
  let quantity := dget 1 (sig_quantity signal) in
  let lot_size := dget 75 (sig_lot_size signal) in
  let total_cost := entry_price * quantity * lot_size in
  if gtb total_cost (available_balance self) then
    Ok (InsufficientBalance total_cost (available_balance self), self)
  else if Z.geb (trades_today self) (max_daily_trades self)
          && String.eqb trade_type "paper" then
    Ok (DailyLimitReached (max_daily_trades self), self)
  else
    symbol <- index "symbol" (sig_symbol signal) ;;
    strike <- index "strike" (sig_strike signal) ;;
    option_type <- index "type" (sig_type signal) ;;
    action <- index "action" (sig_action signal) ;;
    confidence <- index "confidence" (sig_confidence signal) ;;
    reasoning <- index "reasoning" (sig_reasoning signal) ;;
    let position :=
      {| id := uuids 0%nat;
         signal_id := sig_id signal;
         symbol := symbol;
         strike := strike;
         type := option_type;
         action := action;
         quantity := quantity;
         lot_size := lot_size;
         entry_price := entry_price;
         current_price := entry_price;
         entry_time := now;
         trade_type := trade_type;
         status := "open";
         confidence := confidence;
         reasoning := reasoning;
         unrealized_pnl := 0;
         stop_loss := entry_price * (9 # 10);
         take_profit := entry_price * (12 # 10);
         parameters := dget [] (sig_parameters signal);
         exit_price := None;
         exit_time := None;
         realized_pnl := None |} in
    let self1 :=
      {| portfolio_value := portfolio_value self;
         available_balance := available_balance self - total_cost;
         positions := (positions self ++ [position])%list;
         trade_history := trade_history self;
         daily_pnl := daily_pnl self;
         total_pnl := total_pnl self;
         auto_paper_trade := auto_paper_trade self;
         max_daily_trades := max_daily_trades self;
         trades_today := trades_today self |} in
    let self2 := record_trade self1 now (uuids 1%nat) position "OPEN" in
    let self3 :=
      {| portfolio_value := portfolio_value self2;
         available_balance := available_balance self2;
         positions := positions self2;
         trade_history := trade_history self2;
         daily_pnl := daily_pnl self2;
         total_pnl := total_pnl self2;
         auto_paper_trade := auto_paper_trade self2;
         max_daily_trades := max_daily_trades self2;
         trades_today :=
           if String.eqb trade_type "paper"
           then (trades_today self2 + 1)%Z else trades_today self2 |} in
    Ok (Opened total_cost position, self3).

(** The condition of [matching_positions] *)
Definition matches (symbol : string) (strike : Q) (option_type : string)
    (p : Position) : bool :=
  String.eqb (Paper.symbol p) symbol
  && eqb (Paper.strike p) strike
  && String.eqb (type p) option_type
  && String.eqb (status p) "open".

(** The position with what [close_position] sets. *)
Definition closed_at (p : Position) (price : Q) (now : datetime) (pnl : Q)
  : Position :=
  {| id := id p;
     signal_id := signal_id p;
     symbol := symbol p;
     strike := strike p;
     type := type p;
     action := action p;
     quantity := quantity p;
     lot_size := lot_size p;
     entry_price := entry_price p;
     current_price := current_price p;
     entry_time := entry_time p;
     trade_type := trade_type p;
     status := "closed";
     confidence := confidence p;
     reasoning := reasoning p;
     unrealized_pnl := unrealized_pnl p;
     stop_loss := stop_loss p;
     take_profit := take_profit p;
     parameters := parameters p;
     exit_price := Some price;
     exit_time := Some now;
     realized_pnl := Some pnl |}.

(** The first position that [f] accepts is replaced, where it stands: the
    update in place of [matching_positions[0]]. *)
Fixpoint replace_first (f : Position -> bool) (g : Position -> Position)
    (ps : list Position) : list Position :=
  match ps with
  | [] => []
  | p :: rest => if f p then g p :: rest else p :: replace_first f g rest
  end.

(** [sum(p['current_price'] * p['quantity'] * p['lot_size']
        for p in self.positions if p['status'] == 'open')] *)
Definition open_positions_value (ps : list Position) : Q :=
  sum (map (fun p => current_price p * quantity p * lot_size p)
           (filter (fun p => String.eqb (status p) "open") ps)).

(** [close_position]; [uuids 0] is the id of the trade record. *)
Definition close_position (self : PaperTradingEngine) (now : datetime)
    (uuids : nat -> string) (signal : Signal)
  : result (Result * PaperTradingEngine) :=
  symbol <- index "symbol" (sig_symbol signal) ;;
  strike <- index "strike" (sig_strike signal) ;;
  option_type <- index "type" (sig_type signal) ;;
  match find (matches symbol strike option_type) (positions self) with
  | None => Ok (NoOpenPosition, self)
  | Some position =>
      let exit_price := dget (current_price position) (sig_price signal) in
      let exit_time := now in
      let entry_cost :=
        entry_price position * quantity position * lot_size position in
      let exit_value := exit_price * quantity position * lot_size position in
      let pnl := exit_value - entry_cost in
      let closed := closed_at position exit_price exit_time pnl in
      let positions' :=
        replace_first (matches symbol strike option_type)
          (fun p => closed_at p exit_price exit_time pnl) (positions self) in
      let available_balance' := available_balance self + exit_value in
      let self1 :=
        {| portfolio_value := available_balance' + open_positions_value positions';
           available_balance := available_balance';
           positions := positions';
           trade_history := trade_history self;
           daily_pnl := daily_pnl self + pnl;
           total_pnl := total_pnl self + pnl;
           auto_paper_trade := auto_paper_trade self;
           max_daily_trades := max_daily_trades self;
           trades_today := trades_today self |} in
      Ok (Closed pnl closed, record_trade self1 now (uuids 0%nat) closed "CLOSE")
  end.

(** [execute_trade]: an exception of either function becomes a failure, and
    both raise before they change anything. *)
Definition execute_trade (self : PaperTradingEngine) (now : datetime)
    (uuids : nat -> string) (signal : Signal) (trade_type : string)
  : Result * PaperTradingEngine :=
  match
    (action <- index "action" (sig_action signal) ;;
     if String.eqb action "BUY" then open_position self now uuids signal trade_type
     else if String.eqb action "SELL" then close_position self now uuids signal
     else Ok (InvalidAction, self))
  with
  | Ok outcome => outcome
  | Raise e => (ExecutionError e, self)
  end.

(** [reset_daily_counters] *)
Definition reset_daily_counters (self : PaperTradingEngine) : PaperTradingEngine :=
  {| portfolio_value := portfolio_value self;
     available_balance := available_balance self;
     positions := positions self;
     trade_history := trade_history self;
     daily_pnl := 0;
     total_pnl := total_pnl self;
     auto_paper_trade := auto_paper_trade self;
     max_daily_trades := max_daily_trades self;
     trades_today := 0 |}.




(** The position with what [update_position_prices] sets. *)
Definition repriced (p : Position) (new_price : Q) : Position :=
  {| id := id p;
     signal_id := signal_id p;
     symbol := symbol p;
     strike := strike p;
     type := type p;
     action := action p;
     quantity := quantity p;
     lot_size := lot_size p;
     entry_price := entry_price p;
     current_price := new_price;
     entry_time := entry_time p;
     trade_type := trade_type p;
     status := status p;
     confidence := confidence p;
     reasoning := reasoning p;
     unrealized_pnl :=
       new_price * quantity p * lot_size p
       - entry_price p * quantity p * lot_size p;
     stop_loss := stop_loss p;
     take_profit := take_profit p;
     parameters := parameters p;
     exit_price := exit_price p;
     exit_time := exit_time p;
     realized_pnl := realized_pnl p |}.

(** The body of the first loop of [update_position_prices]; [key p] is the
    text of [f"{p['symbol']}_{p['type']}_{p['strike']}"]. *)
Definition reprice (key : Position -> string)
    (price_updates : list (string * Q)) (p : Position) : Position :=
  if String.eqb (status p) "open" then
    match lookup (key p) price_updates with
    | Some new_price => repriced p new_price
    | None => p
    end
  else p.

(** The entries of [positions_to_close].  The position is held by reference;
    [auto_close_position] reads its symbol, strike, type and trade type,
    which no function changes once the position is made. *)
Record ExitInfo : Type := {
  exit_position : Position;
  reason : string;
  exit_at : Q
}.

(** The first loop of [check_auto_exits] *)
Definition exit_of (p : Position) : list ExitInfo :=
  if String.eqb (status p) "open" then
    if leb (current_price p) (stop_loss p) then
      [{| exit_position := p; reason := "stop_loss"; exit_at := stop_loss p |}]
    else if geb (current_price p) (take_profit p) then
      [{| exit_position := p; reason := "take_profit";
          exit_at := take_profit p |}]
    else []
  else [].

Definition positions_to_close (ps : list Position) : list ExitInfo :=
  flat_map exit_of ps.

(** The mock signal of [auto_close_position]; its ['reason'] is read by
    nothing. *)
Definition close_signal (exit_info : ExitInfo) : Signal :=
  {| sig_id := None;
     sig_symbol := Some (symbol (exit_position exit_info));
     sig_strike := Some (strike (exit_position exit_info));
     sig_type := Some (type (exit_position exit_info));
     sig_action := Some "SELL";
     sig_price := Some (exit_at exit_info);
     sig_quantity := None;
     sig_lot_size := None;
     sig_confidence := None;
     sig_reasoning := None;
     sig_parameters := None |}.

(** [auto_close_position]: the result of [close_position] is only printed. *)
Definition auto_close_position (self : PaperTradingEngine) (now : datetime)
    (uuids : nat -> string) (exit_info : ExitInfo)
  : result PaperTradingEngine :=
  outcome <- close_position self now uuids (close_signal exit_info) ;;
  Ok (snd outcome).

(** The second loop of [check_auto_exits]; the exit number [k] draws its
    ids from [uuids k]. *)
Fixpoint auto_exits (self : PaperTradingEngine) (now : datetime)
    (uuids : nat -> nat -> string) (exits : list ExitInfo)
  : result PaperTradingEngine :=
  match exits with
  | [] => Ok self
  | exit_info :: rest =>
      self' <- auto_close_position self now (uuids 0%nat) exit_info ;;
      auto_exits self' now (fun k => uuids (S k)) rest
  end.

(** [check_auto_exits] *)
Definition check_auto_exits (self : PaperTradingEngine) (now : datetime)
    (uuids : nat -> nat -> string) : result PaperTradingEngine :=
  auto_exits self now uuids (positions_to_close (positions self)).

(** [update_position_prices] *)
Definition update_position_prices (key : Position -> string)
    (self : PaperTradingEngine) (now : datetime)
    (uuids : nat -> nat -> string) (price_updates : list (string * Q))
  : result PaperTradingEngine :=
  let positions' := map (reprice key price_updates) (positions self) in
  check_auto_exits
    {| portfolio_value :=
         available_balance self + open_positions_value positions';
       available_balance := available_balance self;
       positions := positions';
       trade_history := trade_history self;
       daily_pnl := daily_pnl self;
       total_pnl := total_pnl self;
       auto_paper_trade := auto_paper_trade self;
       max_daily_trades := max_daily_trades self;
       trades_today := trades_today self |}
    now uuids.

End Paper.

Module PaperSpec.
Import Py Paper.



Definition sample_uuids (n : nat) : string :=
  "paper-" ++ String (Ascii.ascii_of_nat (48 + n)) EmptyString.


Definition sell_signal : Signal := {|
  sig_id := None; sig_symbol := Some "NIFTY"; sig_strike := Some 19500;
  sig_type := Some "CE"; sig_action := Some "SELL"; sig_price := Some 60;
  sig_quantity := None; sig_lot_size := None; sig_confidence := None;
  sig_reasoning := None; sig_parameters := None
|}.



(** The open positions on a contract. *)
Definition open_on (symbol : string) (strike : Q) (option_type : string)
    (ps : list Position) : list Position :=
  filter (matches symbol strike option_type) ps.

(** The text of [f"{p['symbol']}_{p['type']}"], for contracts told apart by
    that much. *)
Definition symbol_type_key (p : Position) : string :=
  Paper.symbol p ++ "_" ++ type p.

Definition sample_exit_uuids (k n : nat) : string :=
  "exit-" ++ String (Ascii.ascii_of_nat (48 + k)) EmptyString
  ++ "-" ++ String (Ascii.ascii_of_nat (48 + n)) EmptyString.





End PaperSpec.
(* ================================================================== *)
(** * Facts about the prelude *)
(* ================================================================== *)

Module PyFacts.
Import Py.

Lemma leb_le (x y : Q) : leb x y = true <-> x <= y.
Proof. apply Qle_bool_iff. Qed.

Lemma leb_gt (x y : Q) : leb x y = false <-> y < x.
Proof.
  unfold leb. split; intros H.
  - apply Qnot_le_lt. intros Hle. apply Qle_bool_iff in Hle. congruence.
  - destruct (Qle_bool x y) eqn:E; [|reflexivity].
    apply Qle_bool_iff in E. exfalso. apply (Qlt_not_le _ _ H E).
Qed.

Lemma ltb_lt (x y : Q) : ltb x y = true <-> x < y.
Proof.
  unfold ltb. rewrite negb_true_iff. apply leb_gt.
Qed.

Lemma ltb_ge (x y : Q) : ltb x y = false <-> y <= x.
Proof.
  unfold ltb. rewrite negb_false_iff. apply leb_le.
Qed.

Lemma eqb_eq (x y : Q) : eqb x y = true <-> x == y.
Proof. apply Qeq_bool_iff. Qed.

Lemma eqb_neq (x y : Q) : eqb x y = false <-> ~ x == y.
Proof.
  unfold eqb. split; intros H.
  - intros E. apply Qeq_bool_iff in E. congruence.
  - destruct (Qeq_bool x y) eqn:E; [|reflexivity].
    apply Qeq_bool_iff in E. contradiction.
Qed.

Lemma min_Qmin (a b : Q) : min a b == Qmin a b.
Proof.
  unfold min. destruct (ltb b a) eqn:E.
  - apply ltb_lt in E. symmetry. apply Q.min_r. apply Qlt_le_weak, E.
  - apply ltb_ge in E. symmetry. apply Q.min_l. exact E.
Qed.

(** Truncation and floor agree once clamped below at one. *)
Lemma max_1_int_floor (x : Q) : Z.max 1 (int x) = Z.max 1 (Qfloor x).
Proof.
  destruct x as [n d]. unfold int. cbn [Qnum Qden Qfloor].
  destruct (Z_le_gt_dec 0 n) as [Hn | Hn].
  - rewrite Z.quot_div_nonneg by lia. reflexivity.
  - assert (Hq : (Z.quot n (Z.pos d) <= 0)%Z).
    { replace n with (- (- n))%Z by lia.
      rewrite Z.quot_opp_l by lia.
      assert (0 <= Z.quot (- n) (Z.pos d))%Z by (apply Z.quot_pos; lia).
      lia. }
    assert (Hf : (n / Z.pos d < 0)%Z) by (apply Z.div_lt_upper_bound; lia).
    lia.
Qed.

End PyFacts.

(* ================================================================== *)
(** * The risk gate: properties *)
(* ================================================================== *)

Module RiskProps.
Import Py Risk RiskSpec PyFacts.

(** The names printed by [log_validation] are those of the entries with the
    value [False]. *)
Lemma reported_log_validation (s : Signal) (results : list (string * bool))
    (name : string) :
  In name (reported (log_validation s results)) <-> In (name, false) results.
Proof.
  assert (Hfailed : In name (map fst (filter (fun cr => negb (snd cr)) results))
                    <-> In (name, false) results).
  { rewrite in_map_iff. split.
    - intros [[n b] [Hn Hin]]. apply filter_In in Hin as [Hin Hb].
      cbn in Hn, Hb. subst n. destruct b; [discriminate | exact Hin].
    - intros Hin. exists (name, false). split; [reflexivity|].
      apply filter_In. split; [exact Hin | reflexivity]. }
  unfold log_validation, reported.
  destruct (map fst (filter (fun cr => negb (snd cr)) results)) as [|c cs] eqn:E.
  - exact Hfailed.
  - cbn [flat_map printed_failed_checks]. rewrite app_nil_r. exact Hfailed.
Qed.

(** With a symbol in the signal the position-limit check returns. *)
Lemma validate_position_limits_returns (rm : RiskManager) (s : Signal) :
  symbol s <> None -> exists b, validate_position_limits rm s = Ok b.
Proof.
  intros Hsym. unfold validate_position_limits.
  destruct (symbol s) as [sym|]; [|congruence]. cbn [index bind].
  destruct (geb _ _); [eexists; reflexivity|].
  destruct (geb _ _); eexists; reflexivity.
Qed.

(** C9.  With risk management disabled, [validate_trade] returns [True] for
    every signal, at any time and whatever the positions and the daily P&L,
    and prints nothing: none of the seven checks decides or is reported (even
    a signal on which the position-limit check would raise is accepted). *)
Theorem validate_trade_disabled_bypass (rm : RiskManager) (now : datetime)
    (s : Signal) :
  enabled rm = false -> validate_trade rm now s = Ok (true, []).
Proof.
  intros Hoff. unfold validate_trade. rewrite Hoff. reflexivity.
Qed.

Lemma validate_trade_disabled_bypass_witness :
  validate_position_limits disabled_manager anonymous_signal
  = Raise (KeyError "symbol")
  /\ validate_trade disabled_manager saturday_3am anonymous_signal = Ok (true, []).
Proof.
  split; [reflexivity | apply validate_trade_disabled_bypass; reflexivity].
Defined.

(** C1, as amended.  With the gate enabled and a symbol in the signal,
    [validate_trade] returns a boolean that is [True] exactly when the seven
    named checks pass each on its own, and the names it prints as failed are
    exactly those of the checks that failed. *)
Theorem validate_trade_enabled_spec (rm : RiskManager) (now : datetime)
    (s : Signal) :
  enabled rm = true -> symbol s <> None ->
  exists (passed : bool) (out : list printed),
    validate_trade rm now s = Ok (passed, out)
    /\ (passed = true <-> all_checks_pass rm now s)
    /\ (forall name, In name (reported out) <-> check_failed rm now s name).
Proof.
  intros Hon Hsym.
  destruct (validate_position_limits_returns rm s Hsym) as [b Hb].
  unfold validate_trade. rewrite Hon, Hb. cbn [negb bind].
  eexists. eexists. split; [reflexivity|]. split.
  - cbn [forallb snd]. rewrite !andb_true_iff. unfold all_checks_pass.
    rewrite Hb. intuition congruence.
  - intros name. rewrite reported_log_validation. cbn [In].
    unfold check_failed. rewrite Hb. rewrite !pair_equal_spec.
    intuition congruence.
Qed.

Lemma validate_trade_enabled_spec_witness :
  exists (passed : bool) (out : list printed),
    validate_trade init tuesday_10am bare_signal = Ok (passed, out)
    /\ (passed = true <-> all_checks_pass init tuesday_10am bare_signal)
    /\ (forall name,
          In name (reported out) <-> check_failed init tuesday_10am bare_signal name).
Proof.
  apply validate_trade_enabled_spec; [reflexivity | discriminate].
Defined.

(** A liquid contract on a Tuesday morning passes the seven checks, and
    nothing is printed. *)
Example validate_trade_liquid_signal :
  validate_trade init tuesday_10am liquid_signal = Ok (true, []).
Proof. reflexivity. Qed.

(** C1, as stated, fails.  With the gate disabled [validate_trade] returns
    [True] at 3 a.m. on a Saturday for a signal without market data, so not
    all checks pass; and with the gate enabled the value returned for a signal
    that fails the liquidity check alone is the value returned for one that
    fails the spread check alone, so it does not tell which checks failed. *)
Lemma validate_trade_counterexample :
  (validate_trade disabled_manager saturday_3am bare_signal = Ok (true, [])
   /\ ~ all_checks_pass disabled_manager saturday_3am bare_signal)
  /\ (exists out1 out2,
        validate_trade init tuesday_10am thin_signal = Ok (false, out1)
        /\ validate_trade init tuesday_10am wide_signal = Ok (false, out2)
        /\ reported out1 = ["liquidity_check"]
        /\ reported out2 = ["spread_check"]).
Proof.
  split.
  - split; [reflexivity|]. intros [Htime _]. vm_compute in Htime. discriminate.
  - eexists. eexists. repeat split; vm_compute; reflexivity.
Qed.

(** C10, as amended.  A signal with a symbol never makes [validate_trade]
    raise, whatever market data it lacks.  A missing volume or open interest
    is read as 0 and fails the liquidity check when the minimum is positive;
    a missing price is read as 0 and fails the spread check; a missing ask is
    read as 0 and fails the spread check unless the bid is negative; a missing
    implied volatility is read as 20 and passes the volatility check. *)
Theorem validate_trade_missing_market_data (rm : RiskManager) (now : datetime)
    (s : Signal) :
  symbol s <> None ->
  (exists passed out, validate_trade rm now s = Ok (passed, out))
  /\ (volume s = None -> 0 < min_volume rm -> validate_liquidity rm s = false)
  /\ (open_interest s = None -> 0 < min_open_interest rm ->
      validate_liquidity rm s = false)
  /\ (price s = None -> validate_spread rm s = false)
  /\ (ask s = None -> 0 <= dget 0 (bid s) -> validate_spread rm s = false)
  /\ (iv s = None -> validate_volatility rm s = true).
Proof.
  intros Hsym. repeat split.
  - destruct (validate_position_limits_returns rm s Hsym) as [b Hb].
    unfold validate_trade. rewrite Hb.
    destruct (enabled rm); cbn [negb bind]; eexists; eexists; reflexivity.
  - intros Hvol Hmin. unfold validate_liquidity. rewrite Hvol. cbn [dget].
    apply ltb_lt in Hmin. rewrite Hmin. reflexivity.
  - intros Hoi Hmin. unfold validate_liquidity. rewrite Hoi. cbn [dget].
    apply ltb_lt in Hmin. rewrite Hmin.
    destruct (ltb (dget 0 (volume s)) (min_volume rm)); reflexivity.
  - intros Hprice. unfold validate_spread. rewrite Hprice. reflexivity.
  - intros Hask Hbid. unfold validate_spread. rewrite Hask. cbn [dget].
    apply leb_le in Hbid. rewrite Hbid, orb_true_r. reflexivity.
  - intros Hiv. unfold validate_volatility. rewrite Hiv. reflexivity.
Qed.

Lemma validate_trade_missing_market_data_witness :
  (exists passed out,
      validate_trade init tuesday_10am bare_signal = Ok (passed, out))
  /\ validate_liquidity init bare_signal = false
  /\ validate_spread init bare_signal = false
  /\ validate_volatility init bare_signal = true.
Proof.
  destruct (validate_trade_missing_market_data init tuesday_10am bare_signal)
    as (Hret & Hvol & _ & _ & Hask & Hiv); [discriminate|].
  split; [exact Hret|]. split; [|split].
  - apply Hvol; reflexivity.
  - apply Hask; [reflexivity | discriminate].
  - apply Hiv; reflexivity.
Defined.

(** C10, as stated, fails for a missing bid: read as 0, it leaves the spread
    check to compare ask / price with the limit, and a contract at 100 offered
    at 1 passes it, as it passes the whole validation.  And once the two
    minimums are set to 0, a signal without volume and open interest passes
    the liquidity check. *)
Lemma missing_bid_counterexample :
  (bid no_bid_signal = None
   /\ validate_spread init no_bid_signal = true
   /\ validate_trade init tuesday_10am no_bid_signal = Ok (true, []))
  /\ (volume bare_signal = None
      /\ open_interest bare_signal = None
      /\ validate_liquidity lenient_manager bare_signal = true).
Proof. repeat split. Qed.

(** ** Position sizing *)

Lemma shr_1_nonneg (mrs : shr_record) :
  (0 <= shr_m mrs)%Z -> (0 <= shr_m (shr_1 mrs))%Z.
Proof.
  destruct mrs as [m r t]. cbn [shr_m shr_1].
  destruct m as [|[p|p|]|[p|p|]]; cbn [shr_m]; lia.
Qed.

Lemma iter_shr_1_nonneg (p : positive) :
  forall mrs, (0 <= shr_m mrs)%Z -> (0 <= shr_m (iter_pos shr_1 p mrs))%Z.
Proof.
  induction p as [p IH|p IH|]; intros mrs Hm; cbn [iter_pos].
  - apply IH, IH, shr_1_nonneg, Hm.
  - apply IH, IH, Hm.
  - apply shr_1_nonneg, Hm.
Qed.

Lemma shr_fexp_nonneg (m e : Z) (l : location) :
  (0 <= m)%Z ->
  (0 <= shr_m (fst (shr_fexp Float64.prec Float64.emax m e l)))%Z.
Proof.
  intros Hm. unfold shr_fexp, shr.
  assert (Hstart : (0 <= shr_m (shr_record_of_loc m l))%Z).
  { destruct l as [|[| |]]; exact Hm. }
  destruct (_ - e)%Z as [|p|p]; cbn [fst]; try exact Hstart.
  apply iter_shr_1_nonneg, Hstart.
Qed.

(** A rounded non-negative mantissa gives a zero, a finite float or an
    infinity of the sign asked for. *)
Lemma binary_round_aux_sign (sx : bool) (m e : Z) (l : location) :
  (0 <= m)%Z ->
  match binary_round_aux Float64.prec Float64.emax sx m e l with
  | S754_zero s | S754_infinity s | S754_finite s _ _ => s = sx
  | S754_nan => False
  end.
Proof.
  intros Hm. unfold binary_round_aux.
  pose proof (shr_fexp_nonneg m e l Hm) as H1.
  destruct (shr_fexp Float64.prec Float64.emax m e l) as [mrs1 e1].
  cbn [fst] in H1.
  assert (H2 : (0 <= round_nearest_even (shr_m mrs1) (loc_of_shr_record mrs1))%Z).
  { unfold round_nearest_even.
    destruct (loc_of_shr_record mrs1) as [|[| |]]; try lia.
    destruct (Z.even (shr_m mrs1)); lia. }
  pose proof (shr_fexp_nonneg _ e1 loc_Exact H2) as H3.
  destruct (shr_fexp Float64.prec Float64.emax _ e1 loc_Exact) as [mrs2 e2].
  cbn [fst] in H3.
  destruct (shr_m mrs2) as [|p|p]; [reflexivity | | lia].
  destruct (Z.leb e2 _); reflexivity.
Qed.

Lemma div_core_nonneg (n d : positive) :
  (0 <= fst (fst (SFdiv_core_binary Float64.prec Float64.emax
                    (Zpos n) 0 (Zpos d) 0)))%Z.
Proof.
  unfold SFdiv_core_binary.
  set (shift := (_ - _ - _)%Z).
  set (m' := match shift with
             | Zpos _ => Z.shiftl (Zpos n) shift
             | Z0 => Zpos n
             | Zneg _ => 0%Z
             end).
  assert (Hm' : (0 <= m')%Z).
  { subst m'. destruct shift; try lia. apply Z.shiftl_nonneg. lia. }
  pose proof (Z.div_pos m' (Zpos d) Hm' eq_refl) as Hq.
  unfold Z.div in Hq. destruct (Z.div_eucl m' (Zpos d)) as [q r].
  exact Hq.
Qed.

(** A number that is not positive has a float that is not positive. *)
Lemma of_Q_nonpos (q : Q) : q <= 0 -> at_most_zero (Float64.of_Q q) = true.
Proof.
  intros Hq. unfold Qle in Hq. cbn [Qnum Qden] in Hq.
  unfold at_most_zero, Float64.of_Q.
  destruct (Qnum q) as [|n|n]; [reflexivity | lia |].
  pose proof (div_core_nonneg n (Qden q)) as Hm.
  destruct (SFdiv_core_binary _ _ _ _ _ _) as [[m e] l]. cbn [fst] in Hm.
  pose proof (binary_round_aux_sign true m e l Hm) as Hsign.
  destruct (binary_round_aux _ _ true m e l) as [s|s| |s m' e'];
    try contradiction; subst s; reflexivity.
Qed.

(** A float that fails the test [x <= 0] is not zero. *)
Lemma above_zero_not_zero (x : Float64.float) :
  at_most_zero x = false -> Float64.eqb x Float64.zero = false.
Proof.
  unfold at_most_zero, Float64.leb, Float64.eqb, SFleb, SFeqb.
  destruct (SFcompare x Float64.zero) as [[| |]|]; congruence.
Qed.

(** The floats of the sample: 0.02 is 0x1.47ae147ae147bp-6 and 1.1 is
    0x1.199999999999ap+0, as Python reads them; 5500 * 0.02 is rounded to
    110.0, and 110.0 / 1.1 to 0x1.8ffffffffffffp+6, the float below 100. *)
Lemma decimal_floats :
  Float64.of_Q (2 # 100) = S754_finite false 5764607523034235 (-58)
  /\ Float64.of_Q (11 # 10) = S754_finite false 4953959590107546 (-52)
  /\ risk_amount init 5500 = Float64.of_Q 110
  /\ lots_quotient init decimal_signal 5500
     = S754_finite false 7036874417766399 (-46)
  /\ Float64.to_Q (lots_quotient init decimal_signal 5500) = Some below_100.
Proof. repeat split. Qed.

(** C8, as amended.  Without capital [calculate_position_size] returns no
    lot.  With capital it returns one lot when the price of a lot is not
    above 0; otherwise it returns, at least one, the lots of
    min(capital x position_size_percent, max_loss_per_trade)
    / (price x lot_size) as Python computes it, each product and the quotient
    rounded to a float, and raises when that quotient is no finite float;
    scenario 5 of the specification yields one lot. *)
Theorem calculate_position_size_amended (rm : RiskManager) (s : Signal)
    (available_capital : Q) :
  (available_capital <= 0 ->
   calculate_position_size rm s available_capital = Ok 0%Z)
  /\ (at_most_zero (Float64.of_Q available_capital) = false ->
      at_most_zero (lot_price s) = true ->
      calculate_position_size rm s available_capital = Ok 1%Z)
  /\ (at_most_zero (Float64.of_Q available_capital) = false ->
      at_most_zero (lot_price s) = false ->
      match Float64.to_Q (lots_quotient rm s available_capital) with
      | Some quotient =>
          calculate_position_size rm s available_capital
          = Ok (Z.max 1 (Qfloor quotient))
      | None =>
          exists e, calculate_position_size rm s available_capital = Raise e
      end)
  /\ calculate_position_size init scenario_signal 100000 = Ok 1%Z.
Proof.
  unfold calculate_position_size.
  fold (lot_price s). fold (risk_amount rm available_capital).
  fold (at_most_zero (Float64.of_Q available_capital)).
  fold (at_most_zero (lot_price s)).
  split; [|split; [|split]].
  - intros Hcap. rewrite (of_Q_nonpos _ Hcap). reflexivity.
  - intros Hcap Hlot. rewrite Hcap, Hlot. reflexivity.
  - intros Hcap Hlot. rewrite Hcap, Hlot.
    unfold Float64.div. rewrite (above_zero_not_zero _ Hlot).
    fold (lots_quotient rm s available_capital). cbn [bind].
    destruct (lots_quotient rm s available_capital) as [sg|sg| |sg m e];
      cbn [Float64.to_Q Float64.int bind dget].
    + rewrite max_1_int_floor. reflexivity.
    + eexists. reflexivity.
    + eexists. reflexivity.
    + rewrite max_1_int_floor. reflexivity.
  - vm_compute. reflexivity.
Qed.

Lemma calculate_position_size_amended_witness :
  calculate_position_size init scenario_signal 0 = Ok 0%Z
  /\ calculate_position_size init decimal_signal 5500
     = Ok (Z.max 1 (Qfloor below_100)).
Proof.
  destruct (calculate_position_size_amended init scenario_signal 0)
    as (Hnone & _).
  destruct (calculate_position_size_amended init decimal_signal 5500)
    as (_ & _ & Hlots & _).
  split.
  - apply Hnone. discriminate.
  - apply Hlots; vm_compute; reflexivity.
Defined.

(** C8, as stated, fails.  Without capital the formula of the specification
    gives its minimum of one lot, [calculate_position_size] returns none;
    and with a capital of 5500, a price of 1.1 and lots of one the formula
    gives 100 lots where [calculate_position_size] returns 99, the quotient
    of the floats 110.0 and 1.1 being rounded to the float below 100. *)
Lemma calculate_position_size_counterexample :
  (calculate_position_size init scenario_signal 0 = Ok 0%Z
   /\ spec_lots init scenario_signal 0 = 1%Z)
  /\ (calculate_position_size init decimal_signal 5500 = Ok 99%Z
      /\ spec_lots init decimal_signal 5500 = 100%Z).
Proof. repeat split. Qed.

End RiskProps.

(* ================================================================== *)
(** * The signal engine: properties *)
(* ================================================================== *)

Module SignalsProps.
Import Py Signals SignalsSpec PyFacts.

(** ** The parameter scorer *)

Ltac bucket_bound :=
  unfold in_unit_interval;
  repeat match goal with
         | |- context [if ?b then _ else _] => destruct b
         end;
  split; unfold Qle; cbn; lia.

Lemma delta_bucket_bound (d : Q) : in_unit_interval (delta_bucket d).
Proof. unfold delta_bucket. bucket_bound. Qed.

Lemma analyze_delta_bound (delta : Q) (option_type : string) :
  in_unit_interval (analyze_delta delta option_type).
Proof.
  unfold analyze_delta. destruct (String.eqb option_type "CE");
    apply delta_bucket_bound.
Qed.

Lemma analyze_oi_change_bound (oi_change total_oi : Q) :
  in_unit_interval (analyze_oi_change oi_change total_oi).
Proof. unfold analyze_oi_change. bucket_bound. Qed.

Lemma analyze_volume_bound (volume oi : Q) :
  in_unit_interval (analyze_volume volume oi).
Proof. unfold analyze_volume. bucket_bound. Qed.

Lemma momentum_bucket_bound (d : Q) : in_unit_interval (momentum_bucket d).
Proof. unfold momentum_bucket. bucket_bound. Qed.

Lemma analyze_iv_bound (iv : Q) : in_unit_interval (analyze_iv iv).
Proof. unfold analyze_iv. bucket_bound. Qed.

Lemma analyze_spread_bound (bid ask ltp : Q) :
  in_unit_interval (analyze_spread bid ask ltp).
Proof. unfold analyze_spread. bucket_bound. Qed.

Lemma analyze_liquidity_bound (bid ask : Q) :
  in_unit_interval (analyze_liquidity bid ask).
Proof. unfold analyze_liquidity. bucket_bound. Qed.

(** With a non-zero underlying price the momentum analysis returns a bucket. *)
Lemma analyze_momentum_returns (ltp underlying_price strike : Q)
    (option_type : string) :
  ~ underlying_price == 0 ->
  exists d, analyze_momentum ltp underlying_price strike option_type
            = Ok (momentum_bucket d).
Proof.
  intros Hup. apply eqb_neq in Hup. unfold analyze_momentum, div.
  rewrite Hup. destruct (String.eqb option_type "CE"); cbn [bind];
    eexists; reflexivity.
Qed.

(** With a delta, a last price and a non-zero underlying price the scorer
    returns. *)
Lemma score_option_returns (row : OptionRow) (option_type : string)
    (strike underlying_price : Q) :
  row_delta row <> None -> row_ltp row <> None -> ~ underlying_price == 0 ->
  exists params, score_option row option_type strike underlying_price = Ok params.
Proof.
  intros Hdelta Hltp Hup. unfold score_option.
  destruct (row_delta row) as [delta|]; [|congruence].
  destruct (row_ltp row) as [ltp|]; [|congruence].
  cbn [index bind].
  destruct (analyze_momentum_returns ltp underlying_price strike option_type Hup)
    as [d Hd].
  rewrite Hd. cbn [bind]. eexists. reflexivity.
Qed.

(** C7.  For a row with a delta and a last price, and a non-zero underlying
    price, the scorer returns seven scores, each in [0,1]; when the open
    interest of the row is 0 (whatever its volume, 0 included) the
    open-interest score and the volume score are both 0.3. *)
Theorem score_option_in_unit_interval (row : OptionRow) (option_type : string)
    (strike underlying_price : Q) :
  row_delta row <> None -> row_ltp row <> None -> ~ underlying_price == 0 ->
  exists params,
    score_option row option_type strike underlying_price = Ok params
    /\ scores_in_unit_interval params
    /\ (dget 0 (row_oi row) == 0 ->
        oi_score params = 3 # 10 /\ volume_score params = 3 # 10).
Proof.
  intros Hdelta Hltp Hup. unfold score_option.
  destruct (row_delta row) as [delta|]; [|congruence].
  destruct (row_ltp row) as [ltp|]; [|congruence].
  cbn [index bind].
  destruct (analyze_momentum_returns ltp underlying_price strike option_type Hup)
    as [d Hd].
  rewrite Hd. cbn [bind]. eexists. split; [reflexivity|]. split.
  - unfold scores_in_unit_interval.
    cbn [delta_score oi_score volume_score momentum_score iv_score
         spread_score liquidity_score].
    repeat split;
      first [ apply analyze_delta_bound | apply analyze_oi_change_bound
            | apply analyze_volume_bound | apply momentum_bucket_bound
            | apply analyze_iv_bound | apply analyze_spread_bound
            | apply analyze_liquidity_bound ].
  - intros Hoi. apply eqb_eq in Hoi.
    cbn [oi_score volume_score]. unfold analyze_oi_change, analyze_volume.
    rewrite Hoi. split; reflexivity.
Qed.

Lemma score_option_in_unit_interval_witness :
  exists params,
    score_option untraded_row "CE" 100 105 = Ok params
    /\ scores_in_unit_interval params
    /\ oi_score params = 3 # 10 /\ volume_score params = 3 # 10.
Proof.
  destruct (score_option_in_unit_interval untraded_row "CE" 100 105)
    as (params & Hok & Hunit & Hzero);
    [discriminate | discriminate | discriminate |].
  exists params. split; [exact Hok|]. split; [exact Hunit|].
  apply Hzero. reflexivity.
Defined.

(** ** The trading-hours gate *)

(** Outside trading hours a chain whose analysis succeeds yields no signal
    and leaves the engine as it was. *)
Lemma generate_signals_outside_hours (self : AISignalEngine)
    (uuids : nat -> string) (current_time now : datetime) (symbol : string)
    (option_chain : list OptionRow) (underlying_price : Q)
    (analysis : list (AnalysisKey * AnalysisEntry)) :
  is_trading_time now = false ->
  analyze_market_parameters self option_chain underlying_price = Ok analysis ->
  generate_signals self uuids current_time now symbol option_chain
    underlying_price = Ok ([], self).
Proof.
  intros Hclosed Han. unfold generate_signals.
  destruct option_chain as [|r rest]; [reflexivity|].
  rewrite Han. cbn [bind]. rewrite Hclosed. reflexivity.
Qed.

(** C5 fails on the code.  On a Saturday at noon [generate_signals] does not
    return the empty list for a well-formed chain and an underlying price of
    0, nor for a chain without delta: the analysis runs before the gate, and
    what it raises leaves the call. *)
Lemma generate_signals_outside_hours_raises :
  is_trading_time saturday_noon = false
  /\ generate_signals init sample_uuids saturday_noon saturday_noon "NIFTY"
       [call_row] 0
     = Raise ZeroDivisionError
  /\ generate_signals init sample_uuids saturday_noon saturday_noon "NIFTY"
       [no_delta_row] 105
     = Raise (KeyError "delta").
Proof. repeat split. Qed.

(** ** Emitted signals *)

Section Emitted.

Variable self : AISignalEngine.
Variable uuids : nat -> string.
Variable current_time : datetime.
Variable symbol : string.
Variable underlying_price : Q.

Lemma dict_set_Forall (P : AnalysisEntry -> Prop) (k : AnalysisKey)
    (v : AnalysisEntry) (d : list (AnalysisKey * AnalysisEntry)) :
  P v ->
  Forall (fun kv => P (snd kv)) d ->
  Forall (fun kv => P (snd kv)) (dict_set k v d).
Proof.
  intros Hv Hd. induction Hd as [|[k' v'] d' Hkv Hd' IH]; cbn [dict_set].
  - constructor; [exact Hv | constructor].
  - destruct (key_eqb k k'); constructor; assumption.
Qed.





(** On complete rows and a non-zero underlying price the analysis returns,
    and every entry keeps a complete row. *)
Lemma analyze_option_returns (analysis : list (AnalysisKey * AnalysisEntry))
    (row : OptionRow) :
  complete row -> ~ underlying_price == 0 ->
  Forall (fun kv => complete (an_option_data (snd kv))) analysis ->
  exists analysis',
    analyze_option (parameter_weights self) underlying_price analysis row
    = Ok analysis'
    /\ Forall (fun kv => complete (an_option_data (snd kv))) analysis'.
Proof.
  intros Hrow Hup Han. pose proof Hrow as (Hstrike & Htype & Hdelta & Hltp).
  unfold analyze_option.
  destruct (row_strike row) as [strike|] eqn:Es; [|congruence].
  destruct (row_type row) as [option_type|] eqn:Et; [|congruence].
  cbn [index bind].
  destruct (score_option_returns row option_type strike underlying_price
              Hdelta Hltp Hup) as (params & Hparams).
  rewrite Hparams. cbn [bind]. eexists. split; [reflexivity|].
  apply (dict_set_Forall (fun d => complete (an_option_data d)));
    [exact Hrow | exact Han].
Qed.

Lemma analyze_rows_returns (rows : list OptionRow) :
  Forall complete rows -> ~ underlying_price == 0 ->
  forall analysis,
    Forall (fun kv => complete (an_option_data (snd kv))) analysis ->
    exists analysis',
      analyze_rows (parameter_weights self) underlying_price analysis rows
      = Ok analysis'
      /\ Forall (fun kv => complete (an_option_data (snd kv))) analysis'.
Proof.
  intros Hrows Hup. induction Hrows as [|row rest Hrow Hrest IH];
    intros analysis Han; cbn [analyze_rows].
  - exists analysis. split; [reflexivity | exact Han].
  - destruct (analyze_option_returns analysis row Hrow Hup Han)
      as (analysis1 & Hrow1 & Han1).
    rewrite Hrow1. cbn [bind]. apply IH. exact Han1.
Qed.

Lemma emit_signals_returns (analysis : list (AnalysisKey * AnalysisEntry)) :
  Forall (fun kv => complete (an_option_data (snd kv))) analysis ->
  forall signals,
    exists signals',
      emit_signals self uuids current_time symbol underlying_price signals
        analysis = Ok signals'.
Proof.
  intros Han. induction Han as [|item rest Hitem Hrest IH]; intros signals;
    cbn [emit_signals].
  - exists signals. reflexivity.
  - destruct Hitem as (Hstrike & Htype & _ & Hltp).
    assert (Hemit : exists signals1,
               emit_signal self uuids current_time symbol underlying_price
                 signals item = Ok signals1).
    { unfold emit_signal.
      destruct (geb _ _); [|eexists; reflexivity].
      destruct (row_type (an_option_data (snd item))); [|congruence].
      destruct (row_strike (an_option_data (snd item))); [|congruence].
      destruct (row_ltp (an_option_data (snd item))); [|congruence].
      cbn [index bind].
      destruct (negb _); eexists; reflexivity. }
    destruct Hemit as [signals1 Hsignals1]. rewrite Hsignals1. cbn [bind].
    apply IH.
Qed.

End Emitted.



(** [generate_signals] returns on every chain of complete rows with a
    non-zero underlying price. *)
Lemma generate_signals_returns (self : AISignalEngine) (uuids : nat -> string)
    (current_time now : datetime) (symbol : string)
    (option_chain : list OptionRow) (underlying_price : Q) :
  Forall complete option_chain -> ~ underlying_price == 0 ->
  exists signals self',
    generate_signals self uuids current_time now symbol option_chain
      underlying_price = Ok (signals, self').
Proof.
  intros Hrows Hup. unfold generate_signals, analyze_market_parameters.
  destruct option_chain as [|row rest]; [eexists; eexists; reflexivity|].
  destruct (analyze_rows_returns self underlying_price (row :: rest) Hrows Hup [])
    as (analysis & Han & Hcomplete); [constructor|].
  rewrite Han. cbn [bind].
  destruct (is_trading_time now); cbn [negb];
    [|eexists; eexists; reflexivity].
  destruct (emit_signals_returns self uuids current_time symbol underlying_price
              analysis Hcomplete []) as [signals Hsignals].
  rewrite Hsignals. cbn [bind]. eexists. eexists. reflexivity.
Qed.



(** ** Recording outcomes *)

Lemma train_model_keeps (self : AISignalEngine) :
  learning_data (train_model self) = learning_data self
  /\ signals_history (train_model self) = signals_history self.
Proof.
  unfold train_model. destruct (ltb _ _); [split; reflexivity|].
  destruct (forallb _ _); split; reflexivity.
Qed.

Lemma optimize_weights_keeps (self : AISignalEngine) :
  learning_data (optimize_weights self) = learning_data self
  /\ signals_history (optimize_weights self) = signals_history self.
Proof.
  unfold optimize_weights. destruct (ltb _ _); [split; reflexivity|].
  destruct (optimized_weights self); split; reflexivity.
Qed.

(** A call for a signal of the history appends one record and keeps the
    history. *)
Lemma learn_from_outcome_known (self : AISignalEngine) (now : datetime)
    (signal_id actual_outcome : string) (pnl : Q) (signal : Signal) :
  find (fun s => String.eqb (id s) signal_id) (signals_history self) = Some signal ->
  learning_data (learn_from_outcome self now signal_id actual_outcome pnl)
  = (learning_data self
     ++ [learning_record signal now signal_id actual_outcome pnl])%list
  /\ signals_history (learn_from_outcome self now signal_id actual_outcome pnl)
     = signals_history self.
Proof.
  intros Hfind. unfold learn_from_outcome. rewrite Hfind.
  destruct (Nat.eqb _ 0); [|split; reflexivity].
  match goal with
  | |- context [optimize_weights (train_model ?e)] =>
      destruct (optimize_weights_keeps (train_model e)) as [Hdata Hhistory];
      destruct (train_model_keeps e) as [Hdata' Hhistory']
  end.
  rewrite Hdata, Hhistory, Hdata', Hhistory'. split; reflexivity.
Qed.

(** C3, as amended.  Two calls of [learn_from_outcome] with the id of a
    signal of the history and the same outcome append two learning records,
    alike but for the time of the call, so that every statistic over the
    learning data counts the outcome twice; with an id that is not in the
    history neither call changes anything. *)
Theorem learn_from_outcome_twice (self : AISignalEngine) (now1 now2 : datetime)
    (signal_id actual_outcome : string) (pnl : Q) :
  (forall signal,
      find (fun s => String.eqb (id s) signal_id) (signals_history self)
      = Some signal ->
      learning_data
        (learn_from_outcome
           (learn_from_outcome self now1 signal_id actual_outcome pnl)
           now2 signal_id actual_outcome pnl)
      = (learning_data self
         ++ [ learning_record signal now1 signal_id actual_outcome pnl;
              learning_record signal now2 signal_id actual_outcome pnl ])%list)
  /\ (find (fun s => String.eqb (id s) signal_id) (signals_history self) = None ->
      learn_from_outcome
        (learn_from_outcome self now1 signal_id actual_outcome pnl)
        now2 signal_id actual_outcome pnl
      = self).
Proof.
  split.
  - intros signal Hfind.
    destruct (learn_from_outcome_known self now1 signal_id actual_outcome pnl
                signal Hfind) as [Hdata1 Hhistory1].
    rewrite <- Hhistory1 in Hfind.
    destruct (learn_from_outcome_known _ now2 signal_id actual_outcome pnl
                signal Hfind) as [Hdata2 _].
    rewrite Hdata2, Hdata1, <- app_assoc. reflexivity.
  - intros Hfind. unfold learn_from_outcome. rewrite Hfind, Hfind. reflexivity.
Qed.

Lemma learn_from_outcome_twice_witness :
  learning_data
    (learn_from_outcome
       (learn_from_outcome engine_with_9_records tuesday_10_05am "uuid-0"
          "profit" 100)
       tuesday_10_05am "uuid-0" "profit" 100)
  = (learning_data engine_with_9_records
     ++ [ learning_record call_signal tuesday_10_05am "uuid-0" "profit" 100;
          learning_record call_signal tuesday_10_05am "uuid-0" "profit" 100 ])%list.
Proof.
  destruct (learn_from_outcome_twice engine_with_9_records tuesday_10_05am
              tuesday_10_05am "uuid-0" "profit" 100) as [Hknown _].
  apply Hknown. reflexivity.
Defined.

(** C3, as stated, fails.  On an engine with nine learning records, the
    outcome of [call_signal] recorded once gives ten records and an accuracy
    of 94; the same outcome recorded a second time gives eleven records and
    an accuracy of 980/11. *)
Lemma learn_from_outcome_counterexample :
  let once :=
    learn_from_outcome engine_with_9_records tuesday_10_05am "uuid-0" "profit" 100 in
  let twice :=
    learn_from_outcome once tuesday_10_05am "uuid-0" "profit" 100 in
  List.length (learning_data once) = 10%nat
  /\ List.length (learning_data twice) = 11%nat
  /\ get_accuracy once == 94
  /\ get_accuracy twice == 980 # 11
  /\ ~ get_accuracy twice == get_accuracy once.
Proof.
  cbv zeta. repeat split; try (vm_compute; reflexivity).
  vm_compute. discriminate.
Qed.

(** ** The weight optimizer *)

(** The optimizer looks a parameter up under its name followed by [_score];
    the scores of a signal hold the open-interest score as [oi_score], so for
    the parameter [oi_change] no record made of a signal has a sample. *)
Lemma oi_change_never_sampled (params : ParameterScores) :
  lookup ("oi_change" ++ "_score") (items params) = None.
Proof. reflexivity. Qed.

(** The sibling path: when every parameter has a sample, its weight enters
    [total_weight] and the division makes the weights sum to 1. *)
Lemma sum_acc (l : list Q) (a : Q) : fold_left Qplus l a == a + sum l.
Proof.
  unfold sum. revert a. induction l as [|x l IH]; intros a; cbn [fold_left].
  - ring.
  - rewrite (IH (a + x)), (IH (0 + x)). ring.
Qed.

Lemma total_snoc (weights : list (string * Q)) (name : string) (w : Q) :
  total (weights ++ [(name, w)]) == total weights + w.
Proof.
  unfold total, sum. rewrite map_app, fold_left_app. reflexivity.
Qed.

Lemma total_cons (weights : list (string * Q)) (name : string) (w : Q) :
  total ((name, w) :: weights) == w + total weights.
Proof.
  unfold total. cbn [map snd]. unfold sum at 1. cbn [fold_left].
  rewrite sum_acc. ring.
Qed.

Lemma weigh_parameter_step (self : AISignalEngine) (t : Q)
    (ws : list (string * Q)) (name : string) (data : list (Q * Q))
    (state' : Q * list (string * Q)) :
  weigh_parameter self (t, ws) (name, data) = Ok state' ->
  exists weight,
    snd state' = (ws ++ [(name, weight)])%list
    /\ (data <> [] -> fst state' = t + weight).
Proof.
  unfold weigh_parameter. cbn [fst snd]. intros Hone.
  destruct data as [|d data'].
  - destruct (index name (lookup name (parameter_weights self))) as [w|];
      [|discriminate].
    cbn [bind] in Hone. injection Hone as <-. exists w.
    split; [reflexivity | congruence].
  - destruct (map snd (filter (fun d0 => gtb (fst d0) (6 # 10)) (d :: data')))
      as [|p high].
    + destruct (index name (lookup name (parameter_weights self))) as [w|];
        [|discriminate].
      cbn [bind] in Hone. injection Hone as <-. exists w.
      split; reflexivity.
    + cbn [bind] in Hone. injection Hone as <-. eexists.
      split; reflexivity.
Qed.

Lemma weigh_parameters_total (self : AISignalEngine)
    (performance : list (string * list (Q * Q))) :
  Forall (fun entry => snd entry <> []) performance ->
  forall state state',
    weigh_parameters self state performance = Ok state' ->
    fst state == total (snd state) ->
    fst state' == total (snd state').
Proof.
  intros Hsampled.
  induction Hsampled as [|[name data] rest Hdata Hrest IH];
    intros [t ws] state' Hweigh Hstate; cbn [weigh_parameters] in Hweigh.
  - injection Hweigh as <-. exact Hstate.
  - destruct (weigh_parameter self (t, ws) (name, data)) as [[t1 ws1]|] eqn:Hone;
      [|discriminate].
    cbn [bind] in Hweigh. apply (IH _ _ Hweigh).
    destruct (weigh_parameter_step self t ws name data _ Hone)
      as (weight & Hws & Ht).
    cbn [fst snd] in *. rewrite Hws, (Ht Hdata), total_snoc, Hstate.
    reflexivity.
Qed.

Lemma normalize_total (total_weight : Q) (weights : list (string * Q)) :
  forall weights',
    normalize total_weight weights = Ok weights' ->
    total weights' * total_weight == total weights
    /\ (weights <> [] -> ~ total_weight == 0).
Proof.
  induction weights as [|[name w] rest IH]; intros weights' Hnorm;
    cbn [normalize] in Hnorm.
  - injection Hnorm as <-. split; [reflexivity | congruence].
  - unfold div in Hnorm. destruct (eqb total_weight 0) eqn:Hzero; [discriminate|].
    apply eqb_neq in Hzero. cbn [bind] in Hnorm.
    destruct (normalize total_weight rest) as [rest'|]; [|discriminate].
    cbn [bind] in Hnorm. injection Hnorm as <-.
    destruct (IH rest' eq_refl) as [Hrest _].
    split; [|intros _; exact Hzero].
    rewrite !total_cons, <- Hrest. field. exact Hzero.
Qed.

Lemma param_performance_length (self : AISignalEngine) :
  List.length (param_performance self) = 7%nat.
Proof.
  unfold param_performance.
  assert (H : forall records perf,
             List.length (fold_left record_performance records perf)
             = List.length perf).
  { induction records as [|r records IH]; intros perf; cbn [fold_left].
    - reflexivity.
    - rewrite IH. unfold record_performance. apply length_map. }
  rewrite H. reflexivity.
Qed.

Lemma weigh_parameters_length (self : AISignalEngine)
    (performance : list (string * list (Q * Q))) :
  forall state state',
    weigh_parameters self state performance = Ok state' ->
    List.length (snd state')
    = (List.length (snd state) + List.length performance)%nat.
Proof.
  induction performance as [|[name data] rest IH]; intros [t ws] state' Hweigh;
    cbn [weigh_parameters] in Hweigh.
  - injection Hweigh as <-. cbn. lia.
  - destruct (weigh_parameter self (t, ws) (name, data)) as [[t1 ws1]|] eqn:Hone;
      [|discriminate].
    cbn [bind] in Hweigh. rewrite (IH _ _ Hweigh).
    destruct (weigh_parameter_step self t ws name data _ Hone)
      as (weight & Hws & _).
    cbn [snd] in *. rewrite Hws, length_app. cbn. lia.
Qed.

Lemma optimized_weights_sum_one_when_sampled (self : AISignalEngine)
    (weights : list (string * Q)) :
  Forall (fun entry => snd entry <> []) (param_performance self) ->
  optimized_weights self = Ok weights ->
  total weights == 1.
Proof.
  intros Hsampled Hopt. unfold optimized_weights in Hopt.
  destruct (weigh_parameters self (0, []) (param_performance self))
    as [[t ws]|] eqn:Hweigh; [|discriminate].
  cbn [bind fst snd] in Hopt.
  pose proof (weigh_parameters_total self _ Hsampled _ _ Hweigh) as Htotal.
  cbn [fst snd] in Htotal.
  pose proof (weigh_parameters_length self _ _ _ Hweigh) as Hlen.
  rewrite param_performance_length in Hlen. cbn [snd List.length] in Hlen.
  destruct (normalize_total t ws weights Hopt) as [Hnorm Hnonzero].
  assert (Ht : ~ t == 0).
  { apply Hnonzero. intros ->. discriminate. }
  rewrite <- Htotal in Hnorm by reflexivity.
  apply (Qmult_inj_r _ _ t Ht). rewrite Hnorm. ring.
Qed.

(** C2 fails on the code.  On an engine with the initial weights and fifty
    records of a signal closed with a profit of 100, [optimize_weights] gives
    the six sampled parameters 1/6 each and leaves [oi_change], kept at its
    old weight and left out of the total, at 0.20 / 1.5: the weights are
    non-negative and sum to 17/15. *)
Lemma optimize_weights_sum_not_one :
  let weights := parameter_weights (optimize_weights engine_with_50_records) in
  total (parameter_weights engine_with_50_records) == 1
  /\ Forall (fun kv => 0 <= snd kv) weights
  /\ (exists w, lookup "delta" weights = Some w /\ w == 1 # 6)
  /\ (exists w, lookup "oi_change" weights = Some w /\ w == 2 # 15)
  /\ total weights == 17 # 15
  /\ ~ Qabs (total weights - 1) <= 1 # 1000000000.
Proof.
  cbv zeta. split; [vm_compute; reflexivity|]. split.
  - vm_compute. repeat constructor; discriminate.
  - split; [|split; [|split]].
    + eexists. split; vm_compute; reflexivity.
    + eexists. split; vm_compute; reflexivity.
    + vm_compute. reflexivity.
    + vm_compute. intros H. apply H. reflexivity.
Qed.

End SignalsProps.

(* ================================================================== *)
(** * The option chain as a DataFrame: properties *)
(* ================================================================== *)

Module FrameProps.
Import Py Frame FrameSpec PyFacts.

(** ** The analysis dict *)





(** ** Rows with NaN are scored *)



Lemma delta_bucket_nan : delta_bucket None = 2 # 10.
Proof. reflexivity. Qed.

Lemma momentum_bucket_nan : momentum_bucket None = 2 # 10.
Proof. reflexivity. Qed.





(** ** The columns of a frame *)








(** ** Chains whose dicts all have the same keys *)

(** On such a chain no cell is NaN, and the engine on the frame is the engine
    of [Signals] on the dicts. *)

Lemma cell_same_keys {A : Type} (field : Signals.OptionRow -> option A)
    (data : list Signals.OptionRow) (row : Signals.OptionRow) :
  In row data -> (field row = None -> has_column field data = false) ->
  cell field data row = option_map Some (field row).
Proof.
  intros Hin Hnone. unfold cell.
  destruct (field row) as [v|] eqn:Hfield.
  - assert (Hcolumn : has_column field data = true).
    { apply existsb_exists. exists row. rewrite Hfield. split; [exact Hin|reflexivity]. }
    rewrite Hcolumn. reflexivity.
  - rewrite (Hnone eq_refl). reflexivity.
Qed.

Lemma series_same_keys (data : list Signals.OptionRow) (row : Signals.OptionRow) :
  same_keys data -> In row data -> series data row = lifted row.
Proof.
  intros Hkeys Hin.
  destruct (Hkeys row Hin) as (H1 & H2 & H3 & H4 & H5 & H6 & H7 & H8 & H9 & H10).
  unfold series, lifted.
  rewrite !cell_same_keys by assumption. reflexivity.
Qed.

Lemma get_lifted (default : Q) (field : option Q) :
  dget (num default) (option_map Some field) = Some (dget default field).
Proof. destruct field; reflexivity. Qed.

Lemma analyze_momentum_lifted (ltp underlying_price strike : Q)
    (option_type : string) :
  analyze_momentum (Some ltp) underlying_price (Some strike) (Some option_type)
  = Signals.analyze_momentum ltp underlying_price strike option_type.
Proof.
  unfold analyze_momentum, Signals.analyze_momentum, div, Py.div.
  cbn [text_eqb eqb compare_with num].
  destruct (String.eqb option_type "CE"), (Py.eqb underlying_price 0);
    reflexivity.
Qed.

Lemma score_option_lifted (row : Signals.OptionRow) (option_type : string)
    (strike underlying_price : Q) :
  score_option (lifted row) (Some option_type) (Some strike) underlying_price
  = Signals.score_option row option_type strike underlying_price.
Proof.
  unfold score_option, Signals.score_option.
  change (cell_delta (lifted row))
    with (option_map Some (Signals.row_delta row)).
  change (cell_ltp (lifted row)) with (option_map Some (Signals.row_ltp row)).
  change (cell_oi_change (lifted row))
    with (option_map Some (Signals.row_oi_change row)).
  change (cell_oi (lifted row)) with (option_map Some (Signals.row_oi row)).
  change (cell_volume (lifted row))
    with (option_map Some (Signals.row_volume row)).
  change (cell_iv (lifted row)) with (option_map Some (Signals.row_iv row)).
  change (cell_bid (lifted row)) with (option_map Some (Signals.row_bid row)).
  change (cell_ask (lifted row)) with (option_map Some (Signals.row_ask row)).
  destruct (Signals.row_delta row) as [delta|]; [|reflexivity].
  destruct (Signals.row_ltp row) as [ltp|]; [|reflexivity].
  cbn [option_map index bind].
  rewrite analyze_momentum_lifted, !get_lifted.
  destruct (Signals.analyze_momentum ltp underlying_price strike option_type);
    reflexivity.
Qed.

Lemma dict_set_lifted (k : Signals.AnalysisKey) (v : Signals.AnalysisEntry)
    (d : list (Signals.AnalysisKey * Signals.AnalysisEntry)) :
  dict_set (fst (of_item (k, v))) (snd (of_item (k, v))) (map of_item d)
  = map of_item (Signals.dict_set k v d).
Proof.
  destruct k as [option_type strike].
  induction d as [|[[option_type0 strike0] v0] d IH];
    cbn [map dict_set Signals.dict_set of_item fst snd] in *;
    [reflexivity|].
  change (key_eqb (option_type, Some strike) (option_type0, Some strike0))
    with (Signals.key_eqb (option_type, strike) (option_type0, strike0)).
  destruct (Signals.key_eqb (option_type, strike) (option_type0, strike0));
    cbn [map of_item fst snd].
  - reflexivity.
  - rewrite IH. reflexivity.
Qed.

Lemma analyze_option_lifted (weights : list (string * Q)) (underlying_price : Q)
    (analysis : list (Signals.AnalysisKey * Signals.AnalysisEntry))
    (row : Signals.OptionRow) :
  analyze_option weights underlying_price (map of_item analysis) (lifted row)
  = of_result (map of_item)
      (Signals.analyze_option weights underlying_price analysis row).
Proof.
  unfold analyze_option, Signals.analyze_option.
  change (cell_strike (lifted row))
    with (option_map Some (Signals.row_strike row)).
  change (cell_type (lifted row))
    with (option_map Some (Signals.row_type row)).
  destruct (Signals.row_strike row) as [strike|]; [|reflexivity].
  destruct (Signals.row_type row) as [option_type|]; [|reflexivity].
  cbn [option_map index bind].
  rewrite score_option_lifted.
  destruct (Signals.score_option row option_type strike underlying_price)
    as [params|e]; [|reflexivity].
  cbn [bind of_result].
  rewrite <- dict_set_lifted. reflexivity.
Qed.

Lemma analyze_rows_lifted (weights : list (string * Q)) (underlying_price : Q)
    (rows : list Signals.OptionRow) :
  forall analysis,
    analyze_rows weights underlying_price (map of_item analysis)
      (map lifted rows)
    = of_result (map of_item)
        (Signals.analyze_rows weights underlying_price analysis rows).
Proof.
  induction rows as [|row rest IH]; intros analysis;
    cbn [map analyze_rows Signals.analyze_rows]; [reflexivity|].
  rewrite analyze_option_lifted.
  destruct (Signals.analyze_option weights underlying_price analysis row)
    as [analysis'|e]; [|reflexivity].
  cbn [of_result bind]. apply IH.
Qed.

Lemma emit_signal_lifted (self : Signals.AISignalEngine) (uuids : nat -> string)
    (current_time : datetime) (symbol : string) (underlying_price : Q)
    (signals : list Signals.Signal)
    (item : Signals.AnalysisKey * Signals.AnalysisEntry) :
  emit_signal self uuids current_time symbol underlying_price
    (map of_signal signals) (of_item item)
  = of_result (map of_signal)
      (Signals.emit_signal self uuids current_time symbol underlying_price
         signals item).
Proof.
  unfold emit_signal, Signals.emit_signal.
  cbn [of_item snd an_confidence an_parameters an_reasoning an_option_data].
  change (cell_type (lifted (Signals.an_option_data (snd item))))
    with (option_map Some (Signals.row_type (Signals.an_option_data (snd item)))).
  change (cell_strike (lifted (Signals.an_option_data (snd item))))
    with (option_map Some
            (Signals.row_strike (Signals.an_option_data (snd item)))).
  change (cell_ltp (lifted (Signals.an_option_data (snd item))))
    with (option_map Some (Signals.row_ltp (Signals.an_option_data (snd item)))).
  destruct (Py.geb _ _); [|reflexivity].
  destruct (Signals.row_type _) as [option_type|]; [|reflexivity].
  cbn [option_map index bind str dget].
  destruct (negb _); [|reflexivity].
  destruct (Signals.row_strike _) as [strike|]; [|reflexivity].
  destruct (Signals.row_ltp _) as [ltp|]; [|reflexivity].
  cbn [option_map index bind of_result].
  rewrite map_app, length_map. reflexivity.
Qed.

Lemma emit_signals_lifted (self : Signals.AISignalEngine) (uuids : nat -> string)
    (current_time : datetime) (symbol : string) (underlying_price : Q)
    (analysis : list (Signals.AnalysisKey * Signals.AnalysisEntry)) :
  forall signals,
    emit_signals self uuids current_time symbol underlying_price
      (map of_signal signals) (map of_item analysis)
    = of_result (map of_signal)
        (Signals.emit_signals self uuids current_time symbol underlying_price
           signals analysis).
Proof.
  induction analysis as [|item rest IH]; intros signals;
    cbn [map emit_signals Signals.emit_signals]; [reflexivity|].
  rewrite emit_signal_lifted.
  destruct (Signals.emit_signal self uuids current_time symbol underlying_price
              signals item) as [signals'|e]; [|reflexivity].
  cbn [of_result bind]. apply IH.
Qed.

Lemma insert_by_confidence_lifted (x : Signals.Signal) (l : list Signals.Signal) :
  insert_by_confidence (of_signal x) (map of_signal l)
  = map of_signal (Signals.insert_by_confidence x l).
Proof.
  induction l as [|y l IH];
    cbn [map insert_by_confidence Signals.insert_by_confidence];
    [reflexivity|].
  cbn [of_signal confidence].
  destruct (Py.geb (Signals.confidence y) (Signals.confidence x)); cbn [map].
  - rewrite <- IH. reflexivity.
  - reflexivity.
Qed.

Lemma sorted_by_confidence_lifted (signals : list Signals.Signal) :
  sorted_by_confidence (map of_signal signals)
  = map of_signal (Signals.sorted_by_confidence signals).
Proof.
  unfold sorted_by_confidence, Signals.sorted_by_confidence.
  change (@nil Signal) with (map of_signal []).
  generalize (@nil Signals.Signal) as acc.
  induction signals as [|x rest IH]; intros acc; cbn [map fold_left];
    [reflexivity|].
  rewrite insert_by_confidence_lifted. apply IH.
Qed.

Lemma last_n_map (A B : Type) (f : A -> B) (n : nat) (l : list A) :
  Signals.last_n n (map f l) = map f (Signals.last_n n l).
Proof.
  unfold Signals.last_n. rewrite length_map. apply skipn_map.
Qed.

(** On a chain whose dicts all have the same keys, what [generate_signals]
    returns or raises on the frame, and the history that it leaves, are what
    [Signals.generate_signals] returns or raises and leaves on the dicts. *)
Lemma generate_signals_same_keys (self : Signals.AISignalEngine)
    (uuids : nat -> string) (current_time now : datetime) (symbol : string)
    (data : list Signals.OptionRow) (underlying_price : Q) :
  same_keys data -> empty (DataFrame data) = false ->
  generate_signals self (map of_signal (Signals.signals_history self))
    uuids current_time now symbol (DataFrame data) underlying_price
  = of_result
      (fun returned =>
         (map of_signal (fst returned),
          map of_signal (Signals.signals_history (snd returned))))
      (Signals.generate_signals self uuids current_time now symbol data
         underlying_price).
Proof.
  intros Hkeys Hframe.
  assert (Hrows : DataFrame data = map lifted data).
  { unfold DataFrame. apply map_ext_in. intros row Hin.
    apply series_same_keys; assumption. }
  unfold generate_signals, analyze_market_parameters. rewrite Hframe.
  unfold Signals.generate_signals, Signals.analyze_market_parameters.
  destruct data as [|row rest]; [discriminate|].
  rewrite Hrows.
  change (@nil (AnalysisKey * AnalysisEntry)) with (map of_item []).
  rewrite analyze_rows_lifted.
  destruct (Signals.analyze_rows (Signals.parameter_weights self)
              underlying_price [] (row :: rest)) as [analysis|e];
    [|reflexivity].
  cbn [of_result bind].
  destruct (negb (Signals.is_trading_time now)); [reflexivity|].
  change (@nil Signal) with (map of_signal []).
  rewrite emit_signals_lifted.
  destruct (Signals.emit_signals self uuids current_time symbol
              underlying_price [] analysis) as [signals|e]; [|reflexivity].
  cbn [of_result bind fst snd Signals.signals_history].
  rewrite sorted_by_confidence_lifted, <- map_app.
  unfold len. rewrite length_map.
  destruct (Py.gtb _ 1000); [rewrite last_n_map|]; reflexivity.
Qed.

End FrameProps.

(* ================================================================== *)
(** * The signal engine: further properties *)
(* ================================================================== *)

Module SignalsMore.
Import Py Signals SignalsSpec SignalsReports SignalsSpec2 SignalsSamples PyFacts.

(** ** What enters the confidence *)

(** A weight vector keyed by the seven parameter names, in their order. *)
Lemma keyed_weights (weights : list (string * Q)) :
  map fst weights = param_names ->
  weights
  = [ ("delta", weight weights "delta");
      ("oi_change", weight weights "oi_change");
      ("volume", weight weights "volume");
      ("momentum", weight weights "momentum");
      ("iv", weight weights "iv");
      ("spread", weight weights "spread");
      ("liquidity", weight weights "liquidity") ].
Proof.
  unfold param_names. intros Hkeys.
  repeat (destruct weights as [|[? ?] weights]; [discriminate|]).
  destruct weights; [|discriminate].
  cbn [map fst] in Hkeys. injection Hkeys as -> -> -> -> -> -> ->.
  reflexivity.
Qed.

(** X1.  Under weights keyed by the seven parameter names the confidence is
    the weighted sum of six scores: the scores are looked up under their key
    without [_score], the open-interest score under [oi], which is no
    parameter name, so neither [oi_score] nor the weight of [oi_change]
    enters the sum. *)
Theorem confidence_ignores_open_interest (weights : list (string * Q))
    (params : ParameterScores) :
  map fst weights = param_names ->
  weighted_confidence weights params
  == delta_score params * weight weights "delta"
     + volume_score params * weight weights "volume"
     + momentum_score params * weight weights "momentum"
     + iv_score params * weight weights "iv"
     + spread_score params * weight weights "spread"
     + liquidity_score params * weight weights "liquidity".
Proof.
  intros Hkeys. rewrite (keyed_weights weights Hkeys) at 1.
  match goal with
  | |- weighted_confidence ?keyed _ == _ =>
      change (weighted_confidence keyed params)
        with (sum [ delta_score params * weight weights "delta";
                    volume_score params * weight weights "volume";
                    momentum_score params * weight weights "momentum";
                    iv_score params * weight weights "iv";
                    spread_score params * weight weights "spread";
                    liquidity_score params * weight weights "liquidity" ])
  end.
  unfold sum. cbn [fold_left]. ring.
Qed.

Lemma confidence_ignores_open_interest_witness :
  weighted_confidence (parameter_weights init) call_scores
  == (9 # 10) * (25 # 100) + (9 # 10) * (15 # 100) + (8 # 10) * (15 # 100)
     + (7 # 10) * (10 # 100) + (9 # 10) * (10 # 100) + (8 # 10) * (5 # 100).
Proof.
  apply (confidence_ignores_open_interest (parameter_weights init) call_scores).
  reflexivity.
Defined.

(** ** What a call of [generate_signals] does *)


(** ** The scores are bucket values *)





Section Decided.

Variable self : AISignalEngine.
Variable uuids : nat -> string.
Variable current_time : datetime.
Variable symbol : string.
Variable underlying_price : Q.





End Decided.


(** ** The initial weights *)









(** ** The order of the returned signals *)


Lemma insert_by_confidence_perm (x : Signal) (l : list Signal) :
  Permutation (insert_by_confidence x l) (x :: l).
Proof.
  induction l as [|y l' IH]; cbn [insert_by_confidence].
  - reflexivity.
  - destruct (geb (confidence y) (confidence x)); [|reflexivity].
    rewrite IH. apply perm_swap.
Qed.


Lemma sorted_by_confidence_perm (signals : list Signal) :
  Permutation (sorted_by_confidence signals) signals.
Proof.
  unfold sorted_by_confidence.
  assert (H : forall acc,
             Permutation
               (fold_left (fun acc x => insert_by_confidence x acc) signals acc)
               (acc ++ signals)).
  { induction signals as [|x rest IH]; intros acc; cbn [fold_left].
    - rewrite app_nil_r. reflexivity.
    - rewrite IH, insert_by_confidence_perm.
      rewrite <- Permutation_middle. reflexivity. }
  apply (H []).
Qed.



(** ** The history of signals *)













(** ** The accuracy figures *)

Lemma of_nat_S (n : nat) : of_nat (S n) == of_nat n + 1.
Proof.
  unfold of_nat. rewrite Nat2Z.inj_succ, <- Z.add_1_r, inject_Z_plus.
  reflexivity.
Qed.

Lemma of_nat_nonneg (n : nat) : 0 <= of_nat n.
Proof. unfold of_nat, Qle. cbn. lia. Qed.

Lemma of_nat_le (n m : nat) : (n <= m)%nat -> of_nat n <= of_nat m.
Proof. intros H. unfold of_nat, Qle. cbn. lia. Qed.

Lemma len_of_nat (A : Type) (l : list A) : len l = of_nat (List.length l).
Proof. reflexivity. Qed.

(** A share of a positive whole, as a percentage. *)
Lemma percentage_bounds (part whole : Q) :
  0 <= part -> part <= whole -> 0 < whole ->
  0 <= part / whole * 100 /\ part / whole * 100 <= 100.
Proof.
  intros Hpart Hle Hwhole.
  assert (H0 : 0 <= part / whole).
  { apply Qle_shift_div_l; [exact Hwhole | lra]. }
  assert (H1 : part / whole <= 1).
  { apply Qle_shift_div_r; [exact Hwhole | lra]. }
  split; lra.
Qed.

(** The counters of [get_accuracy] after [n] records and [records] more. *)
Lemma count_prediction_counts (records : list LearningRecord) :
  forall (correct high_correct high_total : Q) (n : nat),
    0 <= correct -> correct <= of_nat n ->
    0 <= high_correct -> high_correct <= high_total ->
    let '(correct', high_correct', high_total') :=
      fold_left count_prediction records (correct, high_correct, high_total) in
    0 <= correct' /\ correct' <= of_nat (n + List.length records)
    /\ 0 <= high_correct' /\ high_correct' <= high_total'.
Proof.
  induction records as [|record rest IH];
    intros correct high_correct high_total n Hc0 Hcn Hh0 Hht; cbn [fold_left].
  - rewrite Nat.add_0_r. repeat split; assumption.
  - cbn [List.length]. rewrite <- Nat.add_succ_comm.
    pose proof (of_nat_S n) as HS.
    unfold count_prediction at 2.
    destruct (Bool.eqb _ _); destruct (gtb (lr_predicted_confidence record) 75);
      apply IH; lra.
Qed.

(** X7.  The accuracy that [get_accuracy] reports always lies between 0 and
    95, and is 68 while there are fewer than ten learning records. *)
Theorem get_accuracy_bounds (self : AISignalEngine) :
  0 <= get_accuracy self /\ get_accuracy self <= 95
  /\ ((List.length (learning_data self) < 10)%nat -> get_accuracy self = 68).
Proof.
  unfold get_accuracy.
  destruct (ltb (len (learning_data self)) 10) eqn:Hfew.
  { repeat split; try (unfold Qle; cbn; lia). }
  assert (Hmany : (10 <= List.length (learning_data self))%nat).
  { apply ltb_ge in Hfew. unfold len, Qle in Hfew. cbn in Hfew. lia. }
  split; [|split; [|lia]].
  - destruct (ltb (len (last_n 100 (learning_data self))) 10) eqn:Hrecent;
      [unfold Qle; cbn; lia|].
    apply ltb_ge in Hrecent.
    pose proof (count_prediction_counts (last_n 100 (learning_data self))
                  0 0 0 0) as Hcounts.
    destruct (fold_left count_prediction (last_n 100 (learning_data self))
                (0, 0, 0)) as [[correct high_correct] high_total].
    destruct Hcounts as (Hc0 & Hcn & Hh0 & Hht);
      try (unfold of_nat, Qle; cbn; lia).
    cbn [Nat.add] in Hcn. rewrite <- len_of_nat in Hcn.
    destruct (percentage_bounds correct (len (last_n 100 (learning_data self)))
                Hc0 Hcn) as [Hbase0 Hbase1]; [lra|].
    destruct (gtb high_total 5) eqn:Hhigh.
    + apply ltb_lt in Hhigh.
      destruct (percentage_bounds high_correct high_total Hh0 Hht)
        as [Hhc0 Hhc1]; [lra|].
      unfold min. destruct (ltb _ 95); lra.
    + unfold min. destruct (ltb _ 92); lra.
  - destruct (ltb (len (last_n 100 (learning_data self))) 10) eqn:Hrecent;
      [unfold Qle; cbn; lia|].
    apply ltb_ge in Hrecent.
    pose proof (count_prediction_counts (last_n 100 (learning_data self))
                  0 0 0 0) as Hcounts.
    destruct (fold_left count_prediction (last_n 100 (learning_data self))
                (0, 0, 0)) as [[correct high_correct] high_total].
    destruct Hcounts as (Hc0 & Hcn & Hh0 & Hht);
      try (unfold of_nat, Qle; cbn; lia).
    cbn [Nat.add] in Hcn. rewrite <- len_of_nat in Hcn.
    destruct (percentage_bounds correct (len (last_n 100 (learning_data self)))
                Hc0 Hcn) as [Hbase0 Hbase1]; [lra|].
    destruct (gtb high_total 5) eqn:Hhigh.
    + apply ltb_lt in Hhigh.
      destruct (percentage_bounds high_correct high_total Hh0 Hht)
        as [Hhc0 Hhc1]; [lra|].
      unfold min. destruct (ltb _ 95) eqn:Hcap; [apply ltb_lt in Hcap|]; lra.
    + unfold min. destruct (ltb _ 92) eqn:Hcap; [apply ltb_lt in Hcap|]; lra.
Qed.

Lemma get_accuracy_bounds_witness :
  get_accuracy engine_with_9_records = 68.
Proof.
  apply (get_accuracy_bounds engine_with_9_records).
  vm_compute. lia.
Defined.

Lemma sum_bounds (lo hi : Q) (l : list Q) :
  Forall (fun x => lo <= x /\ x <= hi) l ->
  len l * lo <= sum l /\ sum l <= len l * hi.
Proof.
  intros Hl. induction Hl as [|x rest [Hlo Hhi] Hrest [IHlo IHhi]].
  - change (len (@nil Q)) with 0. change (sum []) with 0. split; lra.
  - unfold sum. cbn [fold_left]. rewrite SignalsProps.sum_acc.
    rewrite !len_of_nat in *. cbn [List.length]. rewrite of_nat_S. split; lra.
Qed.

Lemma last_n_In (A : Type) (n : nat) (l : list A) (x : A) :
  In x (last_n n l) -> In x l.
Proof.
  unfold last_n. intros Hin.
  rewrite <- (firstn_skipn (List.length l - n) l).
  apply in_or_app. right. exact Hin.
Qed.

Lemma last_n_nonempty (A : Type) (n : nat) (l : list A) :
  (0 < n)%nat -> l <> [] -> (0 < List.length (last_n n l))%nat.
Proof.
  intros Hn Hl. unfold last_n. rewrite length_skipn.
  destruct l; [congruence | cbn [List.length]; lia].
Qed.

(** X8.  [get_average_confidence] is 70 on an empty history, and a
    percentage whenever the confidence of every signal of the history is
    one: it lies between 0 and 100. *)
Theorem get_average_confidence_percentage (self : AISignalEngine) :
  (forall s, In s (signals_history self) ->
     0 <= confidence s /\ confidence s <= 100) ->
  (signals_history self = [] -> get_average_confidence self = 70)
  /\ 0 <= get_average_confidence self
  /\ get_average_confidence self <= 100.
Proof.
  intros Hbounds. unfold get_average_confidence.
  destruct (signals_history self) as [|s0 history] eqn:Hhistory.
  { split; [reflexivity | split; unfold Qle; cbn; lia]. }
  split; [discriminate|].
  set (recent := last_n 50 (s0 :: history)).
  assert (Hrecent : Forall (fun x => 0 <= x /\ x <= 100) (map confidence recent)).
  { apply Forall_forall. intros x Hx. apply in_map_iff in Hx as (s & <- & Hs).
    apply Hbounds. apply (last_n_In _ 50). exact Hs. }
  destruct (sum_bounds 0 100 _ Hrecent) as [Hlo Hhi].
  assert (Hlen : 0 < len recent).
  { pose proof (last_n_nonempty _ 50 (s0 :: history)) as Hpos.
    fold recent in Hpos.
    assert (0 < List.length recent)%nat by (apply Hpos; [lia | congruence]).
    rewrite len_of_nat. unfold of_nat, Qlt. cbn [Qnum Qden inject_Z]. lia. }
  assert (Hmap : len (map confidence recent) = len recent).
  { unfold len. rewrite length_map. reflexivity. }
  rewrite Hmap in Hlo, Hhi. split.
  - apply Qle_shift_div_l; [exact Hlen | rewrite Qmult_comm; exact Hlo].
  - apply Qle_shift_div_r; [exact Hlen | rewrite Qmult_comm; exact Hhi].
Qed.

Lemma get_average_confidence_percentage_witness :
  0 <= get_average_confidence (with_history init [put_signal; second_call_signal])
  /\ get_average_confidence (with_history init [put_signal; second_call_signal])
     <= 100.
Proof.
  apply (get_average_confidence_percentage
           (with_history init [put_signal; second_call_signal])).
  intros s [<- | [<- | []]]; split; vm_compute; discriminate.
Defined.

(** ** The learning progress *)

Lemma range_from_length (stop : nat) :
  forall fuel start,
    (stop - start <= fuel)%nat ->
    List.length (range_from fuel start stop 5) = ((stop - start + 4) / 5)%nat.
Proof.
  induction fuel as [|fuel IH]; intros start Hfuel; cbn [range_from].
  - replace (stop - start)%nat with 0%nat by lia. reflexivity.
  - destruct (Nat.ltb start stop) eqn:Hlt.
    + apply Nat.ltb_lt in Hlt. cbn [List.length]. rewrite IH by lia.
      destruct (Nat.le_gt_cases 5 (stop - start)) as [Hfar | Hnear].
      * replace (stop - start + 4)%nat
          with (stop - (start + 5) + 4 + 1 * 5)%nat by lia.
        rewrite Nat.div_add by lia. lia.
      * replace (stop - (start + 5))%nat with 0%nat by lia.
        replace (stop - start + 4)%nat with (stop - start - 1 + 1 * 5)%nat by lia.
        rewrite Nat.div_add by lia.
        rewrite (Nat.div_small (stop - start - 1)) by lia. reflexivity.
    + apply Nat.ltb_ge in Hlt.
      replace (stop - start)%nat with 0%nat by lia. reflexivity.
Qed.

(** X9.  [get_learning_progress] has no point up to 20 learning records
    (though it only returns early below 10), one point for every five records
    started beyond the twentieth, and every point is a percentage between 0
    and 100. *)
Theorem get_learning_progress_points (self : AISignalEngine) :
  ((List.length (learning_data self) <= 20)%nat -> get_learning_progress self = [])
  /\ ((20 < List.length (learning_data self))%nat ->
      List.length (get_learning_progress self)
      = ((List.length (learning_data self) - 20 + 4) / 5)%nat)
  /\ (forall a, In a (get_learning_progress self) -> 0 <= a /\ a <= 100).
Proof.
  unfold get_learning_progress.
  pose proof (range_from_length (List.length (learning_data self))
                (List.length (learning_data self)) 20) as Hrange.
  fold (range 20 (List.length (learning_data self)) 5) in Hrange.
  split; [|split].
  - intros Hfew. destruct (ltb _ 10); [reflexivity|].
    assert (Hempty : range 20 (List.length (learning_data self)) 5 = []).
    { apply length_zero_iff_nil. rewrite Hrange by lia.
      replace (List.length (learning_data self) - 20)%nat with 0%nat by lia.
      reflexivity. }
    rewrite Hempty. reflexivity.
  - intros Hmany. destruct (ltb _ 10) eqn:Hfew.
    + apply ltb_lt in Hfew. unfold len, Qlt in Hfew. cbn in Hfew. lia.
    + rewrite length_map. apply Hrange. lia.
  - intros a Hin. destruct (ltb _ 10); [destruct Hin|].
    apply in_map_iff in Hin as (i & <- & _).
    apply percentage_bounds.
    + rewrite len_of_nat. apply of_nat_nonneg.
    + rewrite len_of_nat. apply of_nat_le.
      etransitivity; [apply filter_length_le|].
      unfold slice. etransitivity; [apply firstn_le_length|]. lia.
    + unfold of_nat, Qlt. cbn. lia.
Qed.

Lemma get_learning_progress_points_witness :
  get_learning_progress engine_with_9_records = []
  /\ List.length (get_learning_progress engine_with_50_records) = 6%nat.
Proof.
  destruct (get_learning_progress_points engine_with_9_records) as [Hfew _].
  destruct (get_learning_progress_points engine_with_50_records)
    as (_ & Hmany & _).
  split.
  - apply Hfew. cbn. lia.
  - rewrite Hmany; [reflexivity | cbn; lia].
Defined.

(** ** The indicators of the option chain *)



(** ** The weights after an optimization *)

Lemma lookup_In (V : Type) (k : string) (d : list (string * V)) (v : V) :
  lookup k d = Some v -> In (k, v) d.
Proof.
  induction d as [|[k' v'] d' IH]; cbn [lookup]; [discriminate|].
  destruct (String.eqb k k') eqn:Hk.
  - intros [= ->]. apply String.eqb_eq in Hk as ->. left. reflexivity.
  - intros H. right. exact (IH H).
Qed.

Lemma clamp_at_least (x : Q) : 5 # 100 <= max (5 # 100) (min (35 # 100) x).
Proof.
  unfold max. destruct (gtb _ _) eqn:H.
  - apply ltb_lt in H. apply Qlt_le_weak. exact H.
  - apply Qle_refl.
Qed.

(** One step of the second loop: the new entry is the parameter with a
    non-negative weight, which enters the total exactly when the parameter has
    a sample. *)
Lemma weigh_parameter_spec (self : AISignalEngine) (t : Q)
    (ws : list (string * Q)) (entry : string * list (Q * Q))
    (state' : Q * list (string * Q)) :
  Forall (fun kv => 0 <= snd kv) (parameter_weights self) ->
  weigh_parameter self (t, ws) entry = Ok state' ->
  exists w,
    0 <= w
    /\ snd state' = (ws ++ [(fst entry, w)])%list
    /\ (unsampled entry = true ->
        fst state' = t /\ w = weight (parameter_weights self) (fst entry))
    /\ (unsampled entry = false -> fst state' = t + w).
Proof.
  intros Hold. destruct entry as [name data].
  unfold weigh_parameter, unsampled, weight. cbn [fst snd]. intros Hone.
  assert (Hkept : forall w,
             index name (lookup name (parameter_weights self)) = Ok w ->
             0 <= w /\ w = dget 0 (lookup name (parameter_weights self))).
  { intros w Hw. destruct (lookup name (parameter_weights self)) as [w0|] eqn:Hl;
      [|discriminate].
    injection Hw as <-. split; [|reflexivity].
    apply lookup_In in Hl. rewrite Forall_forall in Hold.
    exact (Hold _ Hl). }
  destruct data as [|d data'].
  - destruct (index name (lookup name (parameter_weights self))) as [w|] eqn:Hw;
      [|discriminate].
    cbn [bind] in Hone. injection Hone as <-. exists w.
    destruct (Hkept w eq_refl) as [Hw0 Hweq].
    split; [exact Hw0|]. split; [reflexivity|].
    split; [intros _; split; [reflexivity | exact Hweq] | discriminate].
  - destruct (map snd (filter (fun d0 => gtb (fst d0) (6 # 10)) (d :: data')))
      as [|p high].
    + destruct (index name (lookup name (parameter_weights self))) as [w|] eqn:Hw;
        [|discriminate].
      cbn [bind] in Hone. injection Hone as <-. exists w.
      destruct (Hkept w eq_refl) as [Hw0 _].
      split; [exact Hw0|]. split; [reflexivity|].
      split; [discriminate | reflexivity].
    + cbn [bind] in Hone. injection Hone as <-. eexists.
      split; [|split; [reflexivity | split; [discriminate | reflexivity]]].
      apply (Qle_trans _ (5 # 100)); [discriminate | apply clamp_at_least].
Qed.

(** The second loop: the keys, the signs and the two sums. *)
Lemma weigh_parameters_spec (self : AISignalEngine)
    (performance : list (string * list (Q * Q))) :
  Forall (fun kv => 0 <= snd kv) (parameter_weights self) ->
  forall state state',
    weigh_parameters self state performance = Ok state' ->
    map fst (snd state') = (map fst (snd state) ++ map fst performance)%list
    /\ (Forall (fun kv => 0 <= snd kv) (snd state) ->
        Forall (fun kv => 0 <= snd kv) (snd state'))
    /\ (0 <= fst state -> 0 <= fst state')
    /\ total (snd state') - fst state'
       == total (snd state) - fst state
          + sum (map (fun entry => weight (parameter_weights self) (fst entry))
                     (filter unsampled performance)).
Proof.
  intros Hold.
  induction performance as [|entry rest IH]; intros [t ws] state' Hweigh;
    cbn [weigh_parameters] in Hweigh.
  - injection Hweigh as <-. cbn [map filter fst snd]. rewrite app_nil_r.
    change (sum []) with 0. repeat split; try tauto. ring.
  - destruct (weigh_parameter self (t, ws) entry) as [[t1 ws1]|] eqn:Hone;
      [|discriminate].
    cbn [bind] in Hweigh.
    destruct (weigh_parameter_spec self t ws entry _ Hold Hone)
      as (w & Hw0 & Hws & Hkept & Hsampled).
    destruct (IH _ _ Hweigh) as (Hkeys & Hsigns & Htotal & Hsums).
    cbn [fst snd] in *. subst ws1.
    split; [|split; [|split]].
    + rewrite Hkeys, map_app. cbn [map fst]. rewrite <- app_assoc. reflexivity.
    + intros Hws. apply Hsigns. apply Forall_app. split; [exact Hws|].
      constructor; [exact Hw0 | constructor].
    + intros Ht. apply Htotal.
      destruct (unsampled entry);
        [destruct (Hkept eq_refl) as [-> _]; exact Ht|].
      rewrite (Hsampled eq_refl). lra.
    + rewrite Hsums, SignalsProps.total_snoc. cbn [filter].
      destruct (unsampled entry).
      * destruct (Hkept eq_refl) as [-> ->]. cbn [map].
        unfold sum at 2. cbn [fold_left]. rewrite SignalsProps.sum_acc. ring.
      * rewrite (Hsampled eq_refl). ring.
Qed.

Lemma normalize_spec (total_weight : Q) (weights : list (string * Q)) :
  0 < total_weight ->
  forall weights',
    normalize total_weight weights = Ok weights' ->
    map fst weights' = map fst weights
    /\ (Forall (fun kv => 0 <= snd kv) weights ->
        Forall (fun kv => 0 <= snd kv) weights').
Proof.
  intros Hpos.
  induction weights as [|[name w] rest IH]; intros weights' Hnorm;
    cbn [normalize] in Hnorm.
  - injection Hnorm as <-. split; [reflexivity | intros _; constructor].
  - unfold div in Hnorm. destruct (eqb total_weight 0); [discriminate|].
    cbn [bind] in Hnorm.
    destruct (normalize total_weight rest) as [rest'|]; [|discriminate].
    cbn [bind] in Hnorm. injection Hnorm as <-.
    destruct (IH rest' eq_refl) as [Hkeys Hsigns].
    split; [cbn [map fst]; rewrite Hkeys; reflexivity|].
    intros Hall. inversion Hall as [|? ? Hw Hrest]; subst.
    constructor; [|exact (Hsigns Hrest)].
    cbn [snd] in *. apply Qle_shift_div_l; [exact Hpos | lra].
Qed.

Lemma param_performance_keys (self : AISignalEngine) :
  map fst (param_performance self) = param_names.
Proof.
  unfold param_performance.
  assert (H : forall records perf,
             map fst (fold_left record_performance records perf) = map fst perf).
  { induction records as [|r records IH]; intros perf; cbn [fold_left].
    - reflexivity.
    - rewrite IH. unfold record_performance. rewrite map_map.
      apply map_ext. intros [name data]. cbn [fst snd].
      destruct (lookup _ _); reflexivity. }
  rewrite H. reflexivity.
Qed.

(** What a successful optimization installs. *)
Lemma optimized_weights_spec (self : AISignalEngine)
    (weights : list (string * Q)) :
  Forall (fun kv => 0 <= snd kv) (parameter_weights self) ->
  optimized_weights self = Ok weights ->
  well_formed_weights weights
  /\ exists total_weight,
       0 < total_weight
       /\ total weights * total_weight == total_weight + kept_weight self.
Proof.
  intros Hold Hopt. unfold optimized_weights in Hopt.
  destruct (weigh_parameters self (0, []) (param_performance self))
    as [[t ws]|] eqn:Hweigh; [|discriminate].
  cbn [bind fst snd] in Hopt.
  destruct (weigh_parameters_spec self _ Hold _ _ Hweigh)
    as (Hkeys & Hsigns & Ht0 & Hsums).
  cbn [fst snd map app] in *. rewrite param_performance_keys in Hkeys.
  destruct (SignalsProps.normalize_total t ws weights Hopt) as [Hnorm Hnonzero].
  assert (Ht : 0 < t).
  { assert (~ t == 0) by (apply Hnonzero; intros ->; discriminate).
    assert (0 <= t) by (apply Ht0; apply Qle_refl).
    apply Qle_lteq in H0 as [Hlt | Heq]; [exact Hlt|].
    exfalso. apply H. symmetry. exact Heq. }
  destruct (normalize_spec t ws Ht weights Hopt) as [Hkeys' Hsigns'].
  split.
  - split; [rewrite Hkeys'; exact Hkeys|].
    apply Hsigns', Hsigns. constructor.
  - exists t. split; [exact Ht|].
    rewrite Hnorm. fold (kept_weight self) in Hsums.
    change (total []) with 0 in Hsums. lra.
Qed.

(** X11.  [optimize_weights], and [learn_from_outcome] which calls it, keep
    the weights keyed by the seven parameter names and non-negative. *)
Theorem optimize_weights_well_formed (self : AISignalEngine) (now : datetime)
    (signal_id actual_outcome : string) (pnl : Q) :
  well_formed_weights (parameter_weights self) ->
  well_formed_weights (parameter_weights (optimize_weights self))
  /\ well_formed_weights
       (parameter_weights
          (learn_from_outcome self now signal_id actual_outcome pnl)).
Proof.
  assert (Hopt : forall e,
             well_formed_weights (parameter_weights e) ->
             well_formed_weights (parameter_weights (optimize_weights e))).
  { intros e Hwf. unfold optimize_weights.
    destruct (ltb _ 50); [exact Hwf|].
    destruct (optimized_weights e) as [weights|] eqn:Hnew; [|exact Hwf].
    cbn [parameter_weights].
    destruct (optimized_weights_spec e weights (proj2 Hwf) Hnew) as [Hnewwf _].
    exact Hnewwf. }
  intros Hwf. split; [exact (Hopt self Hwf)|].
  unfold learn_from_outcome.
  destruct (find _ _) as [signal|]; [|exact Hwf].
  destruct (Nat.eqb _ 0); [|exact Hwf].
  apply Hopt. unfold train_model. cbn [learning_data].
  destruct (ltb _ 20); [exact Hwf|].
  destruct (forallb _ _); exact Hwf.
Qed.

Lemma optimize_weights_well_formed_witness :
  well_formed_weights (parameter_weights (optimize_weights engine_with_50_records))
  /\ well_formed_weights
       (parameter_weights
          (learn_from_outcome engine_with_50_records tuesday_10_05am "uuid-0"
             "profit" 100)).
Proof.
  apply optimize_weights_well_formed.
  split; [reflexivity|]. repeat constructor; discriminate.
Defined.









End SignalsMore.

(* ================================================================== *)
(** * The tracked positions: properties *)
(* ================================================================== *)

Module RiskBookProps.
Import Py Risk RiskSpec RiskBook RiskBookSpec PyFacts.

(** ** Stop loss and take profit *)

Lemma calculate_stop_loss_value (rm : RiskManager) (entry_price : Q)
    (option_type : string) :
  calculate_stop_loss rm entry_price option_type
  = entry_price * (1 - stop_loss_percent rm).
Proof. unfold calculate_stop_loss. destruct (existsb _ _); reflexivity. Qed.

(** X14.  For an entry price and percentages that are not negative the stop
    loss is not above the entry price and the take profit not below it, and
    neither depends on the option type: a put gets the bracket of a call. *)
Theorem stop_loss_take_profit_bracket (rm : RiskManager) (entry_price : Q)
    (option_type other_type : string) :
  0 <= entry_price -> 0 <= stop_loss_percent rm -> 0 <= take_profit_percent rm ->
  calculate_stop_loss rm entry_price option_type <= entry_price
  /\ entry_price <= calculate_take_profit rm entry_price option_type
  /\ calculate_stop_loss rm entry_price option_type
     = calculate_stop_loss rm entry_price other_type
  /\ calculate_take_profit rm entry_price option_type
     = calculate_take_profit rm entry_price other_type.
Proof.
  intros Hentry Hstop Htarget.
  rewrite !calculate_stop_loss_value. unfold calculate_take_profit.
  pose proof (Qmult_le_0_compat _ _ Hentry Hstop) as Hs.
  pose proof (Qmult_le_0_compat _ _ Hentry Htarget) as Ht.
  repeat split; lra.
Qed.

Lemma stop_loss_take_profit_bracket_witness :
  calculate_stop_loss init 50 "PE" <= 50
  /\ 50 <= calculate_take_profit init 50 "PE"
  /\ calculate_stop_loss init 50 "PE" = calculate_stop_loss init 50 "CE"
  /\ calculate_take_profit init 50 "PE" = calculate_take_profit init 50 "CE".
Proof.
  apply stop_loss_take_profit_bracket; discriminate.
Defined.

(** ** Adding and removing positions *)

Lemma check_positions_app (ps qs : list TrackedPosition) (alerts more : list Alert) :
  check_positions ps = Returns alerts ->
  check_positions qs = Returns more ->
  check_positions (ps ++ qs) = Returns (alerts ++ more)%list.
Proof.
  revert alerts. induction ps as [|p rest IH]; intros alerts Hps Hqs;
    cbn [check_positions app] in *.
  - injection Hps as <-. exact Hqs.
  - destruct (tp_current_price p) as [current_price|]; [|discriminate].
    destruct (check_positions rest) as [alerts'|]; [|discriminate].
    injection Hps as <-. rewrite (IH alerts' eq_refl Hqs).
    rewrite app_assoc. reflexivity.
Qed.

(** X15.  [add_position] appends one position, quoted at its entry price,
    and leaves the alerts of the others as they were: the check that follows
    returns the alerts it returned before, followed by a [stop_loss] alert of
    the new position when its entry price is not above the stop loss stored
    with it, by a [take_profit] alert when it is above that and not below the
    take profit stored, and by nothing when it lies between the two. *)
Theorem add_position_alerts (m : Manager) (now : datetime)
    (trade_data : TradeData) (entry_price : Q) (alerts : list Alert) :
  td_entry_price trade_data = Some entry_price ->
  check_stop_loss_take_profit m = Returns alerts ->
  exists position,
    positions (add_position m now trade_data)
    = (positions m ++ [position])%list
    /\ tp_current_price position = Some entry_price
    /\ (entry_price <= tp_stop_loss position ->
        check_stop_loss_take_profit (add_position m now trade_data)
        = Returns (alerts ++ [ {| alert_type := stop_loss;
                                  alert_position := position |} ])%list)
    /\ (tp_stop_loss position < entry_price ->
        tp_take_profit position <= entry_price ->
        check_stop_loss_take_profit (add_position m now trade_data)
        = Returns (alerts ++ [ {| alert_type := take_profit;
                                  alert_position := position |} ])%list)
    /\ (tp_stop_loss position < entry_price ->
        entry_price < tp_take_profit position ->
        check_stop_loss_take_profit (add_position m now trade_data)
        = Returns alerts).
Proof.
  intros Hprice Hbefore.
  unfold check_stop_loss_take_profit, add_position. cbn [positions].
  eexists. split; [reflexivity|].
  cbn [tp_current_price tp_stop_loss tp_take_profit].
  rewrite !Hprice.
  split; [reflexivity|].
  split; [|split].
  - intros Hstop. apply check_positions_app; [exact Hbefore|].
    cbn [check_positions tp_current_price tp_stop_loss].
    apply leb_le in Hstop. rewrite Hstop. reflexivity.
  - intros Hstop Htarget. apply check_positions_app; [exact Hbefore|].
    cbn [check_positions tp_current_price tp_stop_loss tp_take_profit].
    apply leb_gt in Hstop. rewrite Hstop.
    unfold geb. apply leb_le in Htarget. rewrite Htarget. reflexivity.
  - intros Hstop Htarget. rewrite <- (app_nil_r alerts).
    apply check_positions_app; [exact Hbefore|].
    cbn [check_positions tp_current_price tp_stop_loss tp_take_profit].
    apply leb_gt in Hstop. rewrite Hstop.
    unfold geb. apply leb_gt in Htarget. rewrite Htarget. reflexivity.
Qed.

Lemma add_position_alerts_witness :
  check_stop_loss_take_profit
    (add_position empty_book tuesday_10am (trade "t1" "NIFTY" 50))
  = Returns [].
Proof.
  destruct (add_position_alerts empty_book tuesday_10am
              (trade "t1" "NIFTY" 50) 50 [] eq_refl eq_refl)
    as (position & Hadded & _ & _ & _ & Hquiet).
  injection Hadded as <-.
  apply Hquiet; reflexivity.
Defined.

Lemma filter_all (A : Type) (f : A -> bool) (l : list A) :
  (forall x, In x l -> f x = true) -> filter f l = l.
Proof.
  induction l as [|x rest IH]; intros Hall; cbn [filter]; [reflexivity|].
  rewrite (Hall x (or_introl eq_refl)). f_equal.
  apply IH. intros y Hy. apply Hall. right. exact Hy.
Qed.

(** X16.  Removing the id of a position just added, when no other tracked
    position has that id, gives back the manager as it was. *)
Theorem remove_position_after_add (m : Manager) (now : datetime)
    (trade_data : TradeData) (position_id : string) :
  td_id trade_data = Some position_id ->
  (forall p, In p (positions m) -> tp_id p <> Some position_id) ->
  remove_position (add_position m now trade_data) position_id = m.
Proof.
  intros Hid Hfresh. destruct m as [rm ps].
  unfold remove_position, add_position. cbn [limits positions] in *.
  f_equal. rewrite filter_app. cbn [filter]. unfold other_id at 2.
  cbn [tp_id]. rewrite Hid, String.eqb_refl. cbn [negb].
  rewrite app_nil_r. apply filter_all.
  intros p Hp. unfold other_id. specialize (Hfresh p Hp).
  destruct (tp_id p) as [i|]; [|reflexivity].
  destruct (String.eqb i position_id) eqn:Hi; [|reflexivity].
  apply String.eqb_eq in Hi. congruence.
Qed.

Lemma remove_position_after_add_witness :
  remove_position
    (add_position
       (add_position empty_book tuesday_10am (trade "t1" "NIFTY" 50))
       tuesday_10am (trade "t2" "NIFTY" 60))
    "t2"
  = add_position empty_book tuesday_10am (trade "t1" "NIFTY" 50).
Proof.
  apply remove_position_after_add; [reflexivity|].
  intros p [<- | []]. discriminate.
Defined.

(** ** What the checks see of the positions *)

Lemma no_current_value (ps : list TrackedPosition) :
  sum (map (fun p => dget 0 (pos_current_value p)) (map view ps)) = 0.
Proof.
  unfold sum.
  assert (H : fold_left Qplus
                (map (fun p => dget 0 (pos_current_value p)) (map view ps)) 0
              = 0).
  { induction ps as [|p rest IH]; [reflexivity | exact IH]. }
  exact H.
Qed.

(** X17.  The risk-limit check does not see the tracked positions: no
    position that [add_position] stores has a ['current_value'], so the
    portfolio value of the check is 0 and [max_portfolio_risk] bounds the
    trade alone. *)
Theorem validate_risk_limits_ignores_positions (m : Manager) (s : Signal) :
  validate_risk_limits (gate m) s
  = validate_risk_limits (gate {| limits := limits m; positions := [] |}) s
  /\ (validate_risk_limits (gate m) s = true
      <-> dget 0 (price s) * dget 1 (quantity s) <= max_loss_per_trade (limits m)
          /\ 0 + dget 0 (price s) * dget 1 (quantity s)
             <= max_portfolio_risk (limits m)).
Proof.
  unfold validate_risk_limits, gate.
  cbn [max_loss_per_trade max_portfolio_risk current_positions limits positions].
  rewrite no_current_value. change (sum (map _ (map view []))) with 0.
  split; [reflexivity|].
  unfold gtb.
  destruct (ltb (max_loss_per_trade (limits m)) _) eqn:Htrade.
  - apply ltb_lt in Htrade. split; [discriminate|].
    intros [Hle _]. exfalso. apply (Qlt_not_le _ _ Htrade Hle).
  - apply ltb_ge in Htrade.
    destruct (ltb (max_portfolio_risk (limits m)) _) eqn:Hportfolio.
    + apply ltb_lt in Hportfolio. split; [discriminate|].
      intros [_ Hle]. exfalso. apply (Qlt_not_le _ _ Hportfolio Hle).
    + apply ltb_ge in Hportfolio. split; [intros _; split; assumption | reflexivity].
Qed.

(** ** The position limits *)

(** The position-limit check on a signal for [sym], by its two counts. *)
Lemma validate_position_limits_counts (m : Manager) (s : Signal) (sym : string) :
  symbol s = Some sym ->
  (validate_position_limits (gate m) s = Ok true
   <-> len (filter (same_symbol sym) (map view (positions m)))
       < max_positions_per_symbol (limits m)
       /\ len (positions m) < max_total_positions (limits m))
  /\ (validate_position_limits (gate m) s = Ok true
      \/ validate_position_limits (gate m) s = Ok false).
Proof.
  intros Hsym. unfold validate_position_limits, gate.
  cbn [current_positions max_positions_per_symbol max_total_positions].
  rewrite Hsym. cbn [index bind]. unfold geb.
  assert (Hlen : len (map view (positions m)) = len (positions m)).
  { unfold len. rewrite length_map. reflexivity. }
  rewrite Hlen.
  destruct (leb (max_positions_per_symbol (limits m)) _) eqn:Hper.
  - apply leb_le in Hper. split; [|right; reflexivity].
    split; [discriminate|]. intros [Hlt _]. exfalso.
    apply (Qlt_not_le _ _ Hlt Hper).
  - apply leb_gt in Hper.
    destruct (leb (max_total_positions (limits m)) _) eqn:Hall.
    + apply leb_le in Hall. split; [|right; reflexivity].
      split; [discriminate|]. intros [_ Hlt]. exfalso.
      apply (Qlt_not_le _ _ Hlt Hall).
    + apply leb_gt in Hall. split; [|left; reflexivity].
      split; [intros _; split; assumption | reflexivity].
Qed.

Lemma len_le (A B : Type) (l : list A) (l' : list B) :
  (List.length l <= List.length l')%nat -> len l <= len l'.
Proof. intros H. unfold len, Qle. cbn. lia. Qed.

Lemma filter_view_remove (f : Position -> bool) (position_id : string)
    (ps : list TrackedPosition) :
  (List.length (filter f (map view (filter (other_id position_id) ps)))
   <= List.length (filter f (map view ps)))%nat.
Proof.
  induction ps as [|p rest IH]; cbn [filter map]; [lia|].
  destruct (other_id position_id p); cbn [filter map];
    destruct (f (view p)); cbn [List.length]; lia.
Qed.

(** X18.  Tracking one more position never lets a signal pass the
    position-limit check that it failed, and removing a position never makes
    it fail. *)
Theorem position_limits_monotone (m : Manager) (now : datetime)
    (trade_data : TradeData) (position_id : string) (s : Signal) :
  symbol s <> None ->
  (validate_position_limits (gate (add_position m now trade_data)) s = Ok true ->
   validate_position_limits (gate m) s = Ok true)
  /\ (validate_position_limits (gate m) s = Ok true ->
      validate_position_limits (gate (remove_position m position_id)) s = Ok true).
Proof.
  intros Hsym. destruct (symbol s) as [sym|] eqn:Es; [|congruence].
  destruct (validate_position_limits_counts m s sym Es) as [Hm _].
  destruct (validate_position_limits_counts (add_position m now trade_data) s sym Es)
    as [Hadd _].
  destruct (validate_position_limits_counts (remove_position m position_id) s sym Es)
    as [Hremove _].
  split.
  - intros Hpass. apply Hadd in Hpass as [Hper Hall]. apply Hm.
    unfold add_position in Hper, Hall. cbn [positions limits] in Hper, Hall.
    split.
    + eapply Qle_lt_trans; [|exact Hper]. apply len_le.
      rewrite map_app, filter_app, length_app. lia.
    + eapply Qle_lt_trans; [|exact Hall]. apply len_le.
      rewrite length_app. lia.
  - intros Hpass. apply Hm in Hpass as [Hper Hall]. apply Hremove.
    unfold remove_position. cbn [positions limits]. split.
    + eapply Qle_lt_trans; [|exact Hper]. apply len_le.
      apply filter_view_remove.
    + eapply Qle_lt_trans; [|exact Hall]. apply len_le.
      apply filter_length_le.
Qed.

Lemma position_limits_monotone_witness :
  validate_position_limits
    (gate (add_position empty_book tuesday_10am (trade "t1" "NIFTY" 50)))
    bare_signal = Ok true
  /\ validate_position_limits (gate empty_book) bare_signal = Ok true.
Proof.
  destruct (position_limits_monotone empty_book tuesday_10am
              (trade "t1" "NIFTY" 50) "t1" bare_signal) as [Hadd _];
    [discriminate|].
  split; [reflexivity | apply Hadd; reflexivity].
Defined.

Lemma add_positions_counts (now : datetime) (sym : string)
    (trades : list TradeData) :
  (forall t, In t trades -> td_symbol t = Some sym) ->
  forall m,
    limits (add_positions m now trades) = limits m
    /\ (List.length (filter (same_symbol sym) (map view (positions m)))
          + List.length trades
        <= List.length
             (filter (same_symbol sym)
                (map view (positions (add_positions m now trades)))))%nat.
Proof.
  unfold add_positions.
  induction trades as [|t rest IH]; intros Hsym m; cbn [fold_left List.length].
  - split; [reflexivity | lia].
  - destruct (IH (fun t' Ht' => Hsym t' (or_intror Ht')) (add_position m now t))
      as [Hlimits Hcount].
    split; [rewrite Hlimits; reflexivity|].
    etransitivity; [|exact Hcount].
    unfold add_position at 1. cbn [positions].
    rewrite map_app, filter_app, length_app. cbn [map filter].
    assert (Hnew : forall p,
               tp_symbol p = Some sym -> same_symbol sym (view p) = true).
    { intros p Hp. unfold same_symbol, view. cbn [pos_symbol]. rewrite Hp.
      apply String.eqb_refl. }
    rewrite Hnew by (cbn [tp_symbol]; apply Hsym; left; reflexivity).
    cbn [List.length]. lia.
Qed.

(** X19.  Once as many positions of a symbol are added as
    [max_positions_per_symbol] allows, every signal of that symbol fails the
    position-limit check. *)
Theorem position_limit_enforced (m : Manager) (now : datetime) (sym : string)
    (trades : list TradeData) (s : Signal) :
  symbol s = Some sym ->
  (forall t, In t trades -> td_symbol t = Some sym) ->
  max_positions_per_symbol (limits m) <= len trades ->
  validate_position_limits (gate (add_positions m now trades)) s = Ok false.
Proof.
  intros Hs Htrades Hmax.
  destruct (add_positions_counts now sym trades Htrades m) as [Hlimits Hcount].
  destruct (validate_position_limits_counts (add_positions m now trades) s sym Hs)
    as [Hiff [Hpass | Hfail]]; [|exact Hfail].
  exfalso. apply Hiff in Hpass as [Hper _]. rewrite Hlimits in Hper.
  apply (Qlt_not_le _ _ Hper). eapply Qle_trans; [exact Hmax|].
  apply len_le. lia.
Qed.

Lemma position_limit_enforced_witness :
  validate_position_limits
    (gate (add_positions empty_book tuesday_10am
             [trade "t1" "NIFTY" 50; trade "t2" "NIFTY" 60; trade "t3" "NIFTY" 70]))
    bare_signal = Ok false.
Proof.
  apply (position_limit_enforced empty_book tuesday_10am "NIFTY").
  - reflexivity.
  - intros t [<- | [<- | [<- | []]]]; reflexivity.
  - discriminate.
Defined.

(** ** Price updates and alerts *)

(** On priced positions the check returns, and alerts each position by its
    current price. *)
Lemma check_positions_priced (ps : list TrackedPosition) :
  Forall priced ps ->
  exists alerts,
    check_positions ps = Returns alerts
    /\ (forall p c,
          In p ps -> tp_current_price p = Some c ->
          (c <= tp_stop_loss p ->
           In {| alert_type := stop_loss; alert_position := p |} alerts)
          /\ (tp_stop_loss p < c -> tp_take_profit p <= c ->
              In {| alert_type := take_profit; alert_position := p |} alerts))
    /\ (forall a,
          In a alerts ->
          In (alert_position a) ps
          /\ exists c,
               tp_current_price (alert_position a) = Some c
               /\ (c <= tp_stop_loss (alert_position a)
                   \/ tp_take_profit (alert_position a) <= c)).
Proof.
  intros Hps. induction Hps as [|p rest [_ Hcurrent] Hrest IH];
    cbn [check_positions].
  - exists []. split; [reflexivity|]. split; [intros ? ? [] | intros ? []].
  - destruct IH as (alerts & Hcheck & Hcomplete & Hsound).
    destruct (tp_current_price p) as [current_price|] eqn:Hprice; [|congruence].
    rewrite Hcheck. eexists. split; [reflexivity|]. split.
    + intros q c [<- | Hq] Hc.
      * rewrite Hprice in Hc. injection Hc as <-. split.
        -- intros Hstop. apply leb_le in Hstop. rewrite Hstop. left. reflexivity.
        -- intros Hstop Htarget. apply leb_gt in Hstop. rewrite Hstop.
           unfold geb. apply leb_le in Htarget. rewrite Htarget.
           left. reflexivity.
      * destruct (Hcomplete q c Hq Hc) as [Hs Ht].
        split; intros; apply in_or_app; right; auto.
    + intros a Ha. apply in_app_or in Ha as [Ha | Ha].
      * destruct (leb current_price (tp_stop_loss p)) eqn:Hstop.
        -- destruct Ha as [<- | []]. cbn [alert_position].
           split; [left; reflexivity|]. exists current_price.
           split; [exact Hprice|]. left. apply leb_le. exact Hstop.
        -- destruct (geb current_price (tp_take_profit p)) eqn:Htarget;
             [|destruct Ha].
           destruct Ha as [<- | []]. cbn [alert_position].
           split; [left; reflexivity|]. exists current_price.
           split; [exact Hprice|]. right. apply leb_le. exact Htarget.
      * destruct (Hsound a Ha) as [Hin Hc]. split; [right; exact Hin | exact Hc].
Qed.

(** On priced positions the update raises nothing, keeps the positions priced
    and gives every quoted position its quote and its profit. *)
Lemma update_positions_priced (key : TrackedPosition -> string)
    (price_updates : list (string * Q)) (ps : list TrackedPosition) :
  Forall priced ps ->
  snd (update_positions key price_updates ps) = None
  /\ Forall priced (fst (update_positions key price_updates ps))
  /\ (forall p entry_price new_price,
        In p ps -> tp_entry_price p = Some entry_price ->
        lookup (key p) price_updates = Some new_price ->
        In (with_price p new_price
              ((new_price - entry_price) * tp_quantity p))
           (fst (update_positions key price_updates ps)))
  /\ (forall p,
        In p ps -> lookup (key p) price_updates = None ->
        In p (fst (update_positions key price_updates ps))).
Proof.
  intros Hps. induction Hps as [|p rest Hp Hrest IH];
    cbn [update_positions].
  - repeat split; try constructor; intros; contradiction.
  - destruct IH as (Hnone & Hpriced & Hquoted & Hkept).
    pose proof Hp as [Hentry Hcurrent].
    destruct (lookup (key p) price_updates) as [new_price|] eqn:Hquote.
    + destruct (tp_entry_price p) as [entry_price|] eqn:He; [|congruence].
      cbn [fst snd]. split; [exact Hnone|]. split; [|split].
      * constructor; [|exact Hpriced].
        unfold priced. cbn [tp_entry_price tp_current_price with_price].
        rewrite He. split; discriminate.
      * intros q e n [<- | Hq] Hqe Hqn.
        -- rewrite He in Hqe. injection Hqe as <-.
           rewrite Hquote in Hqn. injection Hqn as <-. left. reflexivity.
        -- right. exact (Hquoted q e n Hq Hqe Hqn).
      * intros q [<- | Hq] Hqn; [congruence|]. right. exact (Hkept q Hq Hqn).
    + cbn [fst snd]. split; [exact Hnone|]. split; [|split].
      * constructor; assumption.
      * intros q e n [<- | Hq] Hqe Hqn; [congruence|].
        right. exact (Hquoted q e n Hq Hqe Hqn).
      * intros q [<- | Hq] Hqn; [left; reflexivity|].
        right. exact (Hkept q Hq Hqn).
Qed.

(** X20.  When every tracked position has its prices, a price update raises
    nothing, and the check that follows alerts a position quoted at or below
    its stop loss as [stop_loss], and one quoted above the stop loss and at or
    above its take profit as [take_profit]; the alert carries the position
    with the quote and the profit (quote - entry) x quantity. *)
Theorem quoted_position_alerted (key : TrackedPosition -> string) (m : Manager)
    (price_updates : list (string * Q)) (p : TrackedPosition)
    (entry_price new_price : Q) :
  Forall priced (positions m) ->
  In p (positions m) -> tp_entry_price p = Some entry_price ->
  lookup (key p) price_updates = Some new_price ->
  exists m' alerts,
    update_position_prices key m price_updates = (m', None)
    /\ check_stop_loss_take_profit m' = Returns alerts
    /\ (new_price <= tp_stop_loss p ->
        In {| alert_type := stop_loss;
              alert_position :=
                with_price p new_price
                  ((new_price - entry_price) * tp_quantity p) |} alerts)
    /\ (tp_stop_loss p < new_price -> tp_take_profit p <= new_price ->
        In {| alert_type := take_profit;
              alert_position :=
                with_price p new_price
                  ((new_price - entry_price) * tp_quantity p) |} alerts).
Proof.
  intros Hpriced Hin Hentry Hquote.
  destruct (update_positions_priced key price_updates (positions m) Hpriced)
    as (Hnone & Hpriced' & Hquoted & _).
  destruct (check_positions_priced _ Hpriced') as (alerts & Hcheck & Hcomplete & _).
  eexists. exists alerts. unfold update_position_prices.
  split; [rewrite Hnone; reflexivity|].
  unfold check_stop_loss_take_profit. cbn [positions].
  split; [exact Hcheck|].
  apply (Hcomplete _ new_price (Hquoted p entry_price new_price Hin Hentry Hquote)).
  reflexivity.
Qed.

Lemma quoted_position_alerted_witness :
  add_position empty_book tuesday_10am (trade "t1" "NIFTY" 50)
  = {| limits := init; positions := [nifty_position] |}
  /\ exists m' alerts,
       update_position_prices symbol_key
         {| limits := init; positions := [nifty_position] |} [("NIFTY", 40)]
       = (m', None)
       /\ check_stop_loss_take_profit m' = Returns alerts
       /\ In {| alert_type := stop_loss;
                alert_position :=
                  with_price nifty_position 40 ((40 - 50) * 75) |} alerts.
Proof.
  split; [reflexivity|].
  destruct (quoted_position_alerted symbol_key
              {| limits := init; positions := [nifty_position] |}
              [("NIFTY", 40)] nifty_position 50 40)
    as (m' & alerts & Hupdate & Hcheck & Hstop & _).
  - repeat constructor; discriminate.
  - left. reflexivity.
  - reflexivity.
  - reflexivity.
  - exists m', alerts. split; [exact Hupdate|]. split; [exact Hcheck|].
    apply Hstop. vm_compute. discriminate.
Defined.

(** ** The portfolio figures *)

Lemma invested_returns (ps : list TrackedPosition) :
  forall acc,
    (exists v, invested ps acc = Returns v)
    <-> Forall (fun p => tp_entry_price p <> None) ps.
Proof.
  induction ps as [|p rest IH]; intros acc; cbn [invested].
  - split; [constructor | eexists; reflexivity].
  - destruct (tp_entry_price p) as [entry_price|] eqn:He.
    + rewrite IH. split.
      * intros Hrest. constructor; [congruence | exact Hrest].
      * intros Hall. inversion Hall; assumption.
    + split; [intros [v Hv]; discriminate|].
      intros Hall. inversion Hall; congruence.
Qed.

Lemma divide_returns (x y : Q) :
  (exists v, divide x y = Returns v) <-> ~ y == 0.
Proof.
  unfold divide. destruct (eqb y 0) eqn:Hy.
  - apply eqb_eq in Hy. split; [intros [v Hv]; discriminate | contradiction].
  - apply eqb_neq in Hy. split; [intros _; exact Hy | eexists; reflexivity].
Qed.

Lemma no_delta (ps : list TrackedPosition) :
  sum (map (fun p => 0 * tp_quantity p) ps) == 0.
Proof.
  apply Qle_antisym.
  - destruct (SignalsMore.sum_bounds 0 0 (map (fun p => 0 * tp_quantity p) ps))
      as [_ Hhi]; [|lra].
    apply Forall_forall. intros x Hx. apply in_map_iff in Hx as (p & <- & _).
    split; lra.
  - destruct (SignalsMore.sum_bounds 0 0 (map (fun p => 0 * tp_quantity p) ps))
      as [Hlo _]; [|lra].
    apply Forall_forall. intros x Hx. apply in_map_iff in Hx as (p & <- & _).
    split; lra.
Qed.

(** X21.  [get_portfolio_summary] returns exactly when every tracked position
    has an entry price and neither [max_portfolio_risk] nor [max_daily_loss]
    is 0 (it raises otherwise, also on an empty book); the portfolio delta it
    reports is always 0, no tracked position having a delta. *)
Theorem get_portfolio_summary_returns (m : Manager) :
  ((exists summary, get_portfolio_summary m = Returns summary)
   <-> Forall (fun p => tp_entry_price p <> None) (positions m)
       /\ ~ max_portfolio_risk (limits m) == 0
       /\ ~ max_daily_loss (limits m) == 0)
  /\ (forall summary,
        get_portfolio_summary m = Returns summary ->
        portfolio_delta summary == 0
        /\ total_positions summary = len (positions m)).
Proof.
  unfold get_portfolio_summary. split.
  - rewrite <- (invested_returns (positions m) 0).
    rewrite <- (divide_returns (Qabs (daily_pnl (limits m)))
                  (max_daily_loss (limits m))).
    destruct (invested (positions m) 0) as [total|e].
    + rewrite <- (divide_returns total (max_portfolio_risk (limits m))).
      destruct (divide total _) as [risk|e].
      * destruct (divide (Qabs _) _) as [daily|e].
        -- split; [intros _; repeat split; eexists; reflexivity|].
           intros _. eexists. reflexivity.
        -- split; [intros [v Hv]; discriminate|].
           intros (_ & _ & [v Hv]). discriminate.
      * split; [intros [v Hv]; discriminate|].
        intros (_ & [v Hv] & _). discriminate.
    + split; [intros [v Hv]; discriminate|].
      intros ([v Hv] & _). discriminate.
  - intros summary Hsummary.
    destruct (invested (positions m) 0) as [total|]; [|discriminate].
    destruct (divide total _) as [risk|]; [|discriminate].
    destruct (divide (Qabs _) _) as [daily|]; [|discriminate].
    injection Hsummary as <-. cbn [portfolio_delta total_positions].
    split; [apply no_delta | reflexivity].
Qed.

Lemma minimum_least (l : list Q) :
  forall x, minimum x l <= x /\ (forall y, In y l -> minimum x l <= y).
Proof.
  unfold minimum.
  induction l as [|z rest IH]; intros x; cbn [fold_left].
  - split; [apply Qle_refl | intros y []].
  - destruct (ltb z x) eqn:Hz.
    + apply ltb_lt in Hz. destruct (IH z) as [Hhead Hrest]. split.
      * eapply Qle_trans; [exact Hhead | apply Qlt_le_weak; exact Hz].
      * intros y [<- | Hy]; [exact Hhead | exact (Hrest y Hy)].
    + apply ltb_ge in Hz. destruct (IH x) as [Hhead Hrest]. split.
      * exact Hhead.
      * intros y [<- | Hy]; [|exact (Hrest y Hy)].
        eapply Qle_trans; [exact Hhead | exact Hz].
Qed.

(** X22.  Whatever [get_risk_metrics] returns, the maximum drawdown is at
    most 0 and at most the unrealized profit of every position, the win rate
    is a percentage between 0 and 100, and the positions at risk are at most
    as many as the positions. *)
Theorem get_risk_metrics_bounds (m : Manager) (metrics : Metrics) :
  get_risk_metrics m = Returns metrics ->
  max_drawdown metrics <= 0
  /\ (forall p, In p (positions m) -> max_drawdown metrics <= tp_unrealized_pnl p)
  /\ 0 <= win_rate metrics /\ win_rate metrics <= 100
  /\ 0 <= positions_at_risk metrics
  /\ positions_at_risk metrics <= len (positions m).
Proof.
  unfold get_risk_metrics. intros Hmetrics.
  destruct (get_portfolio_summary m) as [summary|]; [|discriminate].
  destruct (divide _ _) as [ratio|]; [|discriminate].
  injection Hmetrics as <-.
  cbn [max_drawdown win_rate positions_at_risk].
  assert (Hlen : (List.length (map tp_unrealized_pnl (positions m))
                  = List.length (positions m))%nat) by apply length_map.
  split; [|split; [|split; [|split; [|split]]]].
  - unfold min. destruct (ltb _ 0) eqn:Hneg; [|apply Qle_refl].
    apply ltb_lt in Hneg. apply Qlt_le_weak. exact Hneg.
  - intros p Hp.
    assert (Hin : In (tp_unrealized_pnl p) (map tp_unrealized_pnl (positions m)))
      by (apply in_map; exact Hp).
    destruct (map tp_unrealized_pnl (positions m)) as [|pnl rest]; [destruct Hin|].
    destruct (minimum_least rest pnl) as [Hhead Hrest].
    assert (Hmin : minimum pnl rest <= tp_unrealized_pnl p).
    { destruct Hin as [<- | Hin]; [exact Hhead | exact (Hrest _ Hin)]. }
    unfold min. destruct (ltb _ 0) eqn:Hneg; [exact Hmin|].
    apply ltb_ge in Hneg. eapply Qle_trans; [exact Hneg | exact Hmin].
  - destruct (gtb (len (positions m)) 0) eqn:Hany; [|apply Qle_refl].
    apply ltb_lt in Hany.
    apply SignalsMore.percentage_bounds; [| |exact Hany].
    + unfold len, Qle. cbn. lia.
    + apply len_le. rewrite <- Hlen. apply filter_length_le.
  - destruct (gtb (len (positions m)) 0) eqn:Hany; [|discriminate].
    apply ltb_lt in Hany.
    apply SignalsMore.percentage_bounds; [| |exact Hany].
    + unfold len, Qle. cbn. lia.
    + apply len_le. rewrite <- Hlen. apply filter_length_le.
  - unfold len, Qle. cbn. lia.
  - apply len_le. rewrite <- Hlen. apply filter_length_le.
Qed.

Lemma get_risk_metrics_bounds_witness :
  exists metrics,
    get_risk_metrics {| limits := init; positions := [nifty_position] |}
    = Returns metrics
    /\ max_drawdown metrics <= 0 /\ win_rate metrics <= 100.
Proof.
  eexists. split; [reflexivity|].
  destruct (get_risk_metrics_bounds
              {| limits := init; positions := [nifty_position] |} _ eq_refl)
    as (Hdrawdown & _ & _ & Hrate & _).
  split; [exact Hdrawdown | exact Hrate].
Defined.

End RiskBookProps.

(* ================================================================== *)
(** * The paper trading engine: properties *)
(* ================================================================== *)

Module PaperProps.
Import Py Paper PaperSpec PyFacts.

(** ** The two trading functions *)

(** What a successful [open_position] does. *)
Lemma open_position_opened (self self' : PaperTradingEngine) (now : datetime)
    (uuids : nat -> string) (signal : Signal) (trade_type : string)
    (r : Result) :
  open_position self now uuids signal trade_type = Ok (r, self') ->
  (success r = false /\ self' = self)
  \/ (exists position,
        let total_cost :=
          dget 0 (sig_price signal) * dget 1 (sig_quantity signal)
          * dget 75 (sig_lot_size signal) in
        r = Opened total_cost position
        /\ total_cost <= available_balance self
        /\ (trade_type = "paper" -> (trades_today self < max_daily_trades self)%Z)
        /\ status position = "open"
        /\ entry_price position * quantity position * lot_size position
           = total_cost
        /\ available_balance self' = available_balance self - total_cost
        /\ positions self' = (positions self ++ [position])%list
        /\ total_pnl self' = total_pnl self
        /\ daily_pnl self' = daily_pnl self
        /\ max_daily_trades self' = max_daily_trades self
        /\ trades_today self'
           = (if String.eqb trade_type "paper"
              then trades_today self + 1 else trades_today self)%Z).
Proof.
  unfold open_position. intros Hopen.
  destruct (gtb _ (available_balance self)) eqn:Hcost.
  { injection Hopen as <- <-. left. split; reflexivity. }
  apply ltb_ge in Hcost.
  destruct (Z.geb (trades_today self) (max_daily_trades self)
            && String.eqb trade_type "paper") eqn:Hlimit.
  { injection Hopen as <- <-. left. split; reflexivity. }
  destruct (index "symbol" (sig_symbol signal)) as [symbol|]; [|discriminate].
  destruct (index "strike" (sig_strike signal)) as [strike|]; [|discriminate].
  destruct (index "type" (sig_type signal)) as [option_type|]; [|discriminate].
  destruct (index "action" (sig_action signal)) as [action|]; [|discriminate].
  destruct (index "confidence" (sig_confidence signal)) as [confidence|];
    [|discriminate].
  destruct (index "reasoning" (sig_reasoning signal)) as [reasoning|];
    [|discriminate].
  cbn [bind] in Hopen. injection Hopen as <- <-.
  right. eexists. cbv zeta.
  split; [reflexivity|]. split; [exact Hcost|]. split.
  - intros ->. rewrite String.eqb_refl, andb_true_r in Hlimit.
    rewrite Z.geb_leb in Hlimit. apply Z.leb_gt in Hlimit. exact Hlimit.
  - repeat split.
Qed.

(** What a successful [close_position] does. *)
Lemma close_position_closed (self self' : PaperTradingEngine) (now : datetime)
    (uuids : nat -> string) (signal : Signal) (r : Result) :
  close_position self now uuids signal = Ok (r, self') ->
  (success r = false /\ self' = self)
  \/ (exists symbol strike option_type position,
        sig_symbol signal = Some symbol /\ sig_strike signal = Some strike
        /\ sig_type signal = Some option_type
        /\ find (matches symbol strike option_type) (positions self)
           = Some position
        /\ let exit_price := dget (current_price position) (sig_price signal) in
           let pnl :=
             exit_price * quantity position * lot_size position
             - entry_price position * quantity position * lot_size position in
           r = Closed pnl (closed_at position exit_price now pnl)
           /\ available_balance self'
              = available_balance self
                + exit_price * quantity position * lot_size position
           /\ total_pnl self' = total_pnl self + pnl
           /\ daily_pnl self' = daily_pnl self + pnl
           /\ positions self'
              = replace_first (matches symbol strike option_type)
                  (fun p => closed_at p exit_price now pnl) (positions self)
           /\ max_daily_trades self' = max_daily_trades self
           /\ trades_today self' = trades_today self).
Proof.
  unfold close_position. intros Hclose.
  destruct (sig_symbol signal) as [symbol|]; [|discriminate].
  destruct (sig_strike signal) as [strike|]; [|discriminate].
  destruct (sig_type signal) as [option_type|]; [|discriminate].
  cbn [index bind] in Hclose.
  destruct (find (matches symbol strike option_type) (positions self))
    as [position|] eqn:Hfind.
  - injection Hclose as <- <-. right.
    exists symbol, strike, option_type, position. cbv zeta.
    repeat split; exact Hfind.
  - injection Hclose as <- <-. left. split; reflexivity.
Qed.

(** ** The capital is conserved *)







(** ** A failed trade *)

(** X25.  A trade that [execute_trade] reports as failed, by a refusal or by
    an exception of a missing field, leaves the engine as it was. *)
Theorem execute_trade_failure_changes_nothing (self : PaperTradingEngine)
    (now : datetime) (uuids : nat -> string) (signal : Signal)
    (trade_type : string) :
  success (fst (execute_trade self now uuids signal trade_type)) = false ->
  snd (execute_trade self now uuids signal trade_type) = self.
Proof.
  unfold execute_trade.
  destruct (index "action" (sig_action signal)) as [action|]; [|reflexivity].
  cbn [bind].
  destruct (String.eqb action "BUY").
  - destruct (open_position self now uuids signal trade_type)
      as [[r self']|] eqn:Hopen; [|reflexivity].
    cbn [fst snd].
    destruct (open_position_opened _ _ _ _ _ _ _ Hopen)
      as [[_ ->] | (position & -> & _)]; [reflexivity | discriminate].
  - destruct (String.eqb action "SELL"); [|reflexivity].
    destruct (close_position self now uuids signal) as [[r self']|] eqn:Hclose;
      [|reflexivity].
    cbn [fst snd].
    destruct (close_position_closed _ _ _ _ _ _ Hclose)
      as [[_ ->] | (symbol & strike & option_type & position & _ & _ & _ & _
                    & -> & _)]; [reflexivity | discriminate].
Qed.

Lemma execute_trade_failure_changes_nothing_witness :
  snd (execute_trade init SignalsSpec.tuesday_10am sample_uuids sell_signal "paper")
  = init.
Proof.
  apply (execute_trade_failure_changes_nothing init SignalsSpec.tuesday_10am
           sample_uuids sell_signal "paper").
  reflexivity.
Defined.

(** ** The books *)








(** ** A purchase and its sale *)





(** ** The automatic paper trader *)



(** ** New prices and the automatic exits *)







(** ** Every triggered exit closes a position *)











End PaperProps.
